(** * GestureFlow: hand-gesture mouse control

    A shallow embedding of the control pipeline ([main_app.py], [main.py]),
    the calibration window ([calibration_window.py]) and the camera stream
    set-up ([video_streamer.py]), with the properties of the specification
    stated and settled against it.

    Numbers.  Python [int]s are modelled by [Z].  Python [float]s are
    modelled at two levels.  For the continuous quantities of the control
    loop (targets, cursor, smoothing, time stamps) they are exact rationals
    [Q], so that the arithmetic identities stated of them are those of exact
    arithmetic, free of binary64 rounding, and [float('inf')] is a
    constructor of its own.  Where a float comparison decides a branch, or a
    float is rounded into a stored setting or a displayed text (the threshold
    derivation, the active-region test and the values it commits, the
    averages of the pinch capture, the pixel bounds of the active region),
    the code is followed in IEEE 754 binary64 on the primitive floats
    (modules [Py64], [Control64], [Calibration64]).  Tkinter [StringVar]s
    that the code later parses back are modelled by inductive types whose
    constructors stand for the texts the code writes into them. *)

From Stdlib Require Import ZArith QArith Qround Qabs Qpower Qminmax Lqa Lia.
From Stdlib Require PrimFloat SpecFloat FloatOps.
From stdpp Require Import base option list gmap strings.

Open Scope Q_scope.

(** Statements in sequence: [w |> f |> g] runs [f], then [g]. *)
Notation "w |> f" := (f w) (at level 45, left associativity, only parsing).

(** ** Python and NumPy primitives used by the sources *)

Module Py.

(** [x < y] on floats, as a boolean. *)
Definition Qltb (x y : Q) : bool := negb (Qle_bool y x).

(** Built-in [max(a, b)]: the first argument unless the second is larger. *)
Definition max (a b : Q) : Q := if Qltb a b then b else a.

(** Built-in [min(a, b)]: the first argument unless the second is smaller. *)
Definition min (a b : Q) : Q := if Qltb b a then b else a.

(** [np.clip(a, a_min, a_max)], that is
    [np.minimum(a_max, np.maximum(a, a_min))]. *)
Definition np_clip (a a_min a_max : Q) : Q :=
  let lo := if Qltb a a_min then a_min else a in
  if Qltb a_max lo then a_max else lo.

(** [int(x)] on a float: truncation toward zero. *)
Definition int (x : Q) : Z :=
  if Qltb x 0 then Qceiling x else Qfloor x.

(** [np.interp(x, (xp0, xp1), (fp0, fp1))] on two sample points, following
    NumPy's search: [x] beyond the last point gives [fp1], before the first
    gives [fp0]; the segment index is the last sample point not above [x],
    and an index on the last point returns [fp1] (this is also what happens
    when the two sample points coincide); otherwise the value is
    [slope * (x - xp0) + fp0]. *)
Definition np_interp (x xp0 xp1 fp0 fp1 : Q) : Q :=
  if Qltb xp1 x then fp1
  else if Qltb x xp0 then fp0
  else if Qle_bool xp1 x then fp1
  else if Qeq_bool xp0 x then fp0
  else (fp1 - fp0) / (xp1 - xp0) * (x - xp0) + fp0.

(** [sum(xs)]: left to right from [0]. *)
Definition sum (xs : list Q) : Q := fold_left Qplus xs 0.

(** [sum(xs) / len(xs)]. *)
Definition mean (xs : list Q) : Q := sum xs / inject_Z (Z.of_nat (length xs)).

(** Rounding of an exact value to the nearest integer, ties to even. *)
Definition round_half_even (x : Q) : Z :=
  let f := Qfloor x in
  let r := x - inject_Z f in
  if Qltb r (1 # 2) then f
  else if Qltb (1 # 2) r then (f + 1)%Z
  else if Z.even f then f else (f + 1)%Z.

(** [round(x, ndigits)] for [ndigits >= 0]; also the value read back from
    the text of [f"{x:.<ndigits>f}"].  The result has denominator
    [10 ^ ndigits]. *)
Definition round (x : Q) (ndigits : nat) : Q :=
  let scale := Pos.pow 10 (Pos.of_nat ndigits) in
  match ndigits with
  | O => inject_Z (round_half_even x)
  | _ => Qmake (round_half_even (x * inject_Z (Zpos scale))) scale
  end.

(** [collections.deque(maxlen=n).append(x)]: the item is appended on the
    right and, when the length then exceeds [maxlen], the leftmost item is
    dropped (with [maxlen = 0] the deque stays empty). *)
Definition deque_append (maxlen : nat) (d : list Q) (x : Q) : list Q :=
  let d' := d ++ [x] in
  if (maxlen <? length d')%nat then drop 1 d' else d'.

End Py.

(** ** The per-frame control logic of [process_video_frame] *)

Module Control.

(** Instance attributes filled by [load_settings_from_config]. *)
Record Settings := {
  smoothing_factor : Q;
  raw_target_buffer_size : nat;
  active_region_x_min_percent : Q;
  active_region_x_max_percent : Q;
  active_region_y_min_percent : Q;
  active_region_y_max_percent : Q;
  pinch_threshold_distance_config : Q;
  double_click_window_sec : Q
}.

(** [DEFAULT_CONFIG] of [config_manager.py], as loaded. *)
Definition default_settings : Settings := {|
  smoothing_factor := 0.20;
  raw_target_buffer_size := 5;
  active_region_x_min_percent := 0.15;
  active_region_x_max_percent := 0.85;
  active_region_y_min_percent := 0.15;
  active_region_y_max_percent := 0.85;
  pinch_threshold_distance_config := 25;
  double_click_window_sec := 0.4
|}.

(** What one frame brings besides the landmarks: the frame's shape, the
    screen size held by the mouse wrapper, the slider's sensitivity and the
    reading [time.perf_counter()] would give during this frame. *)
Record FrameEnv := {
  frame_width : Z;
  frame_height : Z;
  screen_width : Z;
  screen_height : Z;
  current_sensitivity : Q;
  perf_counter : Q
}.

(** The pinch distance returned by [get_pinch_info]. *)
Inductive Distance :=
| Finite (d : Q)
| Inf.

(** [hand_landmarks] of one frame: none, or a hand with the index fingertip
    of [get_finger_tip_coordinates] ([None] when the landmark is missing)
    and the pinch distance of [get_pinch_info]. *)
Inductive Hand :=
| NoHand
| HandSeen (index_tip : option (Z * Z)) (pinch_distance : Distance).

(** The smoothing and click attributes of the application object. *)
Record State := {
  prev_cursor_x : Q;
  prev_cursor_y : Q;
  raw_target_history_x : list Q;
  raw_target_history_y : list Q;
  is_pinching_prev_frame : bool;
  last_click_event_time : Q
}.

(** Calls to [mouse_controller.click(count=n)]. *)
Inductive Action :=
| Click (count : nat).

(** *** Active region (lines 349-365) *)

(** One axis of the effective active region: centre, span divided by the
    sensitivity (the slider ranges over [[0.5, 3.0]]), clipped to [[0, 1]],
    and re-opened by [0.01] when the clipped bounds meet or cross. *)
Definition effective_bounds (lo_percent hi_percent sensitivity : Q) : Q * Q :=
  let center := (lo_percent + hi_percent) / 2 in
  let base := hi_percent - lo_percent in
  let effective := base / sensitivity in
  let cur_min := Py.np_clip (center - effective / 2) 0 1 in
  let cur_max := Py.np_clip (center + effective / 2) 0 1 in
  let cur_max := if Qle_bool cur_max cur_min then cur_min + 0.01 else cur_max in
  (cur_min, cur_max).

(** The pixel bounds [(a1, a2)] of one axis for a frame of [extent]
    pixels. *)
Definition pixel_bounds (bounds : Q * Q) (extent : Z) : Z * Z :=
  (Py.int (fst bounds * inject_Z extent), Py.int (snd bounds * inject_Z extent)).

(** *** Coordinate mapping (lines 377-380), one axis *)

Definition raw_target_screen (tip : Q) (a1 a2 : Z) (screen : Z) : Q :=
  let clamped := Py.np_clip tip (inject_Z a1) (inject_Z a2) in
  Py.np_interp clamped (inject_Z a1) (inject_Z a2) 0 (inject_Z screen).

(** The whole mapping of one axis, from the settings to the raw target. *)
Definition map_axis (lo_percent hi_percent sensitivity : Q)
           (extent screen : Z) (tip : Q) : Q :=
  let '(a1, a2) := pixel_bounds (effective_bounds lo_percent hi_percent sensitivity) extent in
  raw_target_screen tip a1 a2 screen.

(** *** Two-stage smoothing (lines 381-389), one axis *)

(** Stage 1: the mean of the history after the push, or the raw target when
    the history is empty.  (The source tests the x history for both axes; the
    two deques have the same [maxlen] and are pushed and cleared together, so
    they are empty together: see [histories_same_length].) *)
Definition avg_target (history : list Q) (raw : Q) : Q :=
  match history with
  | [] => raw
  | _ => Py.mean history
  end.

(** Push, average, exponential step: the new history and the new cursor. *)
Definition smooth_axis (alpha : Q) (maxlen : nat)
           (history : list Q) (prev raw : Q) : list Q * Q :=
  let history' := Py.deque_append maxlen history raw in
  let avg := avg_target history' raw in
  (history', prev * (1 - alpha) + avg * alpha).

(** The history holds nothing but the value [T]. *)
Definition holds_only (T : Q) (history : list Q) : Prop :=
  Forall (fun x => x == T) history.

(** The filter driven by a sequence of raw targets, one per frame. *)
Fixpoint smooth_run (alpha : Q) (maxlen : nat) (raws : list Q)
         (history : list Q) (prev : Q) : list Q * Q :=
  match raws with
  | [] => (history, prev)
  | raw :: rest =>
      let '(history', next) := smooth_axis alpha maxlen history prev raw in
      smooth_run alpha maxlen rest history' next
  end.

(** *** Click detection (lines 391-405) *)

Definition is_pinching (threshold : Q) (d : Distance) : bool :=
  match d with
  | Finite x => Py.Qltb x threshold
  | Inf => false
  end.

(** The rising-edge block.  Both branches fall through to the assignment
    [last_click_event_time = ctime] of line 404, which runs after the
    [if]/[else] and so also after the [= 0] of the double-click branch. *)
Definition click_step (cfg : Settings) (ctime : Q) (pinching : bool)
           (prev_pinching : bool) (last : Q) : bool * Q * list Action :=
  if pinching && negb prev_pinching then
    let '(acts, last_in_branch) :=
      if Py.Qltb (ctime - last) (double_click_window_sec cfg)
      then ([Click 2], 0)
      else ([Click 1], last) in
    let last_after := ctime in
    (pinching, last_after, acts)
  else (pinching, last, []).

(** *** The hand-logic block (lines 372-411) *)

Definition hand_logic (cfg : Settings) (env : FrameEnv) (st : State) (hand : Hand)
  : State * list Action :=
  match hand with
  | HandSeen tip dist =>
      let st1 :=
        match tip with
        | Some (ix, iy) =>
            let s := current_sensitivity env in
            let rx := map_axis (active_region_x_min_percent cfg)
                               (active_region_x_max_percent cfg) s
                               (frame_width env) (screen_width env) (inject_Z ix) in
            let ry := map_axis (active_region_y_min_percent cfg)
                               (active_region_y_max_percent cfg) s
                               (frame_height env) (screen_height env) (inject_Z iy) in
            let '(hx, cx) := smooth_axis (smoothing_factor cfg) (raw_target_buffer_size cfg)
                                         (raw_target_history_x st) (prev_cursor_x st) rx in
            let '(hy, cy) := smooth_axis (smoothing_factor cfg) (raw_target_buffer_size cfg)
                                         (raw_target_history_y st) (prev_cursor_y st) ry in
            {| prev_cursor_x := cx; prev_cursor_y := cy;
               raw_target_history_x := hx; raw_target_history_y := hy;
               is_pinching_prev_frame := is_pinching_prev_frame st;
               last_click_event_time := last_click_event_time st |}
        | None => st
        end in
      let pinching := is_pinching (pinch_threshold_distance_config cfg) dist in
      let '(prev', last', acts) :=
        click_step cfg (perf_counter env) pinching
                   (is_pinching_prev_frame st1) (last_click_event_time st1) in
      ({| prev_cursor_x := prev_cursor_x st1; prev_cursor_y := prev_cursor_y st1;
          raw_target_history_x := raw_target_history_x st1;
          raw_target_history_y := raw_target_history_y st1;
          is_pinching_prev_frame := prev';
          last_click_event_time := last' |}, acts)
  | NoHand =>
      ({| prev_cursor_x := prev_cursor_x st; prev_cursor_y := prev_cursor_y st;
          raw_target_history_x := []; raw_target_history_y := [];
          is_pinching_prev_frame := false;
          last_click_event_time := last_click_event_time st |}, [])
  end.

(** A run of frames: the final state and the clicks performed, in order. *)
Fixpoint run (cfg : Settings) (st : State) (frames : list (FrameEnv * Hand))
  : State * list Action :=
  match frames with
  | [] => (st, [])
  | (env, hand) :: rest =>
      let '(st', acts) := hand_logic cfg env st hand in
      let '(st'', acts') := run cfg st' rest in
      (st'', acts ++ acts')
  end.

End Control.

(** ** The calibration window ([calibration_window.py]) *)

Module Calibration.

Inductive CalibState :=
| CALIB_STATE_IDLE
| CALIB_STATE_WAITING_TOP_LEFT
| CALIB_STATE_WAITING_BOTTOM_RIGHT
| CALIB_STATE_WAITING_OPEN_HAND
| CALIB_STATE_WAITING_PINCH.

(** Texts of [ar_status_var]. *)
Inductive ArStatus :=
| ArIdle
| ArMoveTopLeft
| ArMoveBottomRight
| ArNotDetected
| ArHoldTopLeft (countdown_sec : Z)
| ArHoldBottomRight (countdown_sec : Z)
| ArTopLeftCaptured
| ArBottomRightCaptured.

(** Texts of [pt_status_var]. *)
Inductive PtStatus :=
| PtIdle
| PtHoldOpenStart
| PtHoldPinchStart
| PtNotClear
| PtHoldOpen (countdown_sec : Z) (dist : Q)
| PtHoldPinch (countdown_sec : Z) (dist : Q)
| PtOpenCaptured
| PtOpenFailed
| PtPinchCaptured
| PtPinchFailed.

(** Texts of [ar_tl_var] and [ar_br_var]. *)
Inductive PointVar :=
| PointNotSet
| PointCapturing
| PointAt (x y : Q).

(** Texts of [pt_open_dist_var] and [pt_pinch_dist_var]:
    ["Avg ... Dist: Not set"] and [f"Avg ... Dist: {avg:.2f}"]. *)
Inductive DistVar :=
| DistNotSet
| DistAvg (avg : Q).

(** Texts of [pt_new_threshold_var]: ["New Threshold: Not calculated"],
    [f"New Threshold: {new_threshold:.2f}"] and the two error texts. *)
Inductive ThresholdVar :=
| ThresholdNotCalculated
| ThresholdValue (new_threshold : Q)
| ThresholdErrorTooClose
| ThresholdErrorCalculating.

Record Window := {
  calibration_state : CalibState;
  temp_active_region_tl_norm : option (Q * Q);
  temp_active_region_br_norm : option (Q * Q);
  temp_open_hand_distances : list Q;
  temp_pinch_distances : list Q;
  capture_countdown : Z;
  show_calibration_feed : bool;
  ar_status_var : ArStatus;
  pt_status_var : PtStatus;
  ar_tl_var : PointVar;
  ar_br_var : PointVar;
  pt_open_dist_var : DistVar;
  pt_pinch_dist_var : DistVar;
  pt_new_threshold_var : ThresholdVar;
  ar_br_button_enabled : bool;
  pt_pinch_button_enabled : bool
}.

(** The window as [__init__] leaves it. *)
Definition init : Window := {|
  calibration_state := CALIB_STATE_IDLE;
  temp_active_region_tl_norm := None;
  temp_active_region_br_norm := None;
  temp_open_hand_distances := [];
  temp_pinch_distances := [];
  capture_countdown := 0;
  show_calibration_feed := false;
  ar_status_var := ArIdle;
  pt_status_var := PtIdle;
  ar_tl_var := PointNotSet;
  ar_br_var := PointNotSet;
  pt_open_dist_var := DistNotSet;
  pt_pinch_dist_var := DistNotSet;
  pt_new_threshold_var := ThresholdNotCalculated;
  ar_br_button_enabled := false;
  pt_pinch_button_enabled := false
|}.

(** Attribute assignments. *)
Definition set_calibration_state (v : CalibState) (w : Window) : Window :=
  let (_, a, b, c, d, e, f, g, h, i, j, k, l, m, n, o) := w in
  Build_Window v a b c d e f g h i j k l m n o.
Definition set_tl (v : option (Q * Q)) (w : Window) : Window :=
  let (a, _, b, c, d, e, f, g, h, i, j, k, l, m, n, o) := w in
  Build_Window a v b c d e f g h i j k l m n o.
Definition set_br (v : option (Q * Q)) (w : Window) : Window :=
  let (a, b, _, c, d, e, f, g, h, i, j, k, l, m, n, o) := w in
  Build_Window a b v c d e f g h i j k l m n o.
Definition set_open_distances (v : list Q) (w : Window) : Window :=
  let (a, b, c, _, d, e, f, g, h, i, j, k, l, m, n, o) := w in
  Build_Window a b c v d e f g h i j k l m n o.
Definition set_pinch_distances (v : list Q) (w : Window) : Window :=
  let (a, b, c, d, _, e, f, g, h, i, j, k, l, m, n, o) := w in
  Build_Window a b c d v e f g h i j k l m n o.
Definition set_countdown (v : Z) (w : Window) : Window :=
  let (a, b, c, d, e, _, f, g, h, i, j, k, l, m, n, o) := w in
  Build_Window a b c d e v f g h i j k l m n o.
Definition set_show_feed (v : bool) (w : Window) : Window :=
  let (a, b, c, d, e, f, _, g, h, i, j, k, l, m, n, o) := w in
  Build_Window a b c d e f v g h i j k l m n o.
Definition set_ar_status (v : ArStatus) (w : Window) : Window :=
  let (a, b, c, d, e, f, g, _, h, i, j, k, l, m, n, o) := w in
  Build_Window a b c d e f g v h i j k l m n o.
Definition set_pt_status (v : PtStatus) (w : Window) : Window :=
  let (a, b, c, d, e, f, g, h, _, i, j, k, l, m, n, o) := w in
  Build_Window a b c d e f g h v i j k l m n o.
Definition set_ar_tl_var (v : PointVar) (w : Window) : Window :=
  let (a, b, c, d, e, f, g, h, i, _, j, k, l, m, n, o) := w in
  Build_Window a b c d e f g h i v j k l m n o.
Definition set_ar_br_var (v : PointVar) (w : Window) : Window :=
  let (a, b, c, d, e, f, g, h, i, j, _, k, l, m, n, o) := w in
  Build_Window a b c d e f g h i j v k l m n o.
Definition set_pt_open_dist_var (v : DistVar) (w : Window) : Window :=
  let (a, b, c, d, e, f, g, h, i, j, k, _, l, m, n, o) := w in
  Build_Window a b c d e f g h i j k v l m n o.
Definition set_pt_pinch_dist_var (v : DistVar) (w : Window) : Window :=
  let (a, b, c, d, e, f, g, h, i, j, k, l, _, m, n, o) := w in
  Build_Window a b c d e f g h i j k l v m n o.
Definition set_pt_new_threshold_var (v : ThresholdVar) (w : Window) : Window :=
  let (a, b, c, d, e, f, g, h, i, j, k, l, m, _, n, o) := w in
  Build_Window a b c d e f g h i j k l m v n o.
Definition set_ar_br_button (v : bool) (w : Window) : Window :=
  let (a, b, c, d, e, f, g, h, i, j, k, l, m, n, _, o) := w in
  Build_Window a b c d e f g h i j k l m n v o.
Definition set_pt_pinch_button (v : bool) (w : Window) : Window :=
  let (a, b, c, d, e, f, g, h, i, j, k, l, m, n, o, _) := w in
  Build_Window a b c d e f g h i j k l m n o v.

(** What the window reads from the application: [main_app_ref.target_fps]
    and its own two hold durations (2 s and 3 s in [__init__]). *)
Record Timing := {
  target_fps : Z;
  ar_capture_duration_s : Z;
  pinch_capture_duration_s : Z
}.

Definition default_timing : Timing :=
  {| target_fps := 60; ar_capture_duration_s := 2; pinch_capture_duration_s := 3 |}.

(** [capture_countdown // target_fps + 1 if target_fps > 0 else duration]. *)
Definition countdown_sec (t : Timing) (countdown duration : Z) : Z :=
  if (0 <? target_fps t)%Z then (countdown / target_fps t + 1)%Z else duration.

(** *** Arming a capture *)

Definition start_capture_top_left (t : Timing) (w : Window) : Window :=
  w |> set_ar_status ArMoveTopLeft
    |> set_calibration_state CALIB_STATE_WAITING_TOP_LEFT
    |> set_tl None
    |> set_ar_tl_var PointCapturing
    |> set_ar_br_button false
    |> set_show_feed true
    |> set_countdown (ar_capture_duration_s t * target_fps t)%Z.

Definition start_capture_bottom_right (t : Timing) (w : Window) : Window :=
  w |> set_ar_status ArMoveBottomRight
    |> set_calibration_state CALIB_STATE_WAITING_BOTTOM_RIGHT
    |> set_br None
    |> set_ar_br_var PointCapturing
    |> set_show_feed true
    |> set_countdown (ar_capture_duration_s t * target_fps t)%Z.

Definition capture_ar_point_on_key (w : Window) : Window :=
  match calibration_state w with
  | CALIB_STATE_WAITING_TOP_LEFT | CALIB_STATE_WAITING_BOTTOM_RIGHT => set_countdown 1 w
  | _ => w
  end.

Definition start_capture_open_hand (t : Timing) (w : Window) : Window :=
  w |> set_pt_status PtHoldOpenStart
    |> set_calibration_state CALIB_STATE_WAITING_OPEN_HAND
    |> set_open_distances []
    |> set_countdown (pinch_capture_duration_s t * target_fps t)%Z
    |> set_pt_pinch_button false
    |> set_show_feed true.

Definition start_capture_pinch (t : Timing) (w : Window) : Window :=
  w |> set_pt_status PtHoldPinchStart
    |> set_calibration_state CALIB_STATE_WAITING_PINCH
    |> set_pinch_distances []
    |> set_countdown (pinch_capture_duration_s t * target_fps t)%Z
    |> set_show_feed true.

(** *** [process_ar_capture(norm_x, norm_y)] *)

Definition process_ar_capture (t : Timing) (norm_x norm_y : option Q) (w : Window)
  : Window :=
  match norm_x, norm_y with
  | Some x, Some y =>
      if (0 <? capture_countdown w)%Z then
        let w1 := set_countdown (capture_countdown w - 1)%Z w in
        let sec := countdown_sec t (capture_countdown w1) (ar_capture_duration_s t) in
        match calibration_state w1 with
        | CALIB_STATE_WAITING_TOP_LEFT => set_ar_status (ArHoldTopLeft sec) w1
        | CALIB_STATE_WAITING_BOTTOM_RIGHT => set_ar_status (ArHoldBottomRight sec) w1
        | _ => w1
        end
      else
        match calibration_state w with
        | CALIB_STATE_WAITING_TOP_LEFT =>
            w |> set_tl (Some (x, y))
              |> set_ar_tl_var (PointAt x y)
              |> set_ar_status ArTopLeftCaptured
              |> set_ar_br_button true
              |> set_calibration_state CALIB_STATE_IDLE
        | CALIB_STATE_WAITING_BOTTOM_RIGHT =>
            w |> set_br (Some (x, y))
              |> set_ar_br_var (PointAt x y)
              |> set_ar_status ArBottomRightCaptured
              |> set_calibration_state CALIB_STATE_IDLE
        | _ => w
        end
  | _, _ => set_ar_status ArNotDetected w
  end.

(** *** [calculate_and_display_new_pinch_threshold()] *)

(** [float(text.split(":")[1].strip())] on an average's text: the two
    printed decimals, or a [ValueError] on ["Not set"]. *)
Definition parse_dist_var (v : DistVar) : option Q :=
  match v with
  | DistNotSet => None
  | DistAvg avg => Some (Py.round avg 2)
  end.

(** Lines 267-273 on the two parsed averages: the new threshold, or [None]
    for the branch that shows ["Error (Open <= Pinch or too close)"]. *)
Definition derive_threshold (avg_open avg_pinch : Q) : option Q :=
  if Py.Qltb (avg_pinch + 1) avg_open then
    let new_threshold := avg_pinch + (avg_open - avg_pinch) * 0.35 in
    Some (Py.max 5 new_threshold)
  else None.

Definition calculate_and_display_new_pinch_threshold (w : Window) : Window :=
  match parse_dist_var (pt_open_dist_var w), parse_dist_var (pt_pinch_dist_var w) with
  | Some avg_open, Some avg_pinch =>
      match derive_threshold avg_open avg_pinch with
      | Some new_threshold => set_pt_new_threshold_var (ThresholdValue new_threshold) w
      | None => set_pt_new_threshold_var ThresholdErrorTooClose w
      end
  | _, _ => set_pt_new_threshold_var ThresholdErrorCalculating w
  end.

(** *** [process_pinch_capture(pinch_distance_pixels)] *)

Definition process_pinch_capture (t : Timing)
           (pinch_distance_pixels : option Control.Distance) (w : Window) : Window :=
  match pinch_distance_pixels with
  | Some (Control.Finite dist) =>
      if (0 <? capture_countdown w)%Z then
        let w1 := set_countdown (capture_countdown w - 1)%Z w in
        let sec := countdown_sec t (capture_countdown w1) (pinch_capture_duration_s t) in
        match calibration_state w1 with
        | CALIB_STATE_WAITING_OPEN_HAND =>
            w1 |> set_pt_status (PtHoldOpen sec dist)
               |> set_open_distances (temp_open_hand_distances w1 ++ [dist])
        | CALIB_STATE_WAITING_PINCH =>
            w1 |> set_pt_status (PtHoldPinch sec dist)
               |> set_pinch_distances (temp_pinch_distances w1 ++ [dist])
        | _ => w1
        end
      else
        match calibration_state w with
        | CALIB_STATE_WAITING_OPEN_HAND =>
            let w1 :=
              match temp_open_hand_distances w with
              | [] => set_pt_status PtOpenFailed w
              | _ =>
                  let avg_open_dist := Py.mean (temp_open_hand_distances w) in
                  w |> set_pt_open_dist_var (DistAvg avg_open_dist)
                    |> set_pt_status PtOpenCaptured
                    |> set_pt_pinch_button true
              end in
            set_calibration_state CALIB_STATE_IDLE w1
        | CALIB_STATE_WAITING_PINCH =>
            let w1 :=
              match temp_pinch_distances w with
              | [] => set_pt_status PtPinchFailed w
              | _ =>
                  let avg_pinch_dist := Py.mean (temp_pinch_distances w) in
                  w |> set_pt_pinch_dist_var (DistAvg avg_pinch_dist)
                    |> set_pt_status PtPinchCaptured
                    |> calculate_and_display_new_pinch_threshold
              end in
            set_calibration_state CALIB_STATE_IDLE w1
        | _ => w
        end
  | _ => set_pt_status PtNotClear w
  end.

(** Successive calls of [process_pinch_capture], one per frame. *)
Fixpoint feed_pinch (t : Timing) (inputs : list (option Control.Distance))
         (w : Window) : Window :=
  match inputs with
  | [] => w
  | d :: rest => feed_pinch t rest (process_pinch_capture t d w)
  end.

(** *** The landmark part of [update_calibration_step] (lines 345-356) *)

(** The fingertip pixel of [get_finger_tip_coordinates] and the distance of
    [get_pinch_info] for the current frame. *)
Record Landmarks := {
  index_tip : option (Z * Z);
  pinch_dist_pixels : Control.Distance
}.

Definition update_calibration_step (t : Timing) (frame_width frame_height : Z)
           (lm : Landmarks) (w : Window) : Window :=
  if show_calibration_feed w then
    match calibration_state w with
    | CALIB_STATE_WAITING_TOP_LEFT | CALIB_STATE_WAITING_BOTTOM_RIGHT =>
        match index_tip lm with
        | Some (pix_x, pix_y) =>
            process_ar_capture t (Some (inject_Z pix_x / inject_Z frame_width))
                               (Some (inject_Z pix_y / inject_Z frame_height)) w
        | None => process_ar_capture t None None w
        end
    | CALIB_STATE_WAITING_OPEN_HAND | CALIB_STATE_WAITING_PINCH =>
        match pinch_dist_pixels lm with
        | Control.Inf => process_pinch_capture t None w
        | d => process_pinch_capture t (Some d) w
        end
    | CALIB_STATE_IDLE => w
    end
  else w.

(** *** [apply_and_save_settings()] *)

(** [ConfigManager]: the dictionary in memory and what [save_config] last
    wrote to the settings file. *)
Record ConfigManager := {
  config : gmap string Q;
  settings_file : gmap string Q
}.

Definition config_set (key : string) (value : Q) (cm : ConfigManager) : ConfigManager :=
  {| config := <[key := value]> (config cm); settings_file := settings_file cm |}.

Definition save_config (cm : ConfigManager) : ConfigManager :=
  {| config := config cm; settings_file := config cm |}.

(** Message boxes shown to the operator. *)
Inductive Dialog :=
| ErrorInvalidActiveRegion
| InfoSettingsApplied
| InfoNothingToApply.

(** The corners sorted into [(x_min, x_max, y_min, y_max)] (lines 281-284). *)
Definition sorted_corners (tl br : Q * Q) : Q * Q * Q * Q :=
  (Py.min (fst tl) (fst br), Py.max (fst tl) (fst br),
   Py.min (snd tl) (snd br), Py.max (snd tl) (snd br)).

(** The test of line 285. *)
Definition region_accepted (r : Q * Q * Q * Q) : bool :=
  let '(x_min, x_max, y_min, y_max) := r in
  Py.Qltb (x_min + 0.01) x_max && Py.Qltb (y_min + 0.01) y_max.

(** The value [float(...)] reads from the threshold text, when the text
    passes the test of line 294 and parses. *)
Definition parse_threshold_var (v : ThresholdVar) : option Q :=
  match v with
  | ThresholdValue new_threshold => Some (Py.round new_threshold 2)
  | _ => None
  end.

Record Applied := {
  applied_config : ConfigManager;
  dialogs : list Dialog;
  (** whether [main_app_ref.load_settings_from_config()] was called *)
  settings_reloaded : bool
}.

Definition apply_and_save_settings (w : Window) (cm : ConfigManager) : Applied :=
  let '(cm1, applied1, dlg1) :=
    match temp_active_region_tl_norm w, temp_active_region_br_norm w with
    | Some tl, Some br =>
        let '(x_min, x_max, y_min, y_max) := sorted_corners tl br in
        if region_accepted (x_min, x_max, y_min, y_max) then
          (cm |> config_set "active_region_x_min_percent" (Py.round x_min 3)
              |> config_set "active_region_x_max_percent" (Py.round x_max 3)
              |> config_set "active_region_y_min_percent" (Py.round y_min 3)
              |> config_set "active_region_y_max_percent" (Py.round y_max 3),
           true, [])
        else (cm, false, [ErrorInvalidActiveRegion])
    | _, _ => (cm, false, [])
    end in
  let '(cm2, applied2) :=
    match parse_threshold_var (pt_new_threshold_var w) with
    | Some new_threshold_val =>
        (config_set "pinch_threshold_distance" (Py.round new_threshold_val 2) cm1, true)
    | None => (cm1, applied1)
    end in
  if applied2 then
    {| applied_config := save_config cm2;
       dialogs := dlg1 ++ [InfoSettingsApplied];
       settings_reloaded := true |}
  else
    {| applied_config := cm2;
       dialogs := dlg1 ++ [InfoNothingToApply];
       settings_reloaded := false |}.

(** The window with its two status texts blanked: two windows with the same
    image differ at most in [ar_status_var] and [pt_status_var]. *)
Definition without_status (w : Window) : Window :=
  w |> set_ar_status ArIdle |> set_pt_status PtIdle.

(** A frame whose pinch distance is usable. *)
Definition valid_distance (dist : Q) : option Control.Distance :=
  Some (Control.Finite dist).

(** The four configuration keys of the active region. *)
Definition active_region_keys : list string :=
  [ "active_region_x_min_percent"; "active_region_x_max_percent";
    "active_region_y_min_percent"; "active_region_y_max_percent" ].

(** The configuration holds, under [key], a number equal to [q]. *)
Definition config_has (cm : ConfigManager) (key : string) (q : Q) : Prop :=
  exists v, config cm !! key = Some v /\ v == q.

End Calibration.

(** ** Opening the camera ([video_streamer.py]) *)

Module Stream.

Inductive CapProp :=
| CAP_PROP_FRAME_WIDTH
| CAP_PROP_FRAME_HEIGHT.

(** The part of [cv2.VideoCapture] the stream uses, over the device's own
    state: [cap_get] is [int(stream.get(prop))], [cap_read] tells whether a
    frame was grabbed. *)
Class VideoCapture (Cap : Type) := {
  cap_isOpened : Cap -> bool;
  cap_get : Cap -> CapProp -> Z;
  cap_set : Cap -> CapProp -> Z -> Cap;
  cap_read : Cap -> bool * Cap;
  cap_release : Cap -> Cap
}.

Section WebcamVideoStream.

Context {Cap : Type} `{VideoCapture Cap}.

Record WebcamVideoStream := {
  requested_width : Z;
  requested_height : Z;
  stream : option Cap;
  actual_width : Z;
  actual_height : Z;
  grabbed : bool;
  (** number of frames waiting in [frame_queue] *)
  frame_queue : nat
}.

(** [__init__(src, width, height)]. *)
Definition new_stream (width height : Z) : WebcamVideoStream :=
  {| requested_width := width; requested_height := height; stream := None;
     actual_width := 0; actual_height := 0; grabbed := false; frame_queue := 0 |}.

(** Step 2: the resolution requested from the device, if any. *)
Definition attempt_request (width height : Z) (cap : Cap) : Cap :=
  let w0 := cap_get cap CAP_PROP_FRAME_WIDTH in
  let h0 := cap_get cap CAP_PROP_FRAME_HEIGHT in
  let '(fw, fh) :=
    if (0 <? width)%Z && (0 <? height)%Z then (width, height) else (w0, h0) in
  if (0 <? fw)%Z && (0 <? fh)%Z
  then cap_set (cap_set cap CAP_PROP_FRAME_WIDTH fw) CAP_PROP_FRAME_HEIGHT fh
  else cap.

(** Lines 63-68: more than 50% away from a valid request. *)
Definition significantly_different_from_request
           (width height cur_w cur_h : Z) : bool :=
  ((0 <? width)%Z && (0 <? height)%Z) &&
  (Py.Qltb (inject_Z width * 0.5) (Qabs (inject_Z (cur_w - width))) ||
   Py.Qltb (inject_Z height * 0.5) (Qabs (inject_Z (cur_h - height)))).

(** Step 4: re-applying the device's initial default. *)
Definition fall_back (w0 h0 : Z) (cap : Cap) : Cap :=
  cap_set (cap_set cap CAP_PROP_FRAME_WIDTH w0) CAP_PROP_FRAME_HEIGHT h0.

(** [_initialize_stream()], given the capture [cv2.VideoCapture(src)]
    returned. *)
Definition initialize_stream (s : WebcamVideoStream) (opened : Cap)
  : bool * WebcamVideoStream :=
  let with_stream (c : option Cap) (aw ah : Z) (g : bool) (q : nat) :=
    {| requested_width := requested_width s; requested_height := requested_height s;
       stream := c; actual_width := aw; actual_height := ah;
       grabbed := g; frame_queue := q |} in
  if negb (cap_isOpened opened) then
    (false, with_stream None (actual_width s) (actual_height s) (grabbed s) (frame_queue s))
  else
    let w0 := cap_get opened CAP_PROP_FRAME_WIDTH in
    let h0 := cap_get opened CAP_PROP_FRAME_HEIGHT in
    let cap1 := attempt_request (requested_width s) (requested_height s) opened in
    let cur_w := cap_get cap1 CAP_PROP_FRAME_WIDTH in
    let cur_h := cap_get cap1 CAP_PROP_FRAME_HEIGHT in
    let first_frame (cap : Cap) (aw ah : Z) :=
      let '(g, cap') := cap_read cap in
      if g then (true, with_stream (Some cap') aw ah true 1%nat)
      else
        let cap'' := if cap_isOpened cap' then cap_release cap' else cap' in
        (false, with_stream None aw ah false (frame_queue s)) in
    if (cur_w =? 0)%Z || (cur_h =? 0)%Z
       || significantly_different_from_request
            (requested_width s) (requested_height s) cur_w cur_h
    then
      if (0 <? w0)%Z && (0 <? h0)%Z then
        let cap2 := fall_back w0 h0 cap1 in
        first_frame cap2 (cap_get cap2 CAP_PROP_FRAME_WIDTH)
                    (cap_get cap2 CAP_PROP_FRAME_HEIGHT)
      else if (cur_w =? 0)%Z || (cur_h =? 0)%Z then
        (false, with_stream None cur_w cur_h (grabbed s) (frame_queue s))
      else first_frame cap1 cur_w cur_h
    else first_frame cap1 cur_w cur_h.

End WebcamVideoStream.

(** A camera with a fixed native resolution that ignores every [set]. *)
Record FixedCamera := {
  native_width : Z;
  native_height : Z
}.

#[export] Instance fixed_camera_capture : VideoCapture FixedCamera := {|
  cap_isOpened _ := true;
  cap_get c p := match p with
                 | CAP_PROP_FRAME_WIDTH => native_width c
                 | CAP_PROP_FRAME_HEIGHT => native_height c
                 end;
  cap_set c _ _ := c;
  cap_read c := (true, c);
  cap_release c := c
|}.

(** A camera that takes any positive resolution it is asked for. *)
Record FreeCamera := {
  cur_width : Z;
  cur_height : Z
}.

#[export] Instance free_camera_capture : VideoCapture FreeCamera := {|
  cap_isOpened _ := true;
  cap_get c p := match p with
                 | CAP_PROP_FRAME_WIDTH => cur_width c
                 | CAP_PROP_FRAME_HEIGHT => cur_height c
                 end;
  cap_set c p v := match p with
                   | CAP_PROP_FRAME_WIDTH => {| cur_width := v; cur_height := cur_height c |}
                   | CAP_PROP_FRAME_HEIGHT => {| cur_width := cur_width c; cur_height := v |}
                   end;
  cap_read c := (true, c);
  cap_release c := c
|}.

End Stream.


(** ** Concrete scenarios used below *)

Module Scenario.

Import Control.

(** A frame of the default 640x480 camera on a 1920x1080 screen, read at
    time [t]. *)
Definition frame_at (t : Q) : FrameEnv :=
  {| frame_width := 640; frame_height := 480;
     screen_width := 1920; screen_height := 1080;
     current_sensitivity := 1.5; perf_counter := t |}.

(** The application just after [start_hand_control], cursor at (100, 100). *)
Definition idle_state : State :=
  {| prev_cursor_x := 100; prev_cursor_y := 100;
     raw_target_history_x := []; raw_target_history_y := [];
     is_pinching_prev_frame := false; last_click_event_time := 0 |}.

Definition pinched : Hand := HandSeen (Some (320, 240)%Z) (Finite 10).
Definition released : Hand := HandSeen (Some (320, 240)%Z) (Finite 50).

(** Three pinches 0.1 s apart, with the fingers opened in between. *)
Definition three_rapid_pinches : list (FrameEnv * Hand) :=
  [ (frame_at 10.0, pinched); (frame_at 10.05, released);
    (frame_at 10.1, pinched); (frame_at 10.15, released);
    (frame_at 10.2, pinched) ].

(** Settings with the history switched off ([raw_target_buffer_size = 0]). *)
Definition no_history_settings : Settings :=
  {| smoothing_factor := 0.20;
     raw_target_buffer_size := 0;
     active_region_x_min_percent := 0.15;
     active_region_x_max_percent := 0.85;
     active_region_y_min_percent := 0.15;
     active_region_y_max_percent := 0.85;
     pinch_threshold_distance_config := 25;
     double_click_window_sec := 0.4 |}.

(** Two frames with a hand, one without, one with the hand back. *)
Definition lost_and_found : list (FrameEnv * Hand) :=
  [ (frame_at 1.0, HandSeen (Some (100, 100)%Z) (Finite 50));
    (frame_at 1.1, HandSeen (Some (120, 110)%Z) (Finite 50));
    (frame_at 1.2, NoHand);
    (frame_at 1.3, HandSeen (Some (400, 300)%Z) (Finite 50)) ].

(** A calibration window holding two captured corners and a threshold text. *)
Definition window_with (tl br : Q * Q) (thr : Calibration.ThresholdVar)
  : Calibration.Window :=
  Calibration.init
    |> Calibration.set_tl (Some tl)
    |> Calibration.set_br (Some br)
    |> Calibration.set_pt_new_threshold_var thr.

(** The configuration manager holding the calibration defaults. *)
Definition default_config : Calibration.ConfigManager :=
  let cfg : gmap string Q :=
    <["active_region_x_min_percent" := 0.15]>
    (<["active_region_x_max_percent" := 0.85]>
    (<["active_region_y_min_percent" := 0.15]>
    (<["active_region_y_max_percent" := 0.85]>
    (<["pinch_threshold_distance" := 25]> ∅)))) in
  {| Calibration.config := cfg; Calibration.settings_file := cfg |}.

End Scenario.


(** ** The settings dictionary ([config_manager.py]) *)

Module Config.

(** [DEFAULT_CONFIG]. *)
Definition DEFAULT_CONFIG : gmap string Q :=
  list_to_map
    [ ("camera_resolution_width", 480); ("camera_resolution_height", 360);
      ("smoothing_factor", 0.20); ("raw_target_buffer_size", 5);
      ("mouse_move_threshold", 1);
      ("active_region_x_min_percent", 0.15); ("active_region_x_max_percent", 0.85);
      ("active_region_y_min_percent", 0.15); ("active_region_y_max_percent", 0.85);
      ("pinch_threshold_distance", 25); ("double_click_window_sec", 0.4);
      ("sensitivity", 1.5); ("target_fps", 60);
      ("mp_model_complexity", 0); ("mp_min_detection_confidence", 0.6);
      ("mp_min_tracking_confidence", 0.5) ].

(** The settings file: absent, unreadable as a JSON object, or holding a
    dictionary (of numbers, as every setting is). *)
Inductive SettingsFile :=
| FileMissing
| FileInvalid
| FileHolds (stored : gmap string Q).

(** [save_config()]: the dictionary is written to the file (a failed write,
    which the code catches and logs, is not modelled). *)
Definition save_config (config : gmap string Q) : SettingsFile := FileHolds config.

(** [load_config()]: the defaults updated by what the file holds; the
    defaults alone when the file cannot be decoded; and, when there is no
    file, the defaults, which are also written to a new file. *)
Definition load_config (file : SettingsFile) : gmap string Q * SettingsFile :=
  match file with
  | FileHolds loaded => (loaded ∪ DEFAULT_CONFIG, file)
  | FileInvalid => (DEFAULT_CONFIG, file)
  | FileMissing => (DEFAULT_CONFIG, save_config DEFAULT_CONFIG)
  end.

(** [get(key, default_value=None)]. *)
Definition get (config : gmap string Q) (key : string) (default_value : option Q)
  : option Q :=
  let fallback :=
    match default_value with
    | Some d => Some d
    | None => DEFAULT_CONFIG !! key
    end in
  match config !! key with
  | Some v => Some v
  | None => fallback
  end.

(** [set(key, value)]. *)
Definition set (key : string) (value : Q) (config : gmap string Q) : gmap string Q :=
  <[key := value]> config.

End Config.

(** ** Moving the pointer and pacing the loop ([main_app.py],
    [mouse_controller_module.py]) *)

Module Pointer.

(** [MouseControllerWrapper]: the screen size and the pointer position. *)
Record Mouse := {
  screen_width : Z;
  screen_height : Z;
  position : Z * Z
}.

(** [move_to(x, y)] on integer coordinates (a failure of the platform call,
    which the code catches and logs, is not modelled). *)
Definition move_to (x y : Z) (m : Mouse) : Mouse :=
  let safe_x := Z.max 0 (Z.min x (screen_width m - 1)) in
  let safe_y := Z.max 0 (Z.min y (screen_height m - 1)) in
  {| screen_width := screen_width m; screen_height := screen_height m;
     position := (safe_x, safe_y) |}.

(** [mouse_moved_by_logic]: a hand with an index fingertip was seen. *)
Definition mouse_moved_by_logic (hand : Control.Hand) : bool :=
  match hand with
  | Control.HandSeen (Some _) _ => true
  | _ => false
  end.

(** Lines 416-421: the pointer follows the truncated cursor once it is more
    than [mouse_move_threshold] away, on either axis, from the last position
    it was sent to.  The result is the new [last_mouse_move_x/y] and the
    mouse. *)
Definition mouse_control (mouse_move_threshold : Z) (moved : bool)
           (st : Control.State) (last : Z * Z) (m : Mouse) : (Z * Z) * Mouse :=
  if moved then
    let final_x := Py.int (Control.prev_cursor_x st) in
    let final_y := Py.int (Control.prev_cursor_y st) in
    if (mouse_move_threshold <? Z.abs (final_x - fst last))%Z
       || (mouse_move_threshold <? Z.abs (final_y - snd last))%Z
    then ((final_x, final_y), move_to final_x final_y m)
    else (last, m)
  else (last, m).

(** The application's moving parts during control. *)
Record App := {
  control : Control.State;
  last_mouse_move : Z * Z;
  mouse : Mouse
}.

(** One frame of control: the hand logic, then the pointer. *)
Definition control_tick (cfg : Control.Settings) (mouse_move_threshold : Z)
           (env : Control.FrameEnv) (hand : Control.Hand) (a : App)
  : App * list Control.Action :=
  let '(st, acts) := Control.hand_logic cfg env (control a) hand in
  let '(last, m) := mouse_control mouse_move_threshold (mouse_moved_by_logic hand)
                                  st (last_mouse_move a) (mouse a) in
  ({| control := st; last_mouse_move := last; mouse := m |}, acts).

Fixpoint control_run (cfg : Control.Settings) (mouse_move_threshold : Z)
         (frames : list (Control.FrameEnv * Control.Hand)) (a : App) : App :=
  match frames with
  | [] => a
  | (env, hand) :: rest =>
      control_run cfg mouse_move_threshold rest
                  (fst (control_tick cfg mouse_move_threshold env hand a))
  end.

(** [frame_process_delay_ms] of [load_settings_from_config]. *)
Definition frame_process_delay_ms (target_fps : Z) : Z :=
  if (0 <? target_fps)%Z then Py.int (1000 / inject_Z target_fps) else 33%Z.

(** [actual_delay_needed_ms] at the end of [process_video_frame]. *)
Definition actual_delay_needed_ms (delay_ms : Z) (time_spent_this_cycle_ms : Q) : Z :=
  Z.max 1 (delay_ms - Py.int time_spent_this_cycle_ms).

End Pointer.

(** ** More of the calibration window *)

Module CalibrationFlow.

Import Calibration.

(** Successive calls of [process_ar_capture], one per frame. *)
Fixpoint feed_ar (t : Timing) (inputs : list (option Q * option Q)) (w : Window)
  : Window :=
  match inputs with
  | [] => w
  | (norm_x, norm_y) :: rest => feed_ar t rest (process_ar_capture t norm_x norm_y w)
  end.

(** A frame with a usable fingertip position. *)
Definition valid_point (p : Q * Q) : option Q * option Q := (Some (fst p), Some (snd p)).

(** A frame of the pinch flow is usable when it carries a finite distance. *)
Definition usable (d : option Control.Distance) : bool :=
  match d with
  | Some (Control.Finite _) => true
  | _ => false
  end.

(** A frame of the active-region flow is usable when it carries both
    coordinates of the fingertip. *)
Definition usable_point (p : option Q * option Q) : bool :=
  match p with
  | (Some _, Some _) => true
  | _ => false
  end.

End CalibrationFlow.

(** ** The acquisition loop of the camera stream ([video_streamer.py]) *)

Module StreamLoop.

Import Stream.

Section Loop.

Context {Cap : Type} `{VideoCapture Cap}.

(** The stream object with its [stopped] flag. *)
Record Runner := {
  ws : @WebcamVideoStream Cap;
  stopped : bool
}.

(** [queue.Queue(maxsize=5)]. *)
Definition maxsize : nat := 5.

Definition with_queue (s : @WebcamVideoStream Cap) (c : option Cap) (q : nat)
  : @WebcamVideoStream Cap :=
  {| requested_width := requested_width s; requested_height := requested_height s;
     stream := c; actual_width := actual_width s; actual_height := actual_height s;
     grabbed := grabbed s; frame_queue := q |}.

(** [WebcamVideoStream(src, width, height)]: not started yet. *)
Definition new_runner (width height : Z) : Runner :=
  {| ws := new_stream width height; stopped := true |}.

(** [start()], given the capture [cv2.VideoCapture(src)] would return:
    [None] stands for the [ValueError] raised when the stream cannot be
    initialised. *)
Definition start (r : Runner) (opened : Cap) : option Runner :=
  if negb (stopped r) then Some r
  else
    let '(ok, s) := initialize_stream (ws r) opened in
    if ok then Some {| ws := s; stopped := false |} else None.

(** One turn of the loop of [update()] while the stream is not stopped: a
    frame is read and queued when there is room, otherwise the thread sleeps;
    a missing or closed capture stops the stream, and the loop then ends by
    dropping the capture. *)
Definition update_step (r : Runner) : Runner :=
  if stopped r then r
  else
    match stream (ws r) with
    | Some c =>
        if cap_isOpened c then
          if (frame_queue (ws r) <? maxsize)%nat then
            let '(g, c') := cap_read c in
            if g then {| ws := with_queue (ws r) (Some c') (S (frame_queue (ws r)));
                         stopped := false |}
            else {| ws := with_queue (ws r) (Some c') (frame_queue (ws r));
                    stopped := false |}
          else r
        else {| ws := with_queue (ws r) None (frame_queue (ws r)); stopped := true |}
    | None => {| ws := with_queue (ws r) None (frame_queue (ws r)); stopped := true |}
    end.

(** [read()]: whether a frame was returned, and the stream afterwards. *)
Definition read (r : Runner) : bool * Runner :=
  match frame_queue (ws r) with
  | O => (false, r)
  | S q => (true, {| ws := with_queue (ws r) (stream (ws r)) q; stopped := stopped r |})
  end.

(** [stop()]: the flag is set, the capture released and the queue drained. *)
Definition stop (r : Runner) : Runner :=
  if stopped r then r
  else {| ws := with_queue (ws r) None 0; stopped := true |}.

(** What the two threads and the operator may do, one step at a time. *)
Inductive Event :=
| Update
| Read
| Stop.

Definition step (r : Runner) (e : Event) : Runner :=
  match e with
  | Update => update_step r
  | Read => snd (read r)
  | Stop => stop r
  end.

Definition steps (r : Runner) (events : list Event) : Runner :=
  fold_left step events r.

End Loop.

End StreamLoop.


(** ** Predicates used in the statements below *)

Module Inv.

Import Control.

(** [lo <= x <= hi]. *)
Definition between (lo hi x : Q) : Prop := lo <= x <= hi.

(** The smoothed cursor and every remembered raw target lie on a screen of
    [W] by [H] pixels. *)
Definition cursor_on_screen (W H : Z) (st : State) : Prop :=
  between 0 (inject_Z W) (prev_cursor_x st)
  /\ between 0 (inject_Z H) (prev_cursor_y st)
  /\ Forall (between 0 (inject_Z W)) (raw_target_history_x st)
  /\ Forall (between 0 (inject_Z H)) (raw_target_history_y st).

(** A frame taken for a screen of [W] by [H] pixels, with a frame shape and a
    sensitivity the code can compute with. *)
Definition frame_for_screen (W H : Z) (env : FrameEnv) : Prop :=
  screen_width env = W /\ screen_height env = H
  /\ (0 <= frame_width env)%Z /\ (0 <= frame_height env)%Z
  /\ ~ current_sensitivity env == 0.

(** Both histories respect the configured buffer size. *)
Definition histories_bounded (cfg : Settings) (st : State) : Prop :=
  (length (raw_target_history_x st) <= raw_target_buffer_size cfg)%nat
  /\ (length (raw_target_history_y st) <= raw_target_buffer_size cfg)%nat.

(** The frame shows a hand whose pinch distance is below the threshold. *)
Definition pinching_frame (cfg : Settings) (f : FrameEnv * Hand) : Prop :=
  match snd f with
  | HandSeen _ d => is_pinching (pinch_threshold_distance_config cfg) d = true
  | NoHand => False
  end.

(** The pointer is on the screen of its mouse. *)
Definition pointer_on_screen (m : Pointer.Mouse) : Prop :=
  (0 <= fst (Pointer.position m) <= Pointer.screen_width m - 1
   /\ 0 <= snd (Pointer.position m) <= Pointer.screen_height m - 1)%Z.

End Inv.

(** ** Binary64 arithmetic of the interpreter *)

(** Python's [float] is IEEE 754 binary64.  Where the comparison of two
    floats decides a branch, or a float is rounded into a stored value or
    into a displayed text, the code is followed on the primitive floats:
    [+], [-], [*], [/] and [<?] below are the binary64 operations, and a
    decimal literal denotes the double nearest to it. *)

Module Py64.

Import PrimFloat SpecFloat FloatOps.
#[local] Open Scope float_scope.
#[local] Set Warnings "-inexact-float".

(** [float(z)] for an [int]; exact below [2^53] in magnitude, which covers
    pixel coordinates, frame sizes and list lengths. *)
Definition of_int (z : Z) : float :=
  match z with
  | Z0 => 0
  | Zpos _ => of_uint63 (Uint63Axioms.of_Z z)
  | Zneg p => - of_uint63 (Uint63Axioms.of_Z (Zpos p))
  end.

(** The absolute value of a finite float, as the rational number it
    denotes; [None] for an infinity or a nan. *)
Definition magnitude (x : float) : option Q :=
  match Prim2SF x with
  | S754_zero _ => Some 0%Q
  | S754_finite _ m e =>
      Some (match e with
            | Zneg k => Zpos m # Pos.shiftl 1 (Npos k)
            | _ => inject_Z (Zpos m * 2 ^ e)
            end)
  | _ => None
  end.

(** The sign bit. *)
Definition negative (x : float) : bool := get_sign x.

(** The rational number a finite float denotes. *)
Definition exact (x : float) : option Q :=
  match magnitude x with
  | Some v => Some (if negative x then (- v)%Q else v)
  | None => None
  end.

(** [int(x)]: truncation toward zero; [None] stands for the [ValueError]
    and the [OverflowError] raised on a nan and on an infinity. *)
Definition int (x : float) : option Z :=
  match magnitude x with
  | Some v => Some (if negative x then (- Qfloor v)%Z else Qfloor v)
  | None => None
  end.

(** The text of [f"{x:.<ndigits>f}"]: a sign and the digits, [units]
    counting multiples of [10 ^ -ndigits], or ["inf"], ["-inf"], ["nan"].
    The conversion is correctly rounded: the exact value of the double is
    rounded to the nearest multiple, ties to even. *)
Inductive Text :=
| Decimal (negative : bool) (units : Z)
| NonFinite (x : float).

Definition format_f (ndigits : nat) (x : float) : Text :=
  match magnitude x with
  | Some v =>
      Decimal (negative x)
              (Py.round_half_even (v * inject_Z (10 ^ Z.of_nat ndigits))%Q)
  | None => NonFinite x
  end.

(** [float(text)] on such a text: the double nearest to the decimal, which
    the correctly rounded quotient of the digits by the power of ten is
    (both being exact doubles for fewer than [2^53] units). *)
Definition float_of (ndigits : nat) (t : Text) : float :=
  match t with
  | Decimal s units =>
      let v := of_int units / of_int (10 ^ Z.of_nat ndigits) in
      if s then - v else v
  | NonFinite x => x
  end.

(** [round(x, ndigits)] for [0 <= ndigits <= 22]: CPython converts the
    double to the correctly rounded decimal of [ndigits] places and that
    decimal back to the nearest double; infinities and nans are returned
    unchanged. *)
Definition round (x : float) (ndigits : nat) : float :=
  float_of ndigits (format_f ndigits x).

(** Built-in [max(a, b)]: [b] when [b > a], else [a]. *)
Definition max (a b : float) : float := if a <? b then b else a.

(** Built-in [min(a, b)]: [b] when [b < a], else [a]. *)
Definition min (a b : float) : float := if b <? a then b else a.

(** [np.clip(a, a_min, a_max)]. *)
Definition np_clip (a a_min a_max : float) : float :=
  let lo := if a <? a_min then a_min else a in
  if a_max <? lo then a_max else lo.

(** The built-in [sum] on a non-empty list of floats.  Through CPython 3.11
    it adds from left to right, starting from [0]; from 3.12 on it also
    compensates the rounding errors of the additions.  What is stated below
    about an average is stated for any [Sum]. *)
Class Sum := sum : list float -> float.

Definition sum_left_to_right : Sum := fun xs => fold_left add xs 0.

(** [sum(xs) / len(xs)]. *)
Definition mean `{Sum} (xs : list float) : float :=
  sum xs / of_int (Z.of_nat (length xs)).

(** [x == y] on floats, as a proposition. *)
Definition same (x y : float) : Prop := (x =? y) = true.


End Py64.

(** ** The active region in binary64 ([main_app.py], lines 349-365) *)

Module Control64.

Import PrimFloat.
#[local] Open Scope float_scope.
#[local] Set Warnings "-inexact-float".

(** One axis of the effective active region; [None] stands for the
    [ZeroDivisionError] of line 354 on a zero sensitivity. *)
Definition effective_bounds (lo_percent hi_percent sensitivity : float)
  : option (float * float) :=
  if sensitivity =? 0 then None
  else
    let center := (lo_percent + hi_percent) / 2 in
    let base := hi_percent - lo_percent in
    let effective := base / sensitivity in
    let cur_min := Py64.np_clip (center - effective / 2) 0 1 in
    let cur_max := Py64.np_clip (center + effective / 2) 0 1 in
    let cur_max := if cur_max <=? cur_min then cur_min + 0.01 else cur_max in
    Some (cur_min, cur_max).

(** The pixel bounds [(a1, a2)] of one axis for a frame of [extent] pixels:
    the products are rounded to binary64 and then truncated. *)
Definition pixel_bounds (bounds : float * float) (extent : Z) : option (Z * Z) :=
  match Py64.int (fst bounds * Py64.of_int extent),
        Py64.int (snd bounds * Py64.of_int extent) with
  | Some a1, Some a2 => Some (a1, a2)
  | _, _ => None
  end.

(** From the settings to the pixel bounds of one axis. *)
Definition active_pixel_bounds (lo_percent hi_percent sensitivity : float)
           (extent : Z) : option (Z * Z) :=
  match effective_bounds lo_percent hi_percent sensitivity with
  | Some bounds => pixel_bounds bounds extent
  | None => None
  end.

(** The exact span of an effective region exceeds [0.01]. *)
Definition span_exceeds_one_percent (bounds : float * float) : Prop :=
  match Py64.exact (fst bounds), Py64.exact (snd bounds) with
  | Some lo, Some hi => (0.01 < hi - lo)%Q
  | _, _ => False
  end.

End Control64.

(** ** The calibration window in binary64 *)

(** The pinch capture, the threshold derivation and [apply_and_save_settings]
    once more, on binary64 floats and with the text variables holding the
    digits the code prints into them. *)

Module Calibration64.

Import PrimFloat.
#[local] Open Scope float_scope.
#[local] Set Warnings "-inexact-float".

(** Texts of [pt_status_var]. *)
Inductive PtStatus :=
| PtIdle
| PtHoldOpenStart
| PtHoldPinchStart
| PtNotClear
| PtHoldOpen (countdown_sec : Z) (dist : Py64.Text)
| PtHoldPinch (countdown_sec : Z) (dist : Py64.Text)
| PtOpenCaptured
| PtOpenFailed
| PtPinchCaptured
| PtPinchFailed.

(** Texts of [ar_tl_var] and [ar_br_var], each coordinate with three
    decimals. *)
Inductive PointVar :=
| PointNotSet
| PointCapturing
| PointAt (x y : Py64.Text).

(** Texts of [pt_open_dist_var] and [pt_pinch_dist_var]:
    ["Avg ... Dist: Not set"] and [f"Avg ... Dist: {avg:.2f}"]. *)
Inductive DistVar :=
| DistNotSet
| DistAvg (avg : Py64.Text).

(** Texts of [pt_new_threshold_var]: ["New Threshold: Not calculated"],
    [f"New Threshold: {new_threshold:.2f}"] and the two error texts. *)
Inductive ThresholdVar :=
| ThresholdNotCalculated
| ThresholdValue (new_threshold : Py64.Text)
| ThresholdErrorTooClose
| ThresholdErrorCalculating.

Record Window := {
  calibration_state : Calibration.CalibState;
  temp_active_region_tl_norm : option (float * float);
  temp_active_region_br_norm : option (float * float);
  temp_open_hand_distances : list float;
  temp_pinch_distances : list float;
  capture_countdown : Z;
  show_calibration_feed : bool;
  ar_status_var : Calibration.ArStatus;
  pt_status_var : PtStatus;
  ar_tl_var : PointVar;
  ar_br_var : PointVar;
  pt_open_dist_var : DistVar;
  pt_pinch_dist_var : DistVar;
  pt_new_threshold_var : ThresholdVar;
  ar_br_button_enabled : bool;
  pt_pinch_button_enabled : bool
}.

(** The window as [__init__] leaves it. *)
Definition init : Window := {|
  calibration_state := Calibration.CALIB_STATE_IDLE;
  temp_active_region_tl_norm := None;
  temp_active_region_br_norm := None;
  temp_open_hand_distances := [];
  temp_pinch_distances := [];
  capture_countdown := 0;
  show_calibration_feed := false;
  ar_status_var := Calibration.ArIdle;
  pt_status_var := PtIdle;
  ar_tl_var := PointNotSet;
  ar_br_var := PointNotSet;
  pt_open_dist_var := DistNotSet;
  pt_pinch_dist_var := DistNotSet;
  pt_new_threshold_var := ThresholdNotCalculated;
  ar_br_button_enabled := false;
  pt_pinch_button_enabled := false
|}.

(** Attribute assignments. *)
Definition set_calibration_state (v : Calibration.CalibState) (w : Window) : Window :=
  let (_, a, b, c, d, e, f, g, h, i, j, k, l, m, n, o) := w in
  Build_Window v a b c d e f g h i j k l m n o.
Definition set_tl (v : option (float * float)) (w : Window) : Window :=
  let (a, _, b, c, d, e, f, g, h, i, j, k, l, m, n, o) := w in
  Build_Window a v b c d e f g h i j k l m n o.
Definition set_br (v : option (float * float)) (w : Window) : Window :=
  let (a, b, _, c, d, e, f, g, h, i, j, k, l, m, n, o) := w in
  Build_Window a b v c d e f g h i j k l m n o.
Definition set_open_distances (v : list float) (w : Window) : Window :=
  let (a, b, c, _, d, e, f, g, h, i, j, k, l, m, n, o) := w in
  Build_Window a b c v d e f g h i j k l m n o.
Definition set_pinch_distances (v : list float) (w : Window) : Window :=
  let (a, b, c, d, _, e, f, g, h, i, j, k, l, m, n, o) := w in
  Build_Window a b c d v e f g h i j k l m n o.
Definition set_countdown (v : Z) (w : Window) : Window :=
  let (a, b, c, d, e, _, f, g, h, i, j, k, l, m, n, o) := w in
  Build_Window a b c d e v f g h i j k l m n o.
Definition set_show_feed (v : bool) (w : Window) : Window :=
  let (a, b, c, d, e, f, _, g, h, i, j, k, l, m, n, o) := w in
  Build_Window a b c d e f v g h i j k l m n o.
Definition set_pt_status (v : PtStatus) (w : Window) : Window :=
  let (a, b, c, d, e, f, g, h, _, i, j, k, l, m, n, o) := w in
  Build_Window a b c d e f g h v i j k l m n o.
Definition set_pt_open_dist_var (v : DistVar) (w : Window) : Window :=
  let (a, b, c, d, e, f, g, h, i, j, k, _, l, m, n, o) := w in
  Build_Window a b c d e f g h i j k v l m n o.
Definition set_pt_pinch_dist_var (v : DistVar) (w : Window) : Window :=
  let (a, b, c, d, e, f, g, h, i, j, k, l, _, m, n, o) := w in
  Build_Window a b c d e f g h i j k l v m n o.
Definition set_pt_new_threshold_var (v : ThresholdVar) (w : Window) : Window :=
  let (a, b, c, d, e, f, g, h, i, j, k, l, m, _, n, o) := w in
  Build_Window a b c d e f g h i j k l m v n o.
Definition set_pt_pinch_button (v : bool) (w : Window) : Window :=
  let (a, b, c, d, e, f, g, h, i, j, k, l, m, n, o, _) := w in
  Build_Window a b c d e f g h i j k l m n o v.

(** The text of a non-negative number printed with two decimals, from its
    digits: [two_decimals 2050] is ["20.50"]. *)
Definition two_decimals (digits : Z) : Py64.Text := Py64.Decimal false digits.

(** *** Arming a pinch capture (lines 200-215) *)

Definition start_capture_open_hand (t : Calibration.Timing) (w : Window) : Window :=
  w |> set_pt_status PtHoldOpenStart
    |> set_calibration_state Calibration.CALIB_STATE_WAITING_OPEN_HAND
    |> set_open_distances []
    |> set_countdown (Calibration.pinch_capture_duration_s t * Calibration.target_fps t)%Z
    |> set_pt_pinch_button false
    |> set_show_feed true.

Definition start_capture_pinch (t : Calibration.Timing) (w : Window) : Window :=
  w |> set_pt_status PtHoldPinchStart
    |> set_calibration_state Calibration.CALIB_STATE_WAITING_PINCH
    |> set_pinch_distances []
    |> set_countdown (Calibration.pinch_capture_duration_s t * Calibration.target_fps t)%Z
    |> set_show_feed true.

(** *** [calculate_and_display_new_pinch_threshold()] (lines 257-276) *)

(** [float(text.split(":")[1].strip())] on an average's text; [None]
    stands for the [ValueError] on ["Not set"]. *)
Definition parse_dist_var (v : DistVar) : option float :=
  match v with
  | DistNotSet => None
  | DistAvg avg => Some (Py64.float_of 2 avg)
  end.

(** Lines 267-273 on the two parsed averages: the new threshold, or [None]
    for the branch that shows ["Error (Open <= Pinch or too close)"]. *)
Definition derive_threshold (avg_open avg_pinch : float) : option float :=
  if avg_pinch + 1.0 <? avg_open then
    let new_threshold := avg_pinch + (avg_open - avg_pinch) * 0.35 in
    Some (Py64.max 5.0 new_threshold)
  else None.

Definition calculate_and_display_new_pinch_threshold (w : Window) : Window :=
  match parse_dist_var (pt_open_dist_var w), parse_dist_var (pt_pinch_dist_var w) with
  | Some avg_open, Some avg_pinch =>
      match derive_threshold avg_open avg_pinch with
      | Some new_threshold =>
          set_pt_new_threshold_var (ThresholdValue (Py64.format_f 2 new_threshold)) w
      | None => set_pt_new_threshold_var ThresholdErrorTooClose w
      end
  | _, _ => set_pt_new_threshold_var ThresholdErrorCalculating w
  end.

(** *** [process_pinch_capture(pinch_distance_pixels)] (lines 217-253) *)

Section PinchCapture.

Context {builtin_sum : Py64.Sum}.

Definition process_pinch_capture (t : Calibration.Timing)
           (pinch_distance_pixels : option float) (w : Window) : Window :=
  match pinch_distance_pixels with
  | None => set_pt_status PtNotClear w
  | Some dist =>
      if dist =? infinity then set_pt_status PtNotClear w
      else if (0 <? capture_countdown w)%Z then
        let w1 := set_countdown (capture_countdown w - 1)%Z w in
        let sec := Calibration.countdown_sec t (capture_countdown w1)
                                             (Calibration.pinch_capture_duration_s t) in
        match calibration_state w1 with
        | Calibration.CALIB_STATE_WAITING_OPEN_HAND =>
            w1 |> set_pt_status (PtHoldOpen sec (Py64.format_f 1 dist))
               |> set_open_distances (temp_open_hand_distances w1 ++ [dist])
        | Calibration.CALIB_STATE_WAITING_PINCH =>
            w1 |> set_pt_status (PtHoldPinch sec (Py64.format_f 1 dist))
               |> set_pinch_distances (temp_pinch_distances w1 ++ [dist])
        | _ => w1
        end
      else
        match calibration_state w with
        | Calibration.CALIB_STATE_WAITING_OPEN_HAND =>
            let w1 :=
              match temp_open_hand_distances w with
              | [] => set_pt_status PtOpenFailed w
              | _ =>
                  let avg_open_dist := Py64.mean (temp_open_hand_distances w) in
                  w |> set_pt_open_dist_var (DistAvg (Py64.format_f 2 avg_open_dist))
                    |> set_pt_status PtOpenCaptured
                    |> set_pt_pinch_button true
              end in
            set_calibration_state Calibration.CALIB_STATE_IDLE w1
        | Calibration.CALIB_STATE_WAITING_PINCH =>
            let w1 :=
              match temp_pinch_distances w with
              | [] => set_pt_status PtPinchFailed w
              | _ =>
                  let avg_pinch_dist := Py64.mean (temp_pinch_distances w) in
                  w |> set_pt_pinch_dist_var (DistAvg (Py64.format_f 2 avg_pinch_dist))
                    |> set_pt_status PtPinchCaptured
                    |> calculate_and_display_new_pinch_threshold
              end in
            set_calibration_state Calibration.CALIB_STATE_IDLE w1
        | _ => w
        end
  end.

(** Successive calls of [process_pinch_capture], one per frame. *)
Fixpoint feed_pinch (t : Calibration.Timing) (inputs : list (option float))
         (w : Window) : Window :=
  match inputs with
  | [] => w
  | d :: rest => feed_pinch t rest (process_pinch_capture t d w)
  end.

End PinchCapture.

(** A pinch distance the capture can use: a float other than [inf]. *)
Definition usable_distance (dist : float) : Prop := (dist =? infinity) = false.

(** *** [apply_and_save_settings()] (lines 278-304) *)

(** [ConfigManager]: the dictionary in memory and what [save_config] last
    wrote to the settings file. *)
Record ConfigManager := {
  config : gmap string float;
  settings_file : gmap string float
}.

Definition config_set (key : string) (value : float) (cm : ConfigManager) : ConfigManager :=
  {| config := <[key := value]> (config cm); settings_file := settings_file cm |}.

Definition save_config (cm : ConfigManager) : ConfigManager :=
  {| config := config cm; settings_file := config cm |}.

(** The corners sorted into [(x_min, x_max, y_min, y_max)] (lines 281-284). *)
Definition sorted_corners (tl br : float * float) : float * float * float * float :=
  (Py64.min (fst tl) (fst br), Py64.max (fst tl) (fst br),
   Py64.min (snd tl) (snd br), Py64.max (snd tl) (snd br)).

(** The test of line 285. *)
Definition region_accepted (r : float * float * float * float) : bool :=
  let '(x_min, x_max, y_min, y_max) := r in
  (x_min + 0.01 <? x_max) && (y_min + 0.01 <? y_max).

(** The value [float(...)] reads from the threshold text, when the text
    passes the test of line 294 and parses. *)
Definition parse_threshold_var (v : ThresholdVar) : option float :=
  match v with
  | ThresholdValue new_threshold => Some (Py64.float_of 2 new_threshold)
  | _ => None
  end.

Record Applied := {
  applied_config : ConfigManager;
  dialogs : list Calibration.Dialog;
  (** whether [main_app_ref.load_settings_from_config()] was called *)
  settings_reloaded : bool
}.

Definition apply_and_save_settings (w : Window) (cm : ConfigManager) : Applied :=
  let '(cm1, applied1, dlg1) :=
    match temp_active_region_tl_norm w, temp_active_region_br_norm w with
    | Some tl, Some br =>
        let '(x_min, x_max, y_min, y_max) := sorted_corners tl br in
        if region_accepted (x_min, x_max, y_min, y_max) then
          (cm |> config_set "active_region_x_min_percent" (Py64.round x_min 3)
              |> config_set "active_region_x_max_percent" (Py64.round x_max 3)
              |> config_set "active_region_y_min_percent" (Py64.round y_min 3)
              |> config_set "active_region_y_max_percent" (Py64.round y_max 3),
           true, [])
        else (cm, false, [Calibration.ErrorInvalidActiveRegion])
    | _, _ => (cm, false, [])
    end in
  let '(cm2, applied2) :=
    match parse_threshold_var (pt_new_threshold_var w) with
    | Some new_threshold_val =>
        (config_set "pinch_threshold_distance" (Py64.round new_threshold_val 2) cm1, true)
    | None => (cm1, applied1)
    end in
  if applied2 then
    {| applied_config := save_config cm2;
       dialogs := dlg1 ++ [Calibration.InfoSettingsApplied];
       settings_reloaded := true |}
  else
    {| applied_config := cm2;
       dialogs := dlg1 ++ [Calibration.InfoNothingToApply];
       settings_reloaded := false |}.

(** The configuration holds, under [key], a float equal to [x]. *)
Definition config_has (cm : ConfigManager) (key : string) (x : float) : Prop :=
  exists v, config cm !! key = Some v /\ Py64.same v x.

(** A calibration window holding two captured corners and a threshold text. *)
Definition window_with (tl br : float * float) (thr : ThresholdVar) : Window :=
  init |> set_tl (Some tl) |> set_br (Some br) |> set_pt_new_threshold_var thr.

(** One frame per second, so that a pinch capture counts three frames. *)
Definition one_frame_per_second : Calibration.Timing :=
  {| Calibration.target_fps := 1; Calibration.ar_capture_duration_s := 2;
     Calibration.pinch_capture_duration_s := 3 |}.

(** A window waiting at the end of an open-hand countdown with the given
    samples collected. *)
Definition open_hand_collected (samples : list float) : Window :=
  init |> set_calibration_state Calibration.CALIB_STATE_WAITING_OPEN_HAND
       |> set_open_distances samples
       |> set_show_feed true.

(** The configuration manager holding the calibration defaults. *)
Definition default_config : ConfigManager :=
  let cfg : gmap string float :=
    <["active_region_x_min_percent" := 0.15]>
    (<["active_region_x_max_percent" := 0.85]>
    (<["active_region_y_min_percent" := 0.15]>
    (<["active_region_y_max_percent" := 0.85]>
    (<["pinch_threshold_distance" := 25.0]> ∅)))) in
  {| config := cfg; settings_file := cfg |}.

End Calibration64.


(** * Properties *)

(** ** Comparisons and extrema *)

Lemma Qltb_lt (x y : Q) : Py.Qltb x y = true <-> x < y.
Proof.
  unfold Py.Qltb. rewrite negb_true_iff. split.
  - intros Hb. apply Qnot_le_lt. intros Hle.
    apply Qle_bool_iff in Hle. congruence.
  - intros Hlt. destruct (Qle_bool y x) eqn:E; [|reflexivity].
    apply Qle_bool_iff in E. lra.
Qed.

Lemma Qltb_ge (x y : Q) : Py.Qltb x y = false <-> y <= x.
Proof.
  unfold Py.Qltb. rewrite negb_false_iff. apply Qle_bool_iff.
Qed.

Lemma Qle_bool_false (x y : Q) : Qle_bool x y = false <-> y < x.
Proof.
  split.
  - intros Hb. apply Qnot_le_lt. intros Hle.
    apply Qle_bool_iff in Hle. congruence.
  - intros Hlt. destruct (Qle_bool x y) eqn:E; [|reflexivity].
    apply Qle_bool_iff in E. lra.
Qed.

(** Case analysis on a float comparison, leaving the order fact in the
    context. *)
Ltac case_Qltb x y :=
  let E := fresh "E" in
  destruct (Py.Qltb x y) eqn:E;
  [apply Qltb_lt in E | apply Qltb_ge in E].



Lemma np_clip_inside (a lo hi : Q) : lo <= a -> a <= hi -> Py.np_clip a lo hi = a.
Proof.
  intros Hlo Hhi. unfold Py.np_clip.
  case_Qltb a lo; [lra|]. case_Qltb hi a; [lra|]. reflexivity.
Qed.

Lemma np_clip_bounds (a lo hi : Q) :
  lo <= hi -> lo <= Py.np_clip a lo hi /\ Py.np_clip a lo hi <= hi.
Proof.
  intros Hle. unfold Py.np_clip.
  case_Qltb a lo.
  - case_Qltb hi lo; lra.
  - case_Qltb hi a; lra.
Qed.

(** ** The click state machine *)

Section ClickFacts.

Import Control.

(** What a rising edge inside the double-click window does: one double click,
    and the stored time becomes the current time. *)
Lemma click_step_inside_window (cfg : Settings) (ctime last : Q) :
  ctime - last < double_click_window_sec cfg ->
  click_step cfg ctime true false last = (true, ctime, [Click 2]).
Proof.
  intros Hin. unfold click_step. simpl.
  apply Qltb_lt in Hin. rewrite Hin. reflexivity.
Qed.

(** Outside the window: one single click, and the stored time becomes the
    current time. *)
Lemma click_step_outside_window (cfg : Settings) (ctime last : Q) :
  double_click_window_sec cfg <= ctime - last ->
  click_step cfg ctime true false last = (true, ctime, [Click 1]).
Proof.
  intros Hout. unfold click_step. simpl.
  apply Qltb_ge in Hout. rewrite Hout. reflexivity.
Qed.

(** No rising edge, no click, and the stored time is kept. *)
Lemma click_step_no_edge (cfg : Settings) (ctime last : Q) (pinching prev : bool) :
  pinching && negb prev = false ->
  click_step cfg ctime pinching prev last = (pinching, last, []).
Proof.
  intros Hno. unfold click_step. rewrite Hno. reflexivity.
Qed.

(** Two rising edges in a row, the second inside the window of the first
    click and the third inside the window of the second: the third is a
    double click again. *)
Lemma third_edge_pairs_with_second (cfg : Settings) (t2 t3 last : Q) :
  t2 - last < double_click_window_sec cfg ->
  t3 - t2 < double_click_window_sec cfg ->
  let '(_, last2, acts2) := click_step cfg t2 true false last in
  let '(_, _, acts3) := click_step cfg t3 true false last2 in
  acts2 = [Click 2] /\ acts3 = [Click 2] /\ last2 = t2.
Proof.
  intros H2 H3.
  rewrite (click_step_inside_window cfg t2 last H2).
  rewrite (click_step_inside_window cfg t3 t2 H3).
  auto.
Qed.

(** C1 (evaluation at the failing input). Three pinches at 10.0 s, 10.1 s
    and 10.2 s with the default 0.4 s window: the first is a single click,
    the second a double click after which the stored click time is 10.1 (not
    0), and the third, 0.1 s later, is a double click again. *)
Theorem C1_third_rapid_pinch_is_double_click_again :
  snd (run default_settings Scenario.idle_state Scenario.three_rapid_pinches)
    = [Click 1; Click 2; Click 2]
  /\ last_click_event_time
       (fst (run default_settings Scenario.idle_state
                 (take 3 Scenario.three_rapid_pinches))) = 10.1.
Proof.
  split; vm_compute; reflexivity.
Qed.

End ClickFacts.

(** ** The smoothing filter *)

Section SmoothingFacts.

Import Control.

Lemma fold_sum_constant (T : Q) (l : list Q) (a : Q) :
  holds_only T l ->
  fold_left Qplus l a == a + inject_Z (Z.of_nat (length l)) * T.
Proof.
  revert a. induction l as [|x l IH]; intros a Hall.
  - simpl. ring.
  - apply Forall_cons in Hall as [Hx Hl].
    cbn [fold_left]. rewrite (IH _ Hl).
    change (length (x :: l)) with (S (length l)).
    rewrite Nat2Z.inj_succ, <- Z.add_1_r, inject_Z_plus, Hx.
    simpl (inject_Z 1). ring.
Qed.

Lemma mean_constant (T : Q) (l : list Q) :
  l <> [] -> holds_only T l -> Py.mean l == T.
Proof.
  intros Hne Hall. unfold Py.mean, Py.sum.
  rewrite (fold_sum_constant T l 0 Hall).
  assert (Hn : ~ inject_Z (Z.of_nat (length l)) == 0).
  { destruct l as [|x l']; [congruence|].
    change 0 with (inject_Z 0). rewrite inject_Z_injective.
    simpl length. lia. }
  field. exact Hn.
Qed.

Lemma avg_target_constant (T : Q) (l : list Q) :
  holds_only T l -> avg_target l T == T.
Proof.
  intros Hall. destruct l as [|x l'] eqn:El.
  - reflexivity.
  - unfold avg_target. apply mean_constant; [congruence | exact Hall].
Qed.

Lemma deque_append_holds_only (T : Q) (maxlen : nat) (h : list Q) (x : Q) :
  holds_only T h -> x == T -> holds_only T (Py.deque_append maxlen h x).
Proof.
  intros Hh Hx. unfold Py.deque_append, holds_only.
  assert (Hall : Forall (fun y => y == T) (h ++ [x])).
  { apply Forall_app. split; [exact Hh | repeat constructor; exact Hx]. }
  destruct (maxlen <? length (h ++ [x]))%nat; [apply Forall_drop|]; exact Hall.
Qed.

(** One tick with the raw target equal to everything in the history: the
    offset from the target is multiplied by [1 - alpha]. *)
Lemma smooth_axis_offset (alpha : Q) (maxlen : nat) (h : list Q) (prev T : Q) :
  holds_only T h ->
  snd (smooth_axis alpha maxlen h prev T) - T == (1 - alpha) * (prev - T).
Proof.
  intros Hh. unfold smooth_axis. cbn [snd].
  rewrite (avg_target_constant T); [ring|].
  apply deque_append_holds_only; [exact Hh | reflexivity].
Qed.

Lemma Qpower_nat_succ (q : Q) (n : nat) :
  q ^ Z.of_nat (S n) == q * q ^ Z.of_nat n.
Proof.
  rewrite Nat2Z.inj_succ, <- Z.add_1_l.
  rewrite Qpower_plus' by lia. rewrite Qpower_1_r. reflexivity.
Qed.


(** [n] ticks with a constant raw target. *)
Lemma smooth_run_offset (alpha : Q) (maxlen : nat) (T : Q) (n : nat) :
  forall (h : list Q) (prev : Q),
    holds_only T h ->
    snd (smooth_run alpha maxlen (replicate n T) h prev) - T
      == (1 - alpha) ^ Z.of_nat n * (prev - T).
Proof.
  induction n as [|n IH]; intros h prev Hh.
  - simpl. ring.
  - cbn [replicate smooth_run].
    pose proof (smooth_axis_offset alpha maxlen h prev T Hh) as Hstep.
    destruct (smooth_axis alpha maxlen h prev T) as [h' next] eqn:E.
    assert (Hh' : holds_only T h').
    { replace h' with (fst (smooth_axis alpha maxlen h prev T)) by (rewrite E; reflexivity).
      apply deque_append_holds_only; [exact Hh | reflexivity]. }
    rewrite (IH h' next Hh'). cbn [snd] in Hstep.
    rewrite Qpower_nat_succ.
    transitivity ((1 - alpha) ^ Z.of_nat n * ((1 - alpha) * (prev - T))); [|ring].
    rewrite <- Hstep. reflexivity.
Qed.

Lemma Qabs_scale (c x : Q) : 0 <= c -> Qabs (c * x) == c * Qabs x.
Proof.
  intros Hc. rewrite Qabs_Qmult, (Qabs_pos c Hc). reflexivity.
Qed.



(** Twenty ticks are not enough at [alpha = 0.20]: the bound of 21 is the
    least one. *)
Lemma twenty_ticks_leave_more_than_one_percent (maxlen : nat) (h : list Q) (prev T : Q) :
  holds_only T h -> ~ prev == T ->
  0.01 * Qabs (prev - T)
    < Qabs (snd (smooth_run 0.20 maxlen (replicate 20 T) h prev) - T).
Proof.
  intros Hh Hne.
  rewrite (smooth_run_offset 0.20 maxlen T 20 h prev Hh).
  rewrite Qabs_scale by (apply Qpower_0_le; lra).
  assert (Hpos : 0 < Qabs (prev - T)).
  { destruct (Qlt_le_dec 0 (Qabs (prev - T))) as [Hp|Hn]; [exact Hp|].
    exfalso. apply Hne.
    pose proof (Qabs_nonneg (prev - T)) as H0.
    assert (Hz : Qabs (prev - T) <= 0) by exact Hn.
    apply Qabs_Qle_condition in Hz. lra. }
  assert (Hpow : 0.01 < (1 - 0.20) ^ Z.of_nat 20) by (vm_compute; reflexivity).
  nra.
Qed.

End SmoothingFacts.

(** ** History clearing when the hand is lost *)

Section HistoryFacts.

Import Control.

Lemma mean_singleton (r : Q) : Py.mean [r] == r.
Proof.
  unfold Py.mean, Py.sum. simpl. field.
Qed.

Lemma deque_append_empty (maxlen : nat) (r : Q) :
  Py.deque_append maxlen [] r = if (maxlen <? 1)%nat then [] else [r].
Proof.
  unfold Py.deque_append. simpl. destruct (maxlen <? 1)%nat; reflexivity.
Qed.

Lemma avg_target_after_clear (maxlen : nat) (r : Q) :
  avg_target (Py.deque_append maxlen [] r) r == r.
Proof.
  rewrite deque_append_empty. destruct (maxlen <? 1)%nat.
  - reflexivity.
  - apply mean_singleton.
Qed.

(** A frame without a hand: histories emptied, edge state reset, cursor and
    click time kept, no click. *)
Lemma hand_logic_no_hand (cfg : Settings) (env : FrameEnv) (st : State) :
  hand_logic cfg env st NoHand
  = ({| prev_cursor_x := prev_cursor_x st; prev_cursor_y := prev_cursor_y st;
        raw_target_history_x := []; raw_target_history_y := [];
        is_pinching_prev_frame := false;
        last_click_event_time := last_click_event_time st |}, []).
Proof. reflexivity. Qed.

(** The cursor part of a frame with a hand and a fingertip. *)
Lemma hand_logic_tip (cfg : Settings) (env : FrameEnv) (st : State)
      (ix iy : Z) (d : Distance) :
  let rx := map_axis (active_region_x_min_percent cfg) (active_region_x_max_percent cfg)
                     (current_sensitivity env) (frame_width env) (screen_width env)
                     (inject_Z ix) in
  let ry := map_axis (active_region_y_min_percent cfg) (active_region_y_max_percent cfg)
                     (current_sensitivity env) (frame_height env) (screen_height env)
                     (inject_Z iy) in
  let st' := fst (hand_logic cfg env st (HandSeen (Some (ix, iy)) d)) in
  let alpha := smoothing_factor cfg in
  let n := raw_target_buffer_size cfg in
  raw_target_history_x st' = Py.deque_append n (raw_target_history_x st) rx
  /\ raw_target_history_y st' = Py.deque_append n (raw_target_history_y st) ry
  /\ prev_cursor_x st' = snd (smooth_axis alpha n (raw_target_history_x st) (prev_cursor_x st) rx)
  /\ prev_cursor_y st' = snd (smooth_axis alpha n (raw_target_history_y st) (prev_cursor_y st) ry).
Proof.
  cbv zeta. unfold hand_logic, smooth_axis. cbn [fst snd].
  destruct (click_step _ _ _ _ _) as [[prev' last'] acts].
  cbn. auto.
Qed.

(** The two histories always have the same length. *)
Lemma deque_append_length (maxlen : nat) (d : list Q) (x : Q) :
  length (Py.deque_append maxlen d x)
  = if (maxlen <? S (length d))%nat then length d else S (length d).
Proof.
  unfold Py.deque_append. rewrite length_app. cbn [length].
  replace (length d + 1)%nat with (S (length d)) by lia.
  destruct (maxlen <? S (length d))%nat.
  - rewrite length_drop, length_app. simpl. lia.
  - rewrite length_app. simpl. lia.
Qed.

Lemma histories_same_length (cfg : Settings) (env : FrameEnv) (st : State) (hand : Hand) :
  length (raw_target_history_x st) = length (raw_target_history_y st) ->
  length (raw_target_history_x (fst (hand_logic cfg env st hand)))
  = length (raw_target_history_y (fst (hand_logic cfg env st hand))).
Proof.
  intros Hlen. destruct hand as [|[[ix iy]|] d].
  - reflexivity.
  - destruct (hand_logic_tip cfg env st ix iy d) as (Hx & Hy & _).
    rewrite Hx, Hy, !deque_append_length, Hlen. reflexivity.
  - unfold hand_logic. destruct (click_step _ _ _ _ _) as [[prev' last'] acts].
    exact Hlen.
Qed.

(** C6 (at the failing input). With [raw_target_buffer_size = 0], after two
    frames with a hand, one without and one with the hand back, the history
    is empty: it does not hold the post-reappearance sample. *)
Lemma C6_empty_history_with_buffer_size_zero :
  let st := fst (run Scenario.no_history_settings Scenario.idle_state
                     Scenario.lost_and_found) in
  raw_target_history_x st = [] /\ length (raw_target_history_x st) <> 1%nat.
Proof.
  vm_compute. split; [reflexivity | discriminate].
Qed.

(** C6 (amended). A frame without a hand empties both histories and keeps
    the previous cursor; so after any run of frames, one frame without a hand
    and one frame with a fingertip, the stage-1 average is the new raw target
    alone and the cursor is the exponential step from the pre-loss cursor
    toward it; and when the buffer size is at least 1 the histories hold
    exactly that one sample. *)
Theorem C6_history_restarts_after_loss
        (cfg : Settings) (st0 : State) (frames : list (FrameEnv * Hand))
        (env_lost env : FrameEnv) (ix iy : Z) (d : Distance) :
  let st1 := fst (run cfg st0 frames) in
  let st2 := fst (hand_logic cfg env_lost st1 NoHand) in
  let st3 := fst (hand_logic cfg env st2 (HandSeen (Some (ix, iy)) d)) in
  let rx := map_axis (active_region_x_min_percent cfg) (active_region_x_max_percent cfg)
                     (current_sensitivity env) (frame_width env) (screen_width env)
                     (inject_Z ix) in
  let ry := map_axis (active_region_y_min_percent cfg) (active_region_y_max_percent cfg)
                     (current_sensitivity env) (frame_height env) (screen_height env)
                     (inject_Z iy) in
  (raw_target_history_x st2 = [] /\ raw_target_history_y st2 = []
   /\ prev_cursor_x st2 = prev_cursor_x st1 /\ prev_cursor_y st2 = prev_cursor_y st1)
  /\ ((1 <= raw_target_buffer_size cfg)%nat ->
      raw_target_history_x st3 = [rx] /\ raw_target_history_y st3 = [ry])
  /\ (avg_target (raw_target_history_x st3) rx == rx
      /\ avg_target (raw_target_history_y st3) ry == ry)
  /\ (prev_cursor_x st3
        == prev_cursor_x st1 * (1 - smoothing_factor cfg) + rx * smoothing_factor cfg
      /\ prev_cursor_y st3
        == prev_cursor_y st1 * (1 - smoothing_factor cfg) + ry * smoothing_factor cfg).
Proof.
  intros st1 st2 st3 rx ry.
  assert (H2 : st2 = {| prev_cursor_x := prev_cursor_x st1;
                        prev_cursor_y := prev_cursor_y st1;
                        raw_target_history_x := []; raw_target_history_y := [];
                        is_pinching_prev_frame := false;
                        last_click_event_time := last_click_event_time st1 |}).
  { unfold st2. rewrite hand_logic_no_hand. reflexivity. }
  destruct (hand_logic_tip cfg env st2 ix iy d) as (Hhx & Hhy & Hcx & Hcy).
  fold st3 rx ry in Hhx, Hhy, Hcx, Hcy.
  rewrite H2 in Hhx, Hhy, Hcx, Hcy. cbn [raw_target_history_x raw_target_history_y
    prev_cursor_x prev_cursor_y] in Hhx, Hhy, Hcx, Hcy.
  split; [|split; [|split]].
  - rewrite H2. cbn. auto.
  - intros Hsize. rewrite Hhx, Hhy, !deque_append_empty.
    destruct (Nat.ltb_spec (raw_target_buffer_size cfg) 1); [lia | auto].
  - rewrite Hhx, Hhy. split; apply avg_target_after_clear.
  - rewrite Hcx, Hcy. unfold smooth_axis. cbn [snd].
    rewrite !avg_target_after_clear. split; reflexivity.
Qed.

(** The default settings on the scenario of the counterexample: the history
    holds the one new sample. *)
Lemma C6_history_restarts_after_loss_witness :
  (1 <= raw_target_buffer_size default_settings)%nat
  /\ length (raw_target_history_x
               (fst (hand_logic default_settings (Scenario.frame_at 1.3)
                       (fst (hand_logic default_settings (Scenario.frame_at 1.2)
                               (fst (run default_settings Scenario.idle_state
                                         (take 2 Scenario.lost_and_found)))
                               NoHand))
                       (HandSeen (Some (400, 300)%Z) (Finite 50))))) = 1%nat.
Proof.
  assert (Hsize : (1 <= raw_target_buffer_size default_settings)%nat)
    by (vm_compute; lia).
  split; [exact Hsize|].
  destruct (C6_history_restarts_after_loss default_settings Scenario.idle_state
              (take 2 Scenario.lost_and_found) (Scenario.frame_at 1.2)
              (Scenario.frame_at 1.3) 400 300 (Finite 50)) as (_ & Hone & _).
  destruct (Hone Hsize) as [Hx _]. rewrite Hx. reflexivity.
Defined.

End HistoryFacts.

(** ** The coordinate mapping *)

Section MappingFacts.

Import Control.

Lemma int_nonneg (x : Q) : 0 <= x -> Py.int x = Qfloor x.
Proof.
  intros Hx. unfold Py.int. case_Qltb x 0; [lra | reflexivity].
Qed.

(** Between two distinct sample points, [np.interp] is the chord. *)
Lemma np_interp_inside (x xp0 xp1 fp0 fp1 : Q) :
  xp0 < x -> x < xp1 ->
  Py.np_interp x xp0 xp1 fp0 fp1 == (fp1 - fp0) / (xp1 - xp0) * (x - xp0) + fp0.
Proof.
  intros H0 H1. unfold Py.np_interp.
  case_Qltb xp1 x; [lra|]. case_Qltb x xp0; [lra|].
  destruct (Qle_bool xp1 x) eqn:E1; [apply Qle_bool_iff in E1; lra|].
  destruct (Qeq_bool xp0 x) eqn:E2; [apply Qeq_bool_iff in E2; lra|].
  reflexivity.
Qed.

(** The centre of distinct pixel bounds goes to the middle of the screen. *)
Lemma raw_target_screen_center (tip : Q) (a1 a2 screen : Z) :
  (a1 < a2)%Z ->
  tip == (inject_Z a1 + inject_Z a2) / 2 ->
  raw_target_screen tip a1 a2 screen == inject_Z screen / 2.
Proof.
  intros Hlt Htip. unfold raw_target_screen.
  assert (Hq : inject_Z a1 < inject_Z a2) by (rewrite <- Zlt_Qlt; exact Hlt).
  set (p1 := inject_Z a1) in *. set (p2 := inject_Z a2) in *.
  assert (Hmid : tip == (p1 + p2) * (1 # 2)) by (rewrite Htip; field).
  rewrite np_clip_inside by lra.
  rewrite np_interp_inside by lra.
  rewrite Hmid. field. lra.
Qed.

(** C7 (amended). Whatever pixel bounds the active region yields, as long
    as they are distinct on each axis, the fingertip at the exact centre of
    the pixel bounds is mapped to the screen midpoint. *)
Theorem C7_center_maps_to_screen_midpoint
        (ax1 ax2 ay1 ay2 sw sh : Z) (tip_x tip_y : Q) :
  (ax1 < ax2)%Z ->
  (ay1 < ay2)%Z ->
  tip_x == (inject_Z ax1 + inject_Z ax2) / 2 ->
  tip_y == (inject_Z ay1 + inject_Z ay2) / 2 ->
  raw_target_screen tip_x ax1 ax2 sw == inject_Z sw / 2
  /\ raw_target_screen tip_y ay1 ay2 sh == inject_Z sh / 2.
Proof.
  intros Hax Hay Htx Hty.
  split; apply raw_target_screen_center; assumption.
Qed.

End MappingFacts.

Section MappingInstances.

Import Control PrimFloat.
#[local] Set Warnings "-inexact-float".

(** C7 (at the failing input). An 80x60 frame with the active region
    [0.5, 0.512] on both axes and sensitivity 1: the effective span, as the
    code computes it, exceeds 0.01, both pairs of pixel bounds collapse to
    one pixel (40 and 30), and the fingertip on that pixel - the exact centre
    of the pixel bounds - is sent to (1920, 1080), not to the midpoint
    (960, 540). *)
Lemma C7_center_of_collapsed_bounds_misses_midpoint :
  (exists b, Control64.effective_bounds 0.5%float 0.512%float 1%float = Some b
             /\ Control64.span_exceeds_one_percent b
             /\ Control64.pixel_bounds b 80 = Some (40, 40)%Z
             /\ Control64.pixel_bounds b 60 = Some (30, 30)%Z)
  /\ raw_target_screen (inject_Z 40) 40 40 1920 == 1920
  /\ raw_target_screen (inject_Z 30) 30 30 1080 == 1080
  /\ ~ (raw_target_screen (inject_Z 40) 40 40 1920 == 1920 / 2
        /\ raw_target_screen (inject_Z 30) 30 30 1080 == 1080 / 2).
Proof.
  split; [|split; [|split]].
  - eexists. split; [vm_compute; reflexivity|].
    split; [vm_compute; reflexivity|].
    split; vm_compute; reflexivity.
  - vm_compute. reflexivity.
  - vm_compute. reflexivity.
  - intros [Hx _]. vm_compute in Hx. discriminate Hx.
Qed.

(** The region [0.2, 0.8] at sensitivity 1 on a 640x480 frame: the code's
    pixel bounds are (127, 512) and (95, 384), and their centre
    (319.5, 239.5) goes to (960, 540). *)
Lemma C7_center_maps_to_screen_midpoint_witness :
  (Control64.active_pixel_bounds 0.2%float 0.8%float 1%float 640 = Some (127, 512)%Z
   /\ Control64.active_pixel_bounds 0.2%float 0.8%float 1%float 480 = Some (95, 384)%Z)
  /\ ((127 < 512)%Z /\ (95 < 384)%Z)
  /\ raw_target_screen 319.5 127 512 1920 == 960
  /\ raw_target_screen 239.5 95 384 1080 == 540.
Proof.
  assert (Hax : (127 < 512)%Z) by lia.
  assert (Hay : (95 < 384)%Z) by lia.
  split; [split; vm_compute; reflexivity|].
  split; [split; assumption|].
  destruct (C7_center_maps_to_screen_midpoint 127 512 95 384 1920 1080 319.5 239.5
              Hax Hay) as [Hx Hy].
  - vm_compute. reflexivity.
  - vm_compute. reflexivity.
  - split; [rewrite Hx | rewrite Hy]; vm_compute; reflexivity.
Defined.

End MappingInstances.

(** ** Rounding *)

Lemma round_half_even_close (x : Q) :
  Qabs (inject_Z (Py.round_half_even x) - x) <= 1 # 2.
Proof.
  unfold Py.round_half_even.
  pose proof (Qfloor_le x) as Hlo.
  pose proof (Qlt_floor x) as Hhi.
  rewrite inject_Z_plus in Hhi. change (inject_Z 1) with 1 in Hhi.
  set (f := Qfloor x) in *.
  apply Qabs_Qle_condition.
  case_Qltb (x - inject_Z f) (1 # 2); [lra|].
  case_Qltb (1 # 2) (x - inject_Z f).
  - rewrite inject_Z_plus. change (inject_Z 1) with 1. lra.
  - destruct (Z.even f).
    + lra.
    + rewrite inject_Z_plus. change (inject_Z 1) with 1. lra.
Qed.


(** ** The calibration window *)

Section CalibrationFacts.

Import Calibration.

(** *** Apply and save *)

Lemma lookup_config_set (key key' : string) (v : Q) (cm : ConfigManager) :
  config (config_set key v cm) !! key'
  = if decide (key = key') then Some v else config cm !! key'.
Proof.
  unfold config_set. cbn [config]. apply lookup_insert.
Qed.


Lemma in_active_region_keys (key : string) :
  In key active_region_keys ->
  key = "active_region_x_min_percent" \/ key = "active_region_x_max_percent"
  \/ key = "active_region_y_min_percent" \/ key = "active_region_y_max_percent".
Proof.
  unfold active_region_keys. simpl. intuition auto.
Qed.



(** *** Capture ticks *)

(** Every field of a window but the two status texts. *)
Lemma without_status_set_ar_status (s : ArStatus) (w : Window) :
  without_status (set_ar_status s w) = without_status w.
Proof. destruct w; reflexivity. Qed.

Lemma without_status_set_pt_status (s : PtStatus) (w : Window) :
  without_status (set_pt_status s w) = without_status w.
Proof. destruct w; reflexivity. Qed.

(** Windows equal up to the status texts agree on the countdown, the sample
    lists, the corners and the state. *)
Lemma without_status_fields (w w' : Window) :
  without_status w' = without_status w ->
  capture_countdown w' = capture_countdown w
  /\ temp_open_hand_distances w' = temp_open_hand_distances w
  /\ temp_pinch_distances w' = temp_pinch_distances w
  /\ temp_active_region_tl_norm w' = temp_active_region_tl_norm w
  /\ temp_active_region_br_norm w' = temp_active_region_br_norm w
  /\ calibration_state w' = calibration_state w.
Proof.
  destruct w, w'. unfold without_status. cbn. intros Heq.
  injection Heq; intros; subst. repeat split; reflexivity.
Qed.

(** A valid active-region tick during the countdown takes one off it. *)
Lemma process_ar_capture_counts_down (t : Timing) (x y : Q) (w : Window) :
  (0 < capture_countdown w)%Z ->
  capture_countdown (process_ar_capture t (Some x) (Some y) w)
  = (capture_countdown w - 1)%Z.
Proof.
  intros Hpos. unfold process_ar_capture.
  apply Z.ltb_lt in Hpos. rewrite Hpos.
  destruct w as [st ? ? ? ? c ? ? ? ? ? ? ? ? ? ?]. destruct st; reflexivity.
Qed.

(** A valid pinch tick during the countdown takes one off it. *)
Lemma process_pinch_capture_counts_down (t : Timing) (dist : Q) (w : Window) :
  (0 < capture_countdown w)%Z ->
  capture_countdown (process_pinch_capture t (valid_distance dist) w)
  = (capture_countdown w - 1)%Z.
Proof.
  intros Hpos. unfold process_pinch_capture, valid_distance.
  apply Z.ltb_lt in Hpos. rewrite Hpos.
  destruct w as [st ? ? ? ? c ? ? ? ? ? ? ? ? ? ?]. destruct st; reflexivity.
Qed.

(** C8. With a positive countdown, a tick without a fingertip position (in
    the active-region flow) or without a finite pinch distance (in the pinch
    flow) changes nothing but a status text: countdown, sample lists, corners
    and state are as before.  Ticks with valid input take one off the
    countdown, and no other tick changes it. *)
Theorem C8_invalid_tick_only_reports_status (t : Timing) (w : Window) :
  (0 < capture_countdown w)%Z ->
  (forall norm_x norm_y : option Q,
      norm_x = None \/ norm_y = None ->
      let w' := process_ar_capture t norm_x norm_y w in
      w' = set_ar_status ArNotDetected w /\ without_status w' = without_status w)
  /\ (forall d : option Control.Distance,
         d = None \/ d = Some Control.Inf ->
         let w' := process_pinch_capture t d w in
         w' = set_pt_status PtNotClear w /\ without_status w' = without_status w)
  /\ (forall (fw fh : Z) (lm : Landmarks),
         index_tip lm = None /\
         (calibration_state w = CALIB_STATE_WAITING_TOP_LEFT
          \/ calibration_state w = CALIB_STATE_WAITING_BOTTOM_RIGHT)
         \/ pinch_dist_pixels lm = Control.Inf /\
            (calibration_state w = CALIB_STATE_WAITING_OPEN_HAND
             \/ calibration_state w = CALIB_STATE_WAITING_PINCH) ->
         let w' := update_calibration_step t fw fh lm w in
         without_status w' = without_status w
         /\ capture_countdown w' = capture_countdown w
         /\ temp_open_hand_distances w' = temp_open_hand_distances w
         /\ temp_pinch_distances w' = temp_pinch_distances w
         /\ temp_active_region_tl_norm w' = temp_active_region_tl_norm w
         /\ temp_active_region_br_norm w' = temp_active_region_br_norm w
         /\ calibration_state w' = calibration_state w)
  /\ (forall norm_x norm_y : option Q,
         capture_countdown (process_ar_capture t norm_x norm_y w) <> capture_countdown w ->
         exists x y, norm_x = Some x /\ norm_y = Some y)
  /\ (forall d : option Control.Distance,
         capture_countdown (process_pinch_capture t d w) <> capture_countdown w ->
         exists dist, d = valid_distance dist)
  /\ (forall x y : Q,
         capture_countdown (process_ar_capture t (Some x) (Some y) w)
         = (capture_countdown w - 1)%Z)
  /\ (forall dist : Q,
         capture_countdown (process_pinch_capture t (valid_distance dist) w)
         = (capture_countdown w - 1)%Z).
Proof.
  intros Hpos.
  assert (Har : forall nx ny, nx = None \/ ny = None ->
                  process_ar_capture t nx ny w = set_ar_status ArNotDetected w).
  { intros nx ny [-> | ->]; [|destruct nx]; reflexivity. }
  assert (Hpt : forall d, d = None \/ d = Some Control.Inf ->
                  process_pinch_capture t d w = set_pt_status PtNotClear w).
  { intros d [-> | ->]; reflexivity. }
  split; [|split; [|split; [|split; [|split; [|split]]]]].
  - intros nx ny Hinv w'. unfold w'. rewrite (Har nx ny Hinv).
    split; [reflexivity | apply without_status_set_ar_status].
  - intros d Hinv w'. unfold w'. rewrite (Hpt d Hinv).
    split; [reflexivity | apply without_status_set_pt_status].
  - intros fw fh lm Hinv w'.
    assert (Hsame : without_status w' = without_status w).
    { unfold w', update_calibration_step.
      destruct (show_calibration_feed w); [|reflexivity].
      destruct Hinv as [[Htip [Hst | Hst]] | [Hinf [Hst | Hst]]]; rewrite Hst.
      - rewrite Htip, (Har None None (or_introl eq_refl)).
        apply without_status_set_ar_status.
      - rewrite Htip, (Har None None (or_introl eq_refl)).
        apply without_status_set_ar_status.
      - rewrite Hinf, (Hpt None (or_introl eq_refl)).
        apply without_status_set_pt_status.
      - rewrite Hinf, (Hpt None (or_introl eq_refl)).
        apply without_status_set_pt_status. }
    split; [exact Hsame | apply without_status_fields; exact Hsame].
  - intros nx ny Hchg. destruct nx as [x|], ny as [y|]; eauto.
    + exfalso. apply Hchg. rewrite (Har (Some x) None) by auto.
      apply (without_status_fields w), without_status_set_ar_status.
    + exfalso. apply Hchg. rewrite (Har None (Some y)) by auto.
      apply (without_status_fields w), without_status_set_ar_status.
    + exfalso. apply Hchg. rewrite (Har None None) by auto.
      apply (without_status_fields w), without_status_set_ar_status.
  - intros d Hchg. destruct d as [[dist|]|].
    + exists dist. reflexivity.
    + exfalso. apply Hchg. rewrite (Hpt (Some Control.Inf)) by auto.
      apply (without_status_fields w), without_status_set_pt_status.
    + exfalso. apply Hchg. rewrite (Hpt None) by auto.
      apply (without_status_fields w), without_status_set_pt_status.
  - intros x y. apply process_ar_capture_counts_down. exact Hpos.
  - intros dist. apply process_pinch_capture_counts_down. exact Hpos.
Qed.

(** The open-hand capture armed at 60 frames per second (countdown 180): a
    frame without a usable distance leaves the countdown at 180, a frame with
    one brings it to 179. *)
Lemma C8_invalid_tick_only_reports_status_witness :
  let w := start_capture_open_hand default_timing init in
  (0 < capture_countdown w)%Z
  /\ capture_countdown (process_pinch_capture default_timing None w) = 180%Z
  /\ capture_countdown (process_pinch_capture default_timing (valid_distance 80) w)
     = 179%Z.
Proof.
  cbv zeta.
  assert (Hpos : (0 < capture_countdown (start_capture_open_hand default_timing init))%Z)
    by reflexivity.
  destruct (C8_invalid_tick_only_reports_status default_timing _ Hpos)
    as (_ & Hpt & _ & _ & _ & _ & Hdec).
  split; [exact Hpos|]. split.
  - destruct (Hpt None (or_introl eq_refl)) as [-> _]. reflexivity.
  - rewrite (Hdec 80). reflexivity.
Defined.

End CalibrationFacts.

(** ** The threshold derivation and apply, in binary64 *)

Section Binary64Facts.

Import PrimFloat.
Import Calibration64.
#[local] Open Scope float_scope.
#[local] Set Warnings "-inexact-float".

(** The decimal constants of the sources are the doubles nearest to them:
    each is the correctly rounded quotient of two exact doubles. *)
Lemma decimal_constants :
  0.35 = 35 / 100 /\ 0.01 = 1 / 100 /\ 1.0 = 1 /\ 5.0 = 5.
Proof. repeat split; vm_compute; reflexivity. Qed.

Lemma shown_threshold (v : ThresholdVar) (w : Window) :
  pt_new_threshold_var (set_pt_new_threshold_var v w) = v.
Proof. destruct w; reflexivity. Qed.



(** *** Apply and save *)

Lemma lookup_float_config_set (key key' : string) (v : float) (cm : ConfigManager) :
  config (config_set key v cm) !! key'
  = if decide (key = key') then Some v else config cm !! key'.
Proof.
  unfold config_set. cbn [config]. apply lookup_insert.
Qed.

(** Lookups through a chain of [config_set] on literal keys. *)
Ltac lookup_float_config :=
  repeat (rewrite lookup_float_config_set; case_decide;
          [try discriminate | try congruence]);
  try reflexivity.

Lemma float_region_accepted_iff (x_min x_max y_min y_max : float) :
  region_accepted (x_min, x_max, y_min, y_max) = true
  <-> (x_min + 0.01 <? x_max) = true /\ (y_min + 0.01 <? y_max) = true.
Proof.
  unfold region_accepted. apply andb_true_iff.
Qed.

(** The two outcomes of the active-region block of [apply_and_save_settings],
    whatever the threshold text is. *)
Lemma float_region_committed (w : Window) (cm : ConfigManager) (tl br : float * float) :
  temp_active_region_tl_norm w = Some tl ->
  temp_active_region_br_norm w = Some br ->
  region_accepted (sorted_corners tl br) = true ->
  let r := apply_and_save_settings w cm in
  let '(x_min, x_max, y_min, y_max) := sorted_corners tl br in
  config (applied_config r) !! "active_region_x_min_percent" = Some (Py64.round x_min 3)
  /\ config (applied_config r) !! "active_region_x_max_percent" = Some (Py64.round x_max 3)
  /\ config (applied_config r) !! "active_region_y_min_percent" = Some (Py64.round y_min 3)
  /\ config (applied_config r) !! "active_region_y_max_percent" = Some (Py64.round y_max 3)
  /\ settings_file (applied_config r) = config (applied_config r)
  /\ settings_reloaded r = true
  /\ (parse_threshold_var (pt_new_threshold_var w) = None ->
      config (applied_config r) !! "pinch_threshold_distance"
        = config cm !! "pinch_threshold_distance"
      /\ dialogs r = [Calibration.InfoSettingsApplied]).
Proof.
  intros Htl Hbr Hacc. unfold apply_and_save_settings.
  rewrite Htl, Hbr. unfold sorted_corners in *. cbn [fst snd] in *.
  rewrite Hacc.
  destruct (parse_threshold_var (pt_new_threshold_var w)) as [t|];
    cbn [applied_config save_config config settings_file settings_reloaded dialogs].
  all: repeat split; intros; try discriminate; lookup_float_config.
Qed.

Lemma float_region_rejected (w : Window) (cm : ConfigManager) (tl br : float * float) :
  temp_active_region_tl_norm w = Some tl ->
  temp_active_region_br_norm w = Some br ->
  region_accepted (sorted_corners tl br) = false ->
  let r := apply_and_save_settings w cm in
  (forall key, In key Calibration.active_region_keys ->
               config (applied_config r) !! key = config cm !! key)
  /\ In Calibration.ErrorInvalidActiveRegion (dialogs r)
  /\ (parse_threshold_var (pt_new_threshold_var w) = None ->
      applied_config r = cm
      /\ dialogs r = [Calibration.ErrorInvalidActiveRegion; Calibration.InfoNothingToApply]
      /\ settings_reloaded r = false)
  /\ (forall v, pt_new_threshold_var w = ThresholdValue v ->
                config (applied_config r) !! "pinch_threshold_distance"
                  = Some (Py64.round (Py64.float_of 2 v) 2)
                /\ settings_file (applied_config r) = config (applied_config r)
                /\ settings_reloaded r = true
                /\ dialogs r = [Calibration.ErrorInvalidActiveRegion;
                                Calibration.InfoSettingsApplied]).
Proof.
  intros Htl Hbr Hrej. unfold apply_and_save_settings.
  rewrite Htl, Hbr. unfold sorted_corners in *. cbn [fst snd] in *.
  rewrite Hrej.
  destruct (pt_new_threshold_var w) as [|t| |] eqn:Ev;
    cbn [parse_threshold_var applied_config save_config config settings_file
         settings_reloaded dialogs app].
  all: split; [|split; [|split]]; [ | simpl; auto | | ].
  all: try (intros key Hin; apply in_active_region_keys in Hin;
            destruct Hin as [-> | [-> | [-> | ->]]]; lookup_float_config; fail).
  all: try (intros Hnone; try discriminate Hnone; destruct cm; auto; fail).
  all: intros v Hv; try discriminate Hv.
  injection Hv as ->. repeat split; lookup_float_config.
Qed.

(** The digits printed for a finite float are within half a unit of the
    last place of its exact value. *)
Lemma format_f_close (ndigits : nat) (x : float) (v : Q) :
  Py64.magnitude x = Some v ->
  exists k, Py64.format_f ndigits x = Py64.Decimal (Py64.negative x) k
            /\ (Qabs (inject_Z k - v * inject_Z (10 ^ Z.of_nat ndigits)) <= 1 # 2)%Q.
Proof.
  intros Hv. unfold Py64.format_f. rewrite Hv.
  eexists. split; [reflexivity|]. apply round_half_even_close.
Qed.

(** C3 (at the failing input). With the corners (0.1234, 0.2) and (0.8, 0.9)
    the rectangle is accepted, and the value stored for
    [active_region_x_min_percent] is 0.123, not the minimum 0.1234 of the two
    x coordinates. *)
Lemma C3_committed_value_is_rounded :
  let w := window_with (0.1234, 0.2) (0.8, 0.9) ThresholdNotCalculated in
  let r := apply_and_save_settings w default_config in
  region_accepted (sorted_corners (0.1234, 0.2) (0.8, 0.9)) = true
  /\ Py64.min 0.1234 0.8 = 0.1234
  /\ config (applied_config r) !! "active_region_x_min_percent" = Some 0.123
  /\ ~ config_has (applied_config r) "active_region_x_min_percent" (Py64.min 0.1234 0.8).
Proof.
  cbv zeta.
  assert (Hstored : config (applied_config
                              (apply_and_save_settings
                                 (window_with (0.1234, 0.2) (0.8, 0.9) ThresholdNotCalculated)
                                 default_config))
                      !! "active_region_x_min_percent" = Some 0.123)
    by (vm_compute; reflexivity).
  split; [vm_compute; reflexivity|]. split; [vm_compute; reflexivity|].
  split; [exact Hstored|].
  intros (v & Hv & Hsame). rewrite Hstored in Hv. injection Hv as <-.
  vm_compute in Hsame. discriminate Hsame.
Qed.

(** C3 (amended). The corners are sorted into minima and maxima; the four
    values, each rounded to three decimals, are written to the configuration
    (and saved) if and only if [x_max > x_min + 0.01] and
    [y_max > y_min + 0.01], the sums and the comparisons being those of
    binary64; otherwise the four keys keep their values and the error dialog
    is shown.  The rounded value is the double nearest to a decimal within
    0.0005 of the sorted value.  (0.2, 0.2) and (0.8, 0.9) commit
    (0.2, 0.8, 0.2, 0.9), in either order of the corners; (0.5, 0.5) and
    (0.505, 0.505) are rejected; the x coordinates 0.06 and 0.07 pass the
    test, [0.06 + 0.01] being 0.06999999999999999. *)
Theorem C3_active_region_commit :
  (forall (w : Window) (cm : ConfigManager) (tl br : float * float),
      temp_active_region_tl_norm w = Some tl ->
      temp_active_region_br_norm w = Some br ->
      let '(x_min, x_max, y_min, y_max) := sorted_corners tl br in
      let r := apply_and_save_settings w cm in
      (x_min = Py64.min (fst tl) (fst br) /\ x_max = Py64.max (fst tl) (fst br)
       /\ y_min = Py64.min (snd tl) (snd br) /\ y_max = Py64.max (snd tl) (snd br))
      /\ ((x_min + 0.01 <? x_max) = true /\ (y_min + 0.01 <? y_max) = true ->
          config (applied_config r) !! "active_region_x_min_percent"
            = Some (Py64.round x_min 3)
          /\ config (applied_config r) !! "active_region_x_max_percent"
               = Some (Py64.round x_max 3)
          /\ config (applied_config r) !! "active_region_y_min_percent"
               = Some (Py64.round y_min 3)
          /\ config (applied_config r) !! "active_region_y_max_percent"
               = Some (Py64.round y_max 3)
          /\ settings_file (applied_config r) = config (applied_config r))
      /\ (~ ((x_min + 0.01 <? x_max) = true /\ (y_min + 0.01 <? y_max) = true) ->
          (forall key, In key Calibration.active_region_keys ->
                       config (applied_config r) !! key = config cm !! key)
          /\ In Calibration.ErrorInvalidActiveRegion (dialogs r)))
  /\ (forall (x : float) (v : Q),
         Py64.magnitude x = Some v ->
         exists k, Py64.round x 3
                   = Py64.float_of 3 (Py64.Decimal (Py64.negative x) k)
                   /\ (Qabs (inject_Z k / 1000 - v) <= 0.0005)%Q)
  /\ (forall tl br,
         (tl = (0.2, 0.2) /\ br = (0.8, 0.9)) \/ (tl = (0.8, 0.9) /\ br = (0.2, 0.2)) ->
         let r := apply_and_save_settings (window_with tl br ThresholdNotCalculated)
                                          default_config in
         config (applied_config r) !! "active_region_x_min_percent" = Some 0.2
         /\ config (applied_config r) !! "active_region_x_max_percent" = Some 0.8
         /\ config (applied_config r) !! "active_region_y_min_percent" = Some 0.2
         /\ config (applied_config r) !! "active_region_y_max_percent" = Some 0.9
         /\ settings_file (applied_config r) = config (applied_config r))
  /\ (let r := apply_and_save_settings
                 (window_with (0.5, 0.5) (0.505, 0.505) ThresholdNotCalculated)
                 default_config in
      applied_config r = default_config
      /\ dialogs r = [Calibration.ErrorInvalidActiveRegion; Calibration.InfoNothingToApply])
  /\ (let r := apply_and_save_settings
                 (window_with (0.06, 0.2) (0.07, 0.9) ThresholdNotCalculated)
                 default_config in
      0.06 + 0.01 = 0.06999999999999999
      /\ region_accepted (sorted_corners (0.06, 0.2) (0.07, 0.9)) = true
      /\ config (applied_config r) !! "active_region_x_min_percent" = Some 0.06
      /\ config (applied_config r) !! "active_region_x_max_percent" = Some 0.07).
Proof.
  split; [|split; [|split; [|split]]].
  - intros w cm tl br Htl Hbr.
    pose proof (float_region_committed w cm tl br Htl Hbr) as Hacc.
    pose proof (float_region_rejected w cm tl br Htl Hbr) as Hrej.
    unfold sorted_corners in *. cbn [fst snd] in *. cbv zeta in *.
    split; [|split].
    + repeat split.
    + intros Hgap. apply float_region_accepted_iff in Hgap.
      destruct (Hacc Hgap) as (H1 & H2 & H3 & H4 & H5 & _). auto.
    + intros Hgap.
      destruct (region_accepted _) eqn:E in Hrej.
      * exfalso. apply Hgap. apply float_region_accepted_iff. exact E.
      * destruct (Hrej eq_refl) as (Hkeep & Hdlg & _). auto.
  - intros x v Hv.
    destruct (format_f_close 3 x v Hv) as (k & Hk & Hclose).
    exists k. split; [unfold Py64.round; rewrite Hk; reflexivity|].
    change (inject_Z (10 ^ Z.of_nat 3)) with (inject_Z 1000) in Hclose.
    assert (Hrw : (inject_Z k / 1000 - v == (inject_Z k - v * inject_Z 1000) * (1 # 1000))%Q).
    { change (inject_Z 1000) with 1000%Q. field. }
    rewrite Hrw, Qabs_Qmult.
    change (Qabs (1 # 1000)) with (1 # 1000)%Q.
    assert (H0 : (0 <= Qabs (inject_Z k - v * inject_Z 1000))%Q) by apply Qabs_nonneg.
    set (a := Qabs (inject_Z k - v * inject_Z 1000)) in *.
    lra.
  - intros tl br [[-> ->] | [-> ->]]; cbv zeta; repeat split; vm_compute; reflexivity.
  - cbv zeta. split; vm_compute; reflexivity.
  - cbv zeta. repeat split; vm_compute; reflexivity.
Qed.

(** The corners (0.8, 0.9) and (0.2, 0.2), given in the reverse order,
    through the general statement: they are sorted and 0.8 is stored as the
    upper x bound. *)
Lemma C3_active_region_commit_witness :
  let w := window_with (0.8, 0.9) (0.2, 0.2) ThresholdNotCalculated in
  (temp_active_region_tl_norm w = Some (0.8, 0.9)
   /\ temp_active_region_br_norm w = Some (0.2, 0.2)
   /\ (Py64.min 0.8 0.2 + 0.01 <? Py64.max 0.8 0.2) = true
   /\ (Py64.min 0.9 0.2 + 0.01 <? Py64.max 0.9 0.2) = true)
  /\ config (applied_config (apply_and_save_settings w default_config))
       !! "active_region_x_max_percent" = Some (Py64.round (Py64.max 0.8 0.2) 3)
  /\ Py64.round (Py64.max 0.8 0.2) 3 = 0.8.
Proof.
  cbv zeta.
  assert (Htl : temp_active_region_tl_norm
                  (window_with (0.8, 0.9) (0.2, 0.2) ThresholdNotCalculated)
                = Some (0.8, 0.9)) by reflexivity.
  assert (Hbr : temp_active_region_br_norm
                  (window_with (0.8, 0.9) (0.2, 0.2) ThresholdNotCalculated)
                = Some (0.2, 0.2)) by reflexivity.
  assert (Hx : (Py64.min 0.8 0.2 + 0.01 <? Py64.max 0.8 0.2) = true)
    by (vm_compute; reflexivity).
  assert (Hy : (Py64.min 0.9 0.2 + 0.01 <? Py64.max 0.9 0.2) = true)
    by (vm_compute; reflexivity).
  split; [auto|].
  destruct C3_active_region_commit as (Hgen & _).
  destruct (Hgen _ default_config _ _ Htl Hbr) as (_ & Hcommit & _).
  destruct (Hcommit (conj Hx Hy)) as (_ & H2 & _).
  split; [exact H2 | vm_compute; reflexivity].
Defined.

(** C10. Apply is not atomic across the two calibrations: with a rejected
    rectangle and a derived threshold on display, the four active-region keys
    keep their values while the threshold (its two displayed decimals) is
    written and saved; with an accepted rectangle and no threshold to read,
    the rectangle is written and saved while the threshold key keeps its
    value. *)
Theorem C10_apply_is_not_atomic
        (w : Window) (cm : ConfigManager) (tl br : float * float) :
  temp_active_region_tl_norm w = Some tl ->
  temp_active_region_br_norm w = Some br ->
  let r := apply_and_save_settings w cm in
  let '(x_min, x_max, y_min, y_max) := sorted_corners tl br in
  (region_accepted (sorted_corners tl br) = false ->
   forall v, pt_new_threshold_var w = ThresholdValue v ->
     (forall key, In key Calibration.active_region_keys ->
                  config (applied_config r) !! key = config cm !! key)
     /\ config (applied_config r) !! "pinch_threshold_distance"
          = Some (Py64.round (Py64.float_of 2 v) 2)
     /\ settings_file (applied_config r) = config (applied_config r)
     /\ settings_reloaded r = true)
  /\ (region_accepted (sorted_corners tl br) = true ->
      parse_threshold_var (pt_new_threshold_var w) = None ->
      config (applied_config r) !! "active_region_x_min_percent" = Some (Py64.round x_min 3)
      /\ config (applied_config r) !! "active_region_x_max_percent" = Some (Py64.round x_max 3)
      /\ config (applied_config r) !! "active_region_y_min_percent" = Some (Py64.round y_min 3)
      /\ config (applied_config r) !! "active_region_y_max_percent" = Some (Py64.round y_max 3)
      /\ config (applied_config r) !! "pinch_threshold_distance"
           = config cm !! "pinch_threshold_distance"
      /\ settings_file (applied_config r) = config (applied_config r)
      /\ settings_reloaded r = true).
Proof.
  intros Htl Hbr.
  pose proof (float_region_committed w cm tl br Htl Hbr) as Hacc.
  pose proof (float_region_rejected w cm tl br Htl Hbr) as Hrej.
  unfold sorted_corners in *. cbn [fst snd] in *. cbv zeta in *.
  split.
  - intros E v Hv. destruct (Hrej E) as (Hkeep & _ & _ & Hthr).
    destruct (Hthr v Hv) as (H1 & H2 & H3 & _). auto.
  - intros E Hnone. destruct (Hacc E) as (H1 & H2 & H3 & H4 & H5 & H6 & H7).
    destruct (H7 Hnone) as [H8 _]. repeat split; assumption.
Qed.

(** Both halves on the default configuration.  The degenerate corners
    (0.5, 0.5) and (0.505, 0.505) with ["New Threshold: 20.50"] on display:
    the four region keys stay at 0.15 and 0.85 and 20.5 replaces the
    threshold 25 in the configuration and in the saved file.  The corners
    (0.8, 0.9) and (0.2, 0.2) with no threshold calculated: the region
    (0.2, 0.8, 0.2, 0.9) is stored and saved and the threshold stays 25. *)
Lemma C10_apply_is_not_atomic_witness :
  let w1 := window_with (0.5, 0.5) (0.505, 0.505) (ThresholdValue (two_decimals 2050)) in
  let r1 := apply_and_save_settings w1 default_config in
  let w2 := window_with (0.8, 0.9) (0.2, 0.2) ThresholdNotCalculated in
  let r2 := apply_and_save_settings w2 default_config in
  (region_accepted (sorted_corners (0.5, 0.5) (0.505, 0.505)) = false
   /\ region_accepted (sorted_corners (0.8, 0.9) (0.2, 0.2)) = true)
  /\ (config (applied_config r1) !! "active_region_x_min_percent" = Some 0.15
      /\ config (applied_config r1) !! "active_region_x_max_percent" = Some 0.85
      /\ config (applied_config r1) !! "active_region_y_min_percent" = Some 0.15
      /\ config (applied_config r1) !! "active_region_y_max_percent" = Some 0.85
      /\ config (applied_config r1) !! "pinch_threshold_distance" = Some 20.5
      /\ settings_file (applied_config r1) !! "pinch_threshold_distance" = Some 20.5)
  /\ (config (applied_config r2) !! "active_region_x_min_percent" = Some 0.2
      /\ config (applied_config r2) !! "active_region_x_max_percent" = Some 0.8
      /\ config (applied_config r2) !! "active_region_y_min_percent" = Some 0.2
      /\ config (applied_config r2) !! "active_region_y_max_percent" = Some 0.9
      /\ config (applied_config r2) !! "pinch_threshold_distance" = Some 25
      /\ settings_file (applied_config r2) !! "active_region_x_min_percent" = Some 0.2).
Proof.
  cbv zeta.
  assert (Hrej : region_accepted (sorted_corners (0.5, 0.5) (0.505, 0.505)) = false)
    by (vm_compute; reflexivity).
  assert (Hacc : region_accepted (sorted_corners (0.8, 0.9) (0.2, 0.2)) = true)
    by (vm_compute; reflexivity).
  pose proof (C10_apply_is_not_atomic
                (window_with (0.5, 0.5) (0.505, 0.505) (ThresholdValue (two_decimals 2050)))
                default_config (0.5, 0.5) (0.505, 0.505) eq_refl eq_refl)
    as [Hdeg _].
  pose proof (C10_apply_is_not_atomic
                (window_with (0.8, 0.9) (0.2, 0.2) ThresholdNotCalculated)
                default_config (0.8, 0.9) (0.2, 0.2) eq_refl eq_refl)
    as [_ Hval].
  destruct (Hdeg Hrej (two_decimals 2050) eq_refl) as (Hkeep & Hthr & Hsaved & _).
  destruct (Hval Hacc eq_refl) as (V1 & V2 & V3 & V4 & V5 & V6 & _).
  split; [split; assumption|]. split.
  - rewrite !Hkeep by (simpl; auto). rewrite Hsaved, Hthr.
    repeat split; vm_compute; reflexivity.
  - rewrite V6, V1, V2, V3, V4, V5. repeat split; vm_compute; reflexivity.
Defined.

End Binary64Facts.

(** ** Sampling the pinch distance, in binary64 *)

Section Binary64CaptureFacts.

Import PrimFloat.
Import Calibration Calibration64.
#[local] Open Scope float_scope.
#[local] Set Warnings "-inexact-float".

Context {builtin_sum : Py64.Sum}.

(** A usable tick during the countdown: the distance joins the samples of
    the flow under way and the countdown loses one; nothing is finalised,
    also when the countdown thereby reaches zero. *)
Lemma countdown_tick_samples (t : Timing) (dist : float) (w : Window) :
  usable_distance dist ->
  (0 < capture_countdown w)%Z ->
  let w' := process_pinch_capture t (Some dist) w in
  capture_countdown w' = (capture_countdown w - 1)%Z
  /\ calibration_state w' = calibration_state w
  /\ pt_open_dist_var w' = pt_open_dist_var w
  /\ pt_pinch_dist_var w' = pt_pinch_dist_var w
  /\ pt_new_threshold_var w' = pt_new_threshold_var w
  /\ pt_pinch_button_enabled w' = pt_pinch_button_enabled w
  /\ (calibration_state w = CALIB_STATE_WAITING_OPEN_HAND ->
      temp_open_hand_distances w' = temp_open_hand_distances w ++ [dist]
      /\ temp_pinch_distances w' = temp_pinch_distances w)
  /\ (calibration_state w = CALIB_STATE_WAITING_PINCH ->
      temp_pinch_distances w' = temp_pinch_distances w ++ [dist]
      /\ temp_open_hand_distances w' = temp_open_hand_distances w).
Proof.
  intros Hok Hpos. unfold process_pinch_capture.
  unfold usable_distance in Hok. rewrite Hok.
  apply Z.ltb_lt in Hpos. rewrite Hpos.
  destruct w as [st ? ? ? ? ? ? ? ? ? ? ? ? ? ? ?].
  destruct st; cbn; repeat split; intros; try discriminate; reflexivity.
Qed.

(** The usable tick that finds the open-hand countdown at zero. *)
Lemma zero_tick_finalises_open_hand (t : Timing) (dist : float) (w : Window) :
  usable_distance dist ->
  calibration_state w = CALIB_STATE_WAITING_OPEN_HAND ->
  (capture_countdown w <= 0)%Z ->
  let w' := process_pinch_capture t (Some dist) w in
  calibration_state w' = CALIB_STATE_IDLE
  /\ temp_open_hand_distances w' = temp_open_hand_distances w
  /\ (temp_open_hand_distances w <> [] ->
      pt_open_dist_var w'
      = DistAvg (Py64.format_f 2 (Py64.mean (temp_open_hand_distances w)))
      /\ pt_status_var w' = PtOpenCaptured
      /\ pt_pinch_button_enabled w' = true)
  /\ (temp_open_hand_distances w = [] ->
      pt_status_var w' = PtOpenFailed
      /\ pt_open_dist_var w' = pt_open_dist_var w).
Proof.
  intros Hok Hst Hzero. unfold process_pinch_capture.
  unfold usable_distance in Hok. rewrite Hok.
  assert (Hb : (0 <? capture_countdown w)%Z = false) by (apply Z.ltb_ge; exact Hzero).
  rewrite Hb, Hst.
  destruct w as [? ? ? samples ? ? ? ? ? ? ? ? ? ? ? ?]. cbn in *.
  destruct samples as [|d0 rest]; cbn.
  - split; [reflexivity|]. split; [reflexivity|]. split; [congruence | auto].
  - split; [reflexivity|]. split; [reflexivity|]. split; [auto | discriminate].
Qed.

(** The usable tick that finds the pinch countdown at zero. *)
Lemma zero_tick_finalises_pinch (t : Timing) (dist : float) (w : Window) :
  usable_distance dist ->
  calibration_state w = CALIB_STATE_WAITING_PINCH ->
  (capture_countdown w <= 0)%Z ->
  let w' := process_pinch_capture t (Some dist) w in
  calibration_state w' = CALIB_STATE_IDLE
  /\ temp_pinch_distances w' = temp_pinch_distances w
  /\ pt_open_dist_var w' = pt_open_dist_var w
  /\ (temp_pinch_distances w <> [] ->
      pt_pinch_dist_var w'
      = DistAvg (Py64.format_f 2 (Py64.mean (temp_pinch_distances w)))
      /\ pt_status_var w' = PtPinchCaptured
      /\ pt_new_threshold_var w'
         = pt_new_threshold_var
             (calculate_and_display_new_pinch_threshold
                (set_pt_pinch_dist_var
                   (DistAvg (Py64.format_f 2 (Py64.mean (temp_pinch_distances w)))) w)))
  /\ (temp_pinch_distances w = [] ->
      pt_status_var w' = PtPinchFailed
      /\ pt_pinch_dist_var w' = pt_pinch_dist_var w
      /\ pt_new_threshold_var w' = pt_new_threshold_var w).
Proof.
  intros Hok Hst Hzero. unfold process_pinch_capture.
  unfold usable_distance in Hok. rewrite Hok.
  assert (Hb : (0 <? capture_countdown w)%Z = false) by (apply Z.ltb_ge; exact Hzero).
  rewrite Hb, Hst.
  destruct w as [? ? ? ? samples ? ? ? ? ? ? open_var ? ? ? ?]. cbn in *.
  destruct samples as [|d0 rest]; cbn.
  - repeat split; intros; try congruence; reflexivity.
  - unfold calculate_and_display_new_pinch_threshold.
    cbn [pt_open_dist_var pt_pinch_dist_var set_pt_status set_pt_pinch_dist_var
         parse_dist_var].
    destruct (parse_dist_var open_var) as [avg_open|];
      [destruct (derive_threshold avg_open _)|];
      cbn; repeat split; intros; try discriminate; reflexivity.
Qed.

Lemma feed_pinch_snoc (t : Timing) (inputs : list (option float))
      (d : option float) (w : Window) :
  feed_pinch t (inputs ++ [d]) w = process_pinch_capture t d (feed_pinch t inputs w).
Proof.
  revert w. induction inputs as [|x xs IH]; intros w; [reflexivity|].
  cbn [app feed_pinch]. apply IH.
Qed.

(** A hold of usable frames no longer than the countdown: all their
    distances are collected, in order, and nothing is finalised. *)
Lemma hold_collects (t : Timing) (ds : list float) :
  forall w : Window,
    Forall usable_distance ds ->
    (Z.of_nat (length ds) <= capture_countdown w)%Z ->
    let w' := feed_pinch t (map Some ds) w in
    capture_countdown w' = (capture_countdown w - Z.of_nat (length ds))%Z
    /\ calibration_state w' = calibration_state w
    /\ pt_open_dist_var w' = pt_open_dist_var w
    /\ pt_pinch_dist_var w' = pt_pinch_dist_var w
    /\ pt_new_threshold_var w' = pt_new_threshold_var w
    /\ pt_pinch_button_enabled w' = pt_pinch_button_enabled w
    /\ (calibration_state w = CALIB_STATE_WAITING_OPEN_HAND ->
        temp_open_hand_distances w' = temp_open_hand_distances w ++ ds)
    /\ (calibration_state w = CALIB_STATE_WAITING_PINCH ->
        temp_pinch_distances w' = temp_pinch_distances w ++ ds).
Proof.
  induction ds as [|d ds IH]; intros w Hok Hlen.
  - simpl. rewrite !app_nil_r. repeat split; auto; lia.
  - change (length (d :: ds)) with (S (length ds)) in *.
    rewrite Nat2Z.inj_succ in *.
    apply Forall_cons in Hok as [Hd Hds].
    destruct (countdown_tick_samples t d w Hd ltac:(lia))
      as (Hc & Hst & Ho & Hp & Hthr & Hb & Hopen & Hpinch).
    cbn [map feed_pinch].
    assert (Hlen' : (Z.of_nat (length ds)
                     <= capture_countdown (process_pinch_capture t (Some d) w))%Z).
    { rewrite Hc. lia. }
    destruct (IH (process_pinch_capture t (Some d) w) Hds Hlen')
      as (Hc2 & Hst2 & Ho2 & Hp2 & Hthr2 & Hb2 & Hopen2 & Hpinch2).
    cbv zeta. rewrite Hc2, Hst2, Ho2, Hp2, Hthr2, Hb2, Hc, Hst, Ho, Hp, Hthr, Hb.
    repeat split; try lia.
    + intros E. rewrite Hopen2 by congruence.
      destruct (Hopen E) as [-> _]. rewrite <- app_assoc. reflexivity.
    + intros E. rewrite Hpinch2 by congruence.
      destruct (Hpinch E) as [-> _]. rewrite <- app_assoc. reflexivity.
Qed.

(** C9 (amended). In the open-hand flow, and likewise in the pinch flow,
    every tick with a usable distance while the countdown is positive appends
    the distance to the flow's sample list, and stores nothing, also when it
    brings the countdown to zero.  The next usable tick, the one that finds
    the countdown at zero, is not sampled: it returns the state to Idle and
    stores the arithmetic mean of the samples as its two-decimal text, or
    reports a failure and stores no average when the list is empty.  Armed by
    the operator and held for the whole countdown, the capture is still
    waiting with nothing stored; one more usable frame stores the mean of the
    distances of the hold. *)
Theorem C9_pinch_sampling :
  (forall (t : Timing) (dist : float) (w : Window),
      usable_distance dist ->
      (0 < capture_countdown w)%Z ->
      let w' := process_pinch_capture t (Some dist) w in
      (calibration_state w = CALIB_STATE_WAITING_OPEN_HAND ->
       temp_open_hand_distances w' = temp_open_hand_distances w ++ [dist]
       /\ calibration_state w' = CALIB_STATE_WAITING_OPEN_HAND
       /\ pt_open_dist_var w' = pt_open_dist_var w)
      /\ (calibration_state w = CALIB_STATE_WAITING_PINCH ->
          temp_pinch_distances w' = temp_pinch_distances w ++ [dist]
          /\ calibration_state w' = CALIB_STATE_WAITING_PINCH
          /\ pt_pinch_dist_var w' = pt_pinch_dist_var w))
  /\ (forall (t : Timing) (dist : float) (w : Window),
         usable_distance dist ->
         (capture_countdown w <= 0)%Z ->
         let w' := process_pinch_capture t (Some dist) w in
         (calibration_state w = CALIB_STATE_WAITING_OPEN_HAND ->
          calibration_state w' = CALIB_STATE_IDLE
          /\ temp_open_hand_distances w' = temp_open_hand_distances w
          /\ (temp_open_hand_distances w <> [] ->
              pt_open_dist_var w'
              = DistAvg (Py64.format_f 2 (Py64.mean (temp_open_hand_distances w))))
          /\ (temp_open_hand_distances w = [] ->
              pt_status_var w' = PtOpenFailed
              /\ pt_open_dist_var w' = pt_open_dist_var w))
         /\ (calibration_state w = CALIB_STATE_WAITING_PINCH ->
             calibration_state w' = CALIB_STATE_IDLE
             /\ temp_pinch_distances w' = temp_pinch_distances w
             /\ (temp_pinch_distances w <> [] ->
                 pt_pinch_dist_var w'
                 = DistAvg (Py64.format_f 2 (Py64.mean (temp_pinch_distances w))))
             /\ (temp_pinch_distances w = [] ->
                 pt_status_var w' = PtPinchFailed
                 /\ pt_pinch_dist_var w' = pt_pinch_dist_var w)))
  /\ (forall (t : Timing) (w0 : Window) (ds : list float) (last : float),
         Forall usable_distance ds ->
         usable_distance last ->
         let armed := start_capture_open_hand t w0 in
         Z.of_nat (length ds) = capture_countdown armed ->
         let held := feed_pinch t (map Some ds) armed in
         let w' := process_pinch_capture t (Some last) held in
         (capture_countdown held = 0%Z
          /\ calibration_state held = CALIB_STATE_WAITING_OPEN_HAND
          /\ temp_open_hand_distances held = ds
          /\ pt_open_dist_var held = pt_open_dist_var w0)
         /\ calibration_state w' = CALIB_STATE_IDLE
         /\ (ds <> [] -> pt_open_dist_var w' = DistAvg (Py64.format_f 2 (Py64.mean ds)))
         /\ (ds = [] -> pt_status_var w' = PtOpenFailed
                        /\ pt_open_dist_var w' = pt_open_dist_var w0)).
Proof.
  split; [|split].
  - intros t dist w Hok Hpos w'.
    destruct (countdown_tick_samples t dist w Hok Hpos)
      as (_ & Hst & Ho & Hp & _ & _ & Hopen & Hpinch).
    split; intros E.
    + destruct (Hopen E) as [H1 _]. fold w' in Hst, Ho. rewrite Hst, Ho. auto.
    + destruct (Hpinch E) as [H1 _]. fold w' in Hst, Hp. rewrite Hst, Hp. auto.
  - intros t dist w Hok Hzero w'. split; intros Hst.
    + destruct (zero_tick_finalises_open_hand t dist w Hok Hst Hzero) as (H1 & H2 & H3 & H4).
      split; [exact H1|]. split; [exact H2|]. split; [|exact H4].
      intros Hne. destruct (H3 Hne) as [H _]. exact H.
    + destruct (zero_tick_finalises_pinch t dist w Hok Hst Hzero) as (H1 & H2 & _ & H3 & H4).
      split; [exact H1|]. split; [exact H2|]. split.
      * intros Hne. destruct (H3 Hne) as [H _]. exact H.
      * intros He. destruct (H4 He) as (Ha & Hb & _). auto.
  - intros t w0 ds last Hds Hlast armed Hlen held w'.
    assert (Harm : calibration_state armed = CALIB_STATE_WAITING_OPEN_HAND
                   /\ temp_open_hand_distances armed = []
                   /\ pt_open_dist_var armed = pt_open_dist_var w0).
    { unfold armed, start_capture_open_hand. destruct w0. cbn. auto. }
    destruct Harm as (Hst & Hempty & Hvar).
    destruct (hold_collects t ds armed Hds ltac:(lia))
      as (Hc & Hst' & Ho & _ & _ & _ & Hs & _).
    fold held in Hc, Hst', Ho, Hs.
    specialize (Hs Hst). rewrite Hempty in Hs. cbn [app] in Hs.
    rewrite Hst in Hst'. rewrite Hvar in Ho.
    assert (Hzero : capture_countdown held = 0%Z) by lia.
    split; [auto|].
    destruct (zero_tick_finalises_open_hand t last held Hlast Hst' ltac:(lia))
      as (H1 & _ & H3 & H4).
    fold w' in H1, H3, H4. rewrite Hs in H3, H4.
    split; [exact H1|]. split.
    + intros Hne. destruct (H3 Hne) as [H _]. exact H.
    + intros He. destruct (H4 He) as [Ha Hb]. rewrite Hb, Ho. auto.
Qed.

End Binary64CaptureFacts.

Section Binary64CaptureInstances.

Import PrimFloat.
Import Calibration Calibration64.
#[local] Open Scope float_scope.
#[local] Set Warnings "-inexact-float".

(** C9 (at the failing input). An open-hand capture at one frame per second
    (countdown 3) fed the usable distances 80, 90, 100: the countdown has
    reached zero, and the capture is still waiting, with no average stored
    and the pinch button disabled. *)
Lemma C9_nothing_stored_when_countdown_reaches_zero :
  let armed := start_capture_open_hand one_frame_per_second init in
  let w := feed_pinch (builtin_sum := Py64.sum_left_to_right) one_frame_per_second
                      (map Some [80; 90; 100]) armed in
  capture_countdown armed = 3%Z
  /\ capture_countdown w = 0%Z
  /\ temp_open_hand_distances w = [80; 90; 100]
  /\ calibration_state w = CALIB_STATE_WAITING_OPEN_HAND
  /\ pt_open_dist_var w = DistNotSet
  /\ pt_pinch_button_enabled w = false
  /\ calibration_state w <> CALIB_STATE_IDLE.
Proof.
  cbv zeta. repeat split; try (vm_compute; reflexivity).
  vm_compute. discriminate.
Qed.

(** The same capture with one more usable frame: the hold 80, 90, 100 leaves
    the capture waiting, and the frame after it, whose own distance 95 is
    not sampled, stores ["90.00"] and returns to Idle.  At a countdown of
    zero with thirty-nine samples 10 and one sample 11 collected, the stored
    text is ["10.03"], the mean 10.025 being the double just above it. *)
Lemma C9_pinch_sampling_witness :
  let armed := start_capture_open_hand one_frame_per_second init in
  let held := feed_pinch (builtin_sum := Py64.sum_left_to_right) one_frame_per_second
                         (map Some [80; 90; 100]) armed in
  let w' := process_pinch_capture (builtin_sum := Py64.sum_left_to_right)
                                  one_frame_per_second (Some 95) held in
  let tie := open_hand_collected (repeat 10 39 ++ [11]) in
  let tie' := process_pinch_capture (builtin_sum := Py64.sum_left_to_right)
                                    one_frame_per_second (Some 10) tie in
  (Forall usable_distance [80; 90; 100] /\ usable_distance 95
   /\ Z.of_nat (length [80; 90; 100]) = capture_countdown armed
   /\ [80; 90; 100] <> ([] : list float))
  /\ (calibration_state held = CALIB_STATE_WAITING_OPEN_HAND
      /\ pt_open_dist_var held = DistNotSet)
  /\ (calibration_state w' = CALIB_STATE_IDLE
      /\ pt_open_dist_var w' = DistAvg (two_decimals 9000))
  /\ (calibration_state tie' = CALIB_STATE_IDLE
      /\ temp_open_hand_distances tie' = repeat 10 39 ++ [11]
      /\ pt_open_dist_var tie' = DistAvg (two_decimals 1003)).
Proof.
  cbv zeta.
  assert (Hds : Forall usable_distance [80; 90; 100])
    by (repeat (constructor; [vm_compute; reflexivity|]); constructor).
  assert (Hlast : usable_distance 95) by (vm_compute; reflexivity).
  assert (Hten : usable_distance 10) by (vm_compute; reflexivity).
  assert (Hne : [80; 90; 100] <> ([] : list float)) by discriminate.
  destruct (C9_pinch_sampling (builtin_sum := Py64.sum_left_to_right))
    as (_ & Hzero & Hrun).
  destruct (Hrun one_frame_per_second init [80; 90; 100] 95 Hds Hlast eq_refl)
    as ((_ & Hwait & _ & Hnone) & Hidle & Havg & _).
  destruct (Hzero one_frame_per_second 10 (open_hand_collected (repeat 10 39 ++ [11]))
                  Hten ltac:(vm_compute; discriminate)) as [Htie _].
  destruct (Htie eq_refl) as (Tidle & Tsame & Tavg & _).
  split; [auto|]. split; [split; [exact Hwait | exact Hnone]|]. split.
  - split; [exact Hidle|]. rewrite (Havg Hne). vm_compute. reflexivity.
  - split; [exact Tidle|]. split; [exact Tsame|].
    rewrite Tavg by (vm_compute; discriminate). vm_compute. reflexivity.
Defined.

End Binary64CaptureInstances.

(** ** Opening the camera *)

Section StreamFacts.

Import Stream.

(** The 50% test on integers: [abs(cur - req) > req * 0.5]. *)
Lemma more_than_half_away (req cur : Z) :
  Py.Qltb (inject_Z req * 0.5) (Qabs (inject_Z (cur - req))) = true
  <-> (req < 2 * Z.abs (cur - req))%Z.
Proof.
  rewrite Qltb_lt.
  change (Qabs (inject_Z (cur - req))) with (inject_Z (Z.abs (cur - req))).
  unfold Qlt. cbn [Qnum Qden inject_Z Qmult]. lia.
Qed.

Lemma significantly_different_iff (width height cur_w cur_h : Z) :
  significantly_different_from_request width height cur_w cur_h = true
  <-> (0 < width /\ 0 < height
       /\ (width < 2 * Z.abs (cur_w - width) \/ height < 2 * Z.abs (cur_h - height)))%Z.
Proof.
  unfold significantly_different_from_request.
  rewrite !andb_true_iff, orb_true_iff, !more_than_half_away, !Z.ltb_lt.
  tauto.
Qed.

(** A 640x480 answer to a 480x360 request is within the 50% tolerance. *)
Lemma native_640x480_is_close_to_480x360 :
  significantly_different_from_request 480 360 640 480 = false.
Proof. vm_compute. reflexivity. Qed.

(** C4. When the resolution read back after the request is zero in a
    dimension, or more than 50% away from a valid request in a dimension, and
    the device's initial default is positive in both dimensions, the stream
    re-applies that default and [actual_width]/[actual_height] are what the
    device reports afterwards.  A 640x480 camera that ignores a 480x360
    request ends with [actual_width = 640] and [actual_height = 480]. *)
Theorem C4_resolution_fallback :
  (forall (Cap : Type) (VC : VideoCapture Cap) (width height : Z) (opened : Cap),
      cap_isOpened opened = true ->
      let w0 := cap_get opened CAP_PROP_FRAME_WIDTH in
      let h0 := cap_get opened CAP_PROP_FRAME_HEIGHT in
      let cap1 := attempt_request width height opened in
      let cur_w := cap_get cap1 CAP_PROP_FRAME_WIDTH in
      let cur_h := cap_get cap1 CAP_PROP_FRAME_HEIGHT in
      (cur_w = 0 \/ cur_h = 0
       \/ (0 < width /\ 0 < height
           /\ (width < 2 * Z.abs (cur_w - width)
               \/ height < 2 * Z.abs (cur_h - height))))%Z ->
      (0 < w0 /\ 0 < h0)%Z ->
      let cap2 := cap_set (cap_set cap1 CAP_PROP_FRAME_WIDTH w0) CAP_PROP_FRAME_HEIGHT h0 in
      let result := initialize_stream (new_stream width height) opened in
      actual_width (snd result) = cap_get cap2 CAP_PROP_FRAME_WIDTH
      /\ actual_height (snd result) = cap_get cap2 CAP_PROP_FRAME_HEIGHT
      /\ fst result = fst (cap_read cap2)
      /\ (fst result = true -> stream (snd result) = Some (snd (cap_read cap2))))
  /\ (let result := initialize_stream (new_stream 480 360)
                      {| native_width := 640; native_height := 480 |} in
      fst result = true
      /\ actual_width (snd result) = 640%Z
      /\ actual_height (snd result) = 480%Z).
Proof.
  split.
  - intros Cap VC width height opened Hopen w0 h0 cap1 cur_w cur_h Hbad [Hw0 Hh0] cap2 result.
    unfold result, initialize_stream. rewrite Hopen. cbn [negb].
    cbn [requested_width requested_height new_stream].
    fold w0 h0 cap1. fold cur_w cur_h.
    assert (Htest : (cur_w =? 0)%Z || (cur_h =? 0)%Z
                    || significantly_different_from_request width height cur_w cur_h
                    = true).
    { destruct Hbad as [Hz | [Hz | Hfar]].
      - apply Z.eqb_eq in Hz. rewrite Hz. reflexivity.
      - apply Z.eqb_eq in Hz. rewrite Hz. rewrite orb_true_r. reflexivity.
      - apply significantly_different_iff in Hfar. rewrite Hfar.
        apply orb_true_r. }
    rewrite Htest.
    apply Z.ltb_lt in Hw0, Hh0. rewrite Hw0, Hh0. cbn [andb].
    unfold fall_back. fold cap2.
    destruct (cap_read cap2) as [g cap'] eqn:Eread.
    destruct g; cbn; repeat split; intros; try reflexivity; discriminate.
  - vm_compute. repeat split.
Qed.

(** A 640x480 camera that ignores a 1920x1080 request: 640 is more than 50%
    away from 1920, the default is re-applied and reported. *)
Lemma C4_resolution_fallback_witness :
  let cam := {| native_width := 640; native_height := 480 |} in
  let result := initialize_stream (new_stream 1920 1080) cam in
  (cap_isOpened cam = true
   /\ (1920 < 2 * Z.abs (cap_get (attempt_request 1920 1080 cam) CAP_PROP_FRAME_WIDTH - 1920))%Z
   /\ (0 < cap_get cam CAP_PROP_FRAME_WIDTH /\ 0 < cap_get cam CAP_PROP_FRAME_HEIGHT)%Z)
  /\ actual_width (snd result) = 640%Z
  /\ actual_height (snd result) = 480%Z.
Proof.
  cbv zeta.
  set (cam := {| native_width := 640; native_height := 480 |}).
  assert (Hopen : cap_isOpened cam = true) by reflexivity.
  assert (Hfar : (1920 < 2 * Z.abs (cap_get (attempt_request 1920 1080 cam)
                                            CAP_PROP_FRAME_WIDTH - 1920))%Z)
    by (vm_compute; reflexivity).
  assert (Hdef : (0 < cap_get cam CAP_PROP_FRAME_WIDTH
                  /\ 0 < cap_get cam CAP_PROP_FRAME_HEIGHT)%Z)
    by (split; reflexivity).
  split; [auto|].
  destruct C4_resolution_fallback as (Hgen & _).
  destruct (Hgen FixedCamera fixed_camera_capture 1920%Z 1080%Z cam Hopen) as (Hw & Hh & _).
  - right. right. split; [reflexivity|]. split; [reflexivity|]. left. exact Hfar.
  - exact Hdef.
  - split; [rewrite Hw | rewrite Hh]; reflexivity.
Defined.

End StreamFacts.

(** * Further properties of the code *)

(** ** Active region and mapping *)

Section MoreMappingFacts.

Import Control.

Lemma int_monotone_nonneg (x y : Q) : 0 <= x -> x <= y -> (Py.int x <= Py.int y)%Z.
Proof.
  intros Hx Hxy. rewrite !int_nonneg by lra. apply Qfloor_resp_le. exact Hxy.
Qed.

Lemma int_nonneg_le (x : Q) : 0 <= x -> (0 <= Py.int x)%Z.
Proof.
  intros Hx. rewrite int_nonneg by exact Hx.
  change 0%Z with (Qfloor 0). apply Qfloor_resp_le. exact Hx.
Qed.

(** The effective region of an axis, normalised and in pixels. *)
Lemma effective_region_bounds (lo hi s : Q) (extent : Z) :
  ~ s == 0 ->
  (0 <= extent)%Z ->
  let b := effective_bounds lo hi s in
  let a := pixel_bounds b extent in
  (0 <= fst b <= 1 /\ fst b < snd b /\ snd b <= 1.01)
  /\ (0 <= fst a <= snd a /\ fst a <= extent)%Z.
Proof.
  intros _ Hext b a.
  assert (Hb : 0 <= fst b <= 1 /\ fst b < snd b /\ snd b <= 1.01).
  { unfold b, effective_bounds. cbn [fst snd].
    set (c := (lo + hi) / 2). set (e := (hi - lo) / s).
    pose proof (np_clip_bounds (c - e / 2) 0 1 ltac:(lra)) as [H1 H2].
    pose proof (np_clip_bounds (c + e / 2) 0 1 ltac:(lra)) as [H3 H4].
    destruct (Qle_bool (Py.np_clip (c + e / 2) 0 1) (Py.np_clip (c - e / 2) 0 1)) eqn:E.
    - lra.
    - apply Qle_bool_false in E. lra. }
  split; [exact Hb|].
  destruct Hb as ([Hb0 Hb1] & Hlt & _).
  assert (HE : 0 <= inject_Z extent).
  { change 0 with (inject_Z 0). rewrite <- Zle_Qle. exact Hext. }
  unfold a, pixel_bounds. cbn [fst snd].
  assert (H0 : 0 <= fst b * inject_Z extent) by nra.
  assert (H1 : fst b * inject_Z extent <= snd b * inject_Z extent) by nra.
  assert (H2 : fst b * inject_Z extent <= inject_Z extent) by nra.
  split; [split|].
  - apply int_nonneg_le. exact H0.
  - apply int_monotone_nonneg; assumption.
  - rewrite int_nonneg by exact H0.
    pose proof (Qfloor_resp_le _ _ H2) as Hfl.
    rewrite Qfloor_Z in Hfl. exact Hfl.
Qed.

(** X1. Whatever the configured region and the (non-zero) sensitivity, the
    effective region is well formed: its lower bound lies in [[0, 1]], its
    upper bound is strictly above it and at most 1.01; on a frame of
    non-negative extent the pixel bounds are ordered and start inside the
    frame. *)
Theorem effective_region_well_formed (lo hi s : Q) (extent : Z) :
  ~ s == 0 ->
  (0 <= extent)%Z ->
  let b := effective_bounds lo hi s in
  let a := pixel_bounds b extent in
  (0 <= fst b <= 1 /\ fst b < snd b /\ snd b <= 1.01)
  /\ (0 <= fst a <= snd a /\ fst a <= extent)%Z.
Proof.
  exact (effective_region_bounds lo hi s extent).
Qed.

Lemma effective_region_well_formed_witness :
  (~ 1.5 == 0 /\ (0 <= 640)%Z)
  /\ fst (effective_bounds 0.15 0.85 1.5) < snd (effective_bounds 0.15 0.85 1.5)
  /\ (fst (pixel_bounds (effective_bounds 0.15 0.85 1.5) 640)
      <= snd (pixel_bounds (effective_bounds 0.15 0.85 1.5) 640))%Z.
Proof.
  assert (Hs : ~ 1.5 == 0) by (intros Hc; discriminate Hc).
  assert (He : (0 <= 640)%Z) by lia.
  destruct (effective_region_well_formed 0.15 0.85 1.5 640 Hs He)
    as ((_ & Hlt & _) & ((_ & Hord) & _)).
  split; [split; assumption|]. split; assumption.
Defined.

(** Between ordered sample points and for a non-negative target extent,
    [np.interp] stays between its two values. *)
Lemma np_interp_range (x xp0 xp1 fp1 : Q) :
  xp0 <= x <= xp1 -> 0 <= fp1 ->
  0 <= Py.np_interp x xp0 xp1 0 fp1 <= fp1.
Proof.
  intros [H0 H1] Hfp. unfold Py.np_interp.
  case_Qltb xp1 x; [lra|]. case_Qltb x xp0; [lra|].
  destruct (Qle_bool xp1 x) eqn:E1; [lra|]. apply Qle_bool_false in E1.
  destruct (Qeq_bool xp0 x) eqn:E2; [lra|].
  assert (Hd : 0 < xp1 - xp0) by lra.
  set (r := (x - xp0) / (xp1 - xp0)).
  assert (Hr : 0 <= r <= 1).
  { unfold r. split.
    - apply Qle_shift_div_l; [exact Hd | lra].
    - apply Qle_shift_div_r; [exact Hd | lra]. }
  assert (Heq : (fp1 - 0) / (xp1 - xp0) * (x - xp0) + 0 == fp1 * r)
    by (unfold r; field; lra).
  rewrite Heq. nra.
Qed.

Lemma np_clip_range (a lo hi : Q) : lo <= hi -> lo <= Py.np_clip a lo hi <= hi.
Proof. apply np_clip_bounds. Qed.

Lemma np_clip_monotone (a b lo hi : Q) :
  lo <= hi -> a <= b -> Py.np_clip a lo hi <= Py.np_clip b lo hi.
Proof.
  intros Hle Hab. unfold Py.np_clip.
  case_Qltb a lo; case_Qltb b lo;
    repeat match goal with
           | |- context [Py.Qltb ?u ?v] => case_Qltb u v
           end; lra.
Qed.

Lemma np_interp_monotone (x y xp0 xp1 fp1 : Q) :
  xp0 <= x -> x <= y -> y <= xp1 -> 0 <= fp1 ->
  Py.np_interp x xp0 xp1 0 fp1 <= Py.np_interp y xp0 xp1 0 fp1.
Proof.
  intros H0 Hxy H1 Hfp.
  pose proof (np_interp_range x xp0 xp1 fp1 ltac:(lra) Hfp) as [Hx0 Hx1].
  pose proof (np_interp_range y xp0 xp1 fp1 ltac:(lra) Hfp) as [Hy0 Hy1].
  unfold Py.np_interp in *.
  case_Qltb xp1 y; [lra|]. case_Qltb y xp0; [lra|].
  destruct (Qle_bool xp1 y) eqn:Ey1; [exact Hx1|]. apply Qle_bool_false in Ey1.
  case_Qltb xp1 x; [lra|]. case_Qltb x xp0; [lra|].
  destruct (Qle_bool xp1 x) eqn:Ex1; [apply Qle_bool_iff in Ex1; lra|].
  destruct (Qeq_bool xp0 x) eqn:Ex2; [exact Hy0|].
  destruct (Qeq_bool xp0 y) eqn:Ey2.
  { apply Qeq_bool_iff in Ey2.
    assert (Hx : xp0 == x) by lra.
    apply Qeq_bool_iff in Hx. congruence. }
  assert (Hd : 0 < xp1 - xp0) by lra.
  assert (Hs : 0 <= (fp1 - 0) / (xp1 - xp0)).
  { apply Qle_shift_div_l; [exact Hd | lra]. }
  nra.
Qed.

(** The range of the raw target of an axis. *)
Lemma raw_target_range (lo hi s : Q) (extent screen : Z) (tip : Q) :
  ~ s == 0 -> (0 <= extent)%Z -> (0 <= screen)%Z ->
  let a := pixel_bounds (effective_bounds lo hi s) extent in
  0 <= map_axis lo hi s extent screen tip <= inject_Z screen
  /\ (inject_Z (snd a) <= tip -> map_axis lo hi s extent screen tip == inject_Z screen)
  /\ ((fst a < snd a)%Z -> tip <= inject_Z (fst a) ->
      map_axis lo hi s extent screen tip == 0).
Proof.
  intros Hs Hext Hscr a.
  destruct (effective_region_bounds lo hi s extent Hs Hext) as (_ & ((_ & Hord) & _)).
  fold a in Hord. unfold map_axis. fold a.
  destruct a as [a1 a2]. cbn [fst snd] in *.
  assert (Hq : inject_Z a1 <= inject_Z a2) by (rewrite <- Zle_Qle; exact Hord).
  assert (HW : 0 <= inject_Z screen).
  { change 0 with (inject_Z 0). rewrite <- Zle_Qle. exact Hscr. }
  unfold raw_target_screen.
  pose proof (np_clip_range tip (inject_Z a1) (inject_Z a2) Hq) as Hc.
  split; [apply np_interp_range; assumption|]. split.
  - intros Hhigh. unfold Py.np_clip, Py.np_interp.
    set (p1 := inject_Z a1) in *. set (p2 := inject_Z a2) in *.
    case_Qltb tip p1.
    + case_Qltb p2 p1; [lra|].
      assert (Heq : p1 == p2) by lra.
      case_Qltb p2 p1; [lra|]. case_Qltb p1 p1; [lra|].
      destruct (Qle_bool p2 p1) eqn:Ele; [reflexivity|].
      apply Qle_bool_false in Ele. lra.
    + case_Qltb p2 tip.
      * case_Qltb p2 p2; [lra|]. case_Qltb p2 p1; [lra|].
        destruct (Qle_bool p2 p2) eqn:Ele; [reflexivity|].
        apply Qle_bool_false in Ele. lra.
      * case_Qltb p2 tip; [lra|]. case_Qltb tip p1; [lra|].
        destruct (Qle_bool p2 tip) eqn:Ele; [reflexivity|].
        apply Qle_bool_false in Ele. lra.
  - intros Hlt Hlow.
    assert (Hq' : inject_Z a1 < inject_Z a2) by (rewrite <- Zlt_Qlt; exact Hlt).
    unfold Py.np_clip, Py.np_interp.
    set (p1 := inject_Z a1) in *. set (p2 := inject_Z a2) in *.
    case_Qltb tip p1.
    + case_Qltb p2 p1; [lra|]. case_Qltb p2 p1; [lra|].
      case_Qltb p1 p1; [lra|].
      destruct (Qle_bool p2 p1) eqn:Ele; [apply Qle_bool_iff in Ele; lra|].
      destruct (Qeq_bool p1 p1) eqn:Eeq; [reflexivity|].
      assert (Hrefl : p1 == p1) by reflexivity.
      apply Qeq_bool_iff in Hrefl. congruence.
    + assert (Heq : tip == p1) by lra.
      case_Qltb p2 tip; [lra|]. case_Qltb p2 tip; [lra|].
      case_Qltb tip p1; [lra|].
      destruct (Qle_bool p2 tip) eqn:Ele; [apply Qle_bool_iff in Ele; lra|].
      destruct (Qeq_bool p1 tip) eqn:Eeq; [reflexivity|].
      assert (Hrefl : p1 == tip) by lra.
      apply Qeq_bool_iff in Hrefl. congruence.
Qed.

(** The range of the raw target between given ordered pixel bounds. *)
Lemma raw_target_screen_range (a1 a2 screen : Z) (tip : Q) :
  (a1 <= a2)%Z -> (0 <= screen)%Z ->
  0 <= raw_target_screen tip a1 a2 screen <= inject_Z screen
  /\ (inject_Z a2 <= tip -> raw_target_screen tip a1 a2 screen == inject_Z screen)
  /\ ((a1 < a2)%Z -> tip <= inject_Z a1 -> raw_target_screen tip a1 a2 screen == 0).
Proof.
  intros Hord Hscr.
  assert (Hq : inject_Z a1 <= inject_Z a2) by (rewrite <- Zle_Qle; exact Hord).
  assert (HW : 0 <= inject_Z screen).
  { change 0 with (inject_Z 0). rewrite <- Zle_Qle. exact Hscr. }
  unfold raw_target_screen.
  pose proof (np_clip_range tip (inject_Z a1) (inject_Z a2) Hq) as Hc.
  split; [apply np_interp_range; assumption|]. split.
  - intros Hhigh. unfold Py.np_clip, Py.np_interp.
    set (p1 := inject_Z a1) in *. set (p2 := inject_Z a2) in *.
    case_Qltb tip p1.
    + case_Qltb p2 p1; [lra|].
      assert (Heq : p1 == p2) by lra.
      case_Qltb p2 p1; [lra|]. case_Qltb p1 p1; [lra|].
      destruct (Qle_bool p2 p1) eqn:Ele; [reflexivity|].
      apply Qle_bool_false in Ele. lra.
    + case_Qltb p2 tip.
      * case_Qltb p2 p2; [lra|]. case_Qltb p2 p1; [lra|].
        destruct (Qle_bool p2 p2) eqn:Ele; [reflexivity|].
        apply Qle_bool_false in Ele. lra.
      * case_Qltb p2 tip; [lra|]. case_Qltb tip p1; [lra|].
        destruct (Qle_bool p2 tip) eqn:Ele; [reflexivity|].
        apply Qle_bool_false in Ele. lra.
  - intros Hlt Hlow.
    assert (Hq' : inject_Z a1 < inject_Z a2) by (rewrite <- Zlt_Qlt; exact Hlt).
    unfold Py.np_clip, Py.np_interp.
    set (p1 := inject_Z a1) in *. set (p2 := inject_Z a2) in *.
    case_Qltb tip p1.
    + case_Qltb p2 p1; [lra|]. case_Qltb p2 p1; [lra|].
      case_Qltb p1 p1; [lra|].
      destruct (Qle_bool p2 p1) eqn:Ele; [apply Qle_bool_iff in Ele; lra|].
      destruct (Qeq_bool p1 p1) eqn:Eeq; [reflexivity|].
      assert (Hrefl : p1 == p1) by reflexivity.
      apply Qeq_bool_iff in Hrefl. congruence.
    + assert (Heq : tip == p1) by lra.
      case_Qltb p2 tip; [lra|]. case_Qltb p2 tip; [lra|].
      case_Qltb tip p1; [lra|].
      destruct (Qle_bool p2 tip) eqn:Ele; [apply Qle_bool_iff in Ele; lra|].
      destruct (Qeq_bool p1 tip) eqn:Eeq; [reflexivity|].
      assert (Hrefl : p1 == tip) by lra.
      apply Qeq_bool_iff in Hrefl. congruence.
Qed.

(** X2. Between whatever ordered pixel bounds the active region yields, the
    raw target of an axis lies on the screen, between 0 and the screen
    extent, wherever the fingertip is; a fingertip at or beyond the upper
    pixel bound is sent to the full extent and, when the bounds are
    distinct, one at or before the lower pixel bound is sent to 0. *)
Theorem raw_target_stays_on_screen (a1 a2 screen : Z) (tip : Q) :
  (a1 <= a2)%Z -> (0 <= screen)%Z ->
  0 <= raw_target_screen tip a1 a2 screen <= inject_Z screen
  /\ (inject_Z a2 <= tip -> raw_target_screen tip a1 a2 screen == inject_Z screen)
  /\ ((a1 < a2)%Z -> tip <= inject_Z a1 -> raw_target_screen tip a1 a2 screen == 0).
Proof.
  exact (raw_target_screen_range a1 a2 screen tip).
Qed.

(** X3. The mapping is monotone: a fingertip further along an axis never
    yields a smaller raw target. *)
Theorem map_axis_monotone (lo hi s : Q) (extent screen : Z) (tip1 tip2 : Q) :
  ~ s == 0 -> (0 <= extent)%Z -> (0 <= screen)%Z ->
  tip1 <= tip2 ->
  map_axis lo hi s extent screen tip1 <= map_axis lo hi s extent screen tip2.
Proof.
  intros Hs Hext Hscr Htips.
  destruct (effective_region_bounds lo hi s extent Hs Hext) as (_ & ((_ & Hord) & _)).
  unfold map_axis.
  destruct (pixel_bounds (effective_bounds lo hi s) extent) as [a1 a2].
  cbn [fst snd] in *.
  assert (Hq : inject_Z a1 <= inject_Z a2) by (rewrite <- Zle_Qle; exact Hord).
  assert (HW : 0 <= inject_Z screen).
  { change 0 with (inject_Z 0). rewrite <- Zle_Qle. exact Hscr. }
  unfold raw_target_screen.
  pose proof (np_clip_range tip1 _ _ Hq) as [Hc1 _].
  pose proof (np_clip_range tip2 _ _ Hq) as [_ Hc2].
  apply np_interp_monotone; try assumption.
  apply np_clip_monotone; assumption.
Qed.

Lemma map_axis_monotone_witness :
  (~ 1.5 == 0 /\ (0 <= 640)%Z /\ (0 <= 1920)%Z /\ 200 <= 300)
  /\ map_axis 0.15 0.85 1.5 640 1920 200 <= map_axis 0.15 0.85 1.5 640 1920 300.
Proof.
  assert (Hs : ~ 1.5 == 0) by (intros Hc; discriminate Hc).
  assert (He : (0 <= 640)%Z) by lia.
  assert (Hw : (0 <= 1920)%Z) by lia.
  assert (Ht : 200 <= 300) by (intros Hc; discriminate Hc).
  split; [auto|].
  exact (map_axis_monotone 0.15 0.85 1.5 640 1920 200 300 Hs He Hw Ht).
Defined.

End MoreMappingFacts.

Section MoreMappingInstances.

Import Control PrimFloat.
#[local] Set Warnings "-inexact-float".

(** The region [0.2, 0.8] at sensitivity 1 on a frame 640 pixels wide, whose
    pixel bounds are (127, 512) in the code: the fingertip at pixel 127 is
    sent to 0, the one at pixel 600 to 1920, and the one at pixel 128 to
    1920/385, just under 5. *)
Lemma raw_target_stays_on_screen_witness :
  (Control64.active_pixel_bounds 0.2%float 0.8%float 1%float 640 = Some (127, 512)%Z
   /\ (127 <= 512)%Z /\ (0 <= 1920)%Z /\ (127 < 512)%Z)
  /\ raw_target_screen 127 127 512 1920 == 0
  /\ raw_target_screen 600 127 512 1920 == 1920
  /\ (0 <= raw_target_screen 128 127 512 1920 <= 1920
      /\ raw_target_screen 128 127 512 1920 == 1920 / 385).
Proof.
  assert (Hord : (127 <= 512)%Z) by lia.
  assert (Hscr : (0 <= 1920)%Z) by lia.
  assert (Hlt : (127 < 512)%Z) by lia.
  split; [split; [vm_compute; reflexivity | auto]|].
  destruct (raw_target_stays_on_screen 127 512 1920 127 Hord Hscr) as (_ & _ & Hlow).
  destruct (raw_target_stays_on_screen 127 512 1920 600 Hord Hscr) as (_ & Hhigh & _).
  destruct (raw_target_stays_on_screen 127 512 1920 128 Hord Hscr) as (Hrange & _).
  split; [apply Hlow; [exact Hlt | vm_compute; discriminate]|].
  split; [apply Hhigh; vm_compute; discriminate|].
  split; [exact Hrange | vm_compute; reflexivity].
Defined.

End MoreMappingInstances.

(** ** History and cursor invariants *)

Section MoreSmoothingFacts.

Import Control Inv.

Lemma deque_append_Forall (P : Q -> Prop) (maxlen : nat) (h : list Q) (x : Q) :
  Forall P h -> P x -> Forall P (Py.deque_append maxlen h x).
Proof.
  intros Hh Hx. unfold Py.deque_append.
  assert (Hall : Forall P (h ++ [x])).
  { apply Forall_app. split; [exact Hh | repeat constructor; exact Hx]. }
  destruct (maxlen <? length (h ++ [x]))%nat; [apply Forall_drop|]; exact Hall.
Qed.

Lemma deque_append_bounded (maxlen : nat) (h : list Q) (x : Q) :
  (length h <= maxlen)%nat -> (length (Py.deque_append maxlen h x) <= maxlen)%nat.
Proof.
  intros Hlen. rewrite deque_append_length.
  destruct (Nat.ltb_spec maxlen (S (length h))); lia.
Qed.

(** X4. The history is a bounded first-in first-out buffer: after the filter
    has been driven by any sequence of raw targets, it holds the most recent
    ones, oldest first, up to the buffer size - exactly the last [maxlen]
    items of the old history followed by the new targets. *)
Theorem history_holds_latest_targets (alpha : Q) (maxlen : nat) (raws : list Q) :
  forall (h : list Q) (prev : Q),
    (length h <= maxlen)%nat ->
    fst (smooth_run alpha maxlen raws h prev)
    = drop (length (h ++ raws) - maxlen) (h ++ raws).
Proof.
  induction raws as [|x rest IH]; intros h prev Hlen.
  - cbn [smooth_run fst]. rewrite app_nil_r.
    replace (length h - maxlen)%nat with 0%nat by lia. reflexivity.
  - cbn [smooth_run]. unfold smooth_axis.
    rewrite (IH _ _ (deque_append_bounded maxlen h x Hlen)).
    unfold Py.deque_append.
    replace (h ++ x :: rest) with ((h ++ [x]) ++ rest)
      by (rewrite <- app_assoc; reflexivity).
    assert (Hl : length (h ++ [x]) = S (length h)) by (rewrite length_app; simpl; lia).
    rewrite Hl.
    destruct (Nat.ltb_spec maxlen (S (length h))) as [Hfull|Hroom].
    + rewrite <- (drop_app_le (h ++ [x]) rest 1) by lia.
      rewrite drop_drop. f_equal.
      rewrite length_drop, !length_app. simpl. lia.
    + reflexivity.
Qed.

Lemma history_holds_latest_targets_witness :
  (length [1; 2] <= 3)%nat
  /\ fst (smooth_run 0.20 3 [3; 4; 5; 6] [1; 2] 0) = [4; 5; 6].
Proof.
  assert (Hlen : (length [1; 2] <= 3)%nat) by (simpl; lia).
  split; [exact Hlen|].
  rewrite (history_holds_latest_targets 0.20 3 [3; 4; 5; 6] [1; 2] 0 Hlen).
  reflexivity.
Defined.

Lemma fold_sum_between (lo hi : Q) (l : list Q) :
  forall a : Q,
    Forall (between lo hi) l ->
    a + inject_Z (Z.of_nat (length l)) * lo <= fold_left Qplus l a
    /\ fold_left Qplus l a <= a + inject_Z (Z.of_nat (length l)) * hi.
Proof.
  induction l as [|x l IH]; intros a Hall.
  - cbn [length fold_left]. change (inject_Z (Z.of_nat 0)) with 0. lra.
  - apply Forall_cons in Hall as [[Hx1 Hx2] Hl].
    cbn [fold_left]. destruct (IH (a + x) Hl) as [IH1 IH2].
    change (length (x :: l)) with (S (length l)).
    rewrite Nat2Z.inj_succ, <- Z.add_1_r, inject_Z_plus.
    change (inject_Z 1) with 1. lra.
Qed.

Lemma mean_between (lo hi : Q) (l : list Q) :
  l <> [] -> Forall (between lo hi) l -> between lo hi (Py.mean l).
Proof.
  intros Hne Hall. unfold Py.mean, Py.sum.
  destruct (fold_sum_between lo hi l 0 Hall) as [H1 H2].
  assert (Hn : 0 < inject_Z (Z.of_nat (length l))).
  { destruct l as [|x l']; [congruence|].
    change 0 with (inject_Z 0). rewrite <- Zlt_Qlt. simpl length. lia. }
  split.
  - apply Qle_shift_div_l; [exact Hn | lra].
  - apply Qle_shift_div_r; [exact Hn | lra].
Qed.

(** One step of the filter keeps the cursor between any two bounds that hold
    the previous cursor, the history and the new raw target. *)
Lemma smooth_axis_between (alpha lo hi : Q) (maxlen : nat) (h : list Q) (prev raw : Q) :
  0 <= alpha <= 1 ->
  between lo hi prev -> Forall (between lo hi) h -> between lo hi raw ->
  Forall (between lo hi) (fst (smooth_axis alpha maxlen h prev raw))
  /\ between lo hi (snd (smooth_axis alpha maxlen h prev raw)).
Proof.
  intros Ha Hprev Hh Hraw. unfold smooth_axis. cbn [fst snd].
  pose proof (deque_append_Forall _ maxlen h raw Hh Hraw) as Hh'.
  split; [exact Hh'|].
  assert (Havg : between lo hi (avg_target (Py.deque_append maxlen h raw) raw)).
  { unfold avg_target. destruct (Py.deque_append maxlen h raw) as [|y ys] eqn:E.
    - exact Hraw.
    - apply mean_between; [congruence | exact Hh']. }
  unfold between in *. nra.
Qed.

(** The cursor fields after a frame with a hand but no fingertip. *)
Lemma hand_logic_no_tip (cfg : Settings) (env : FrameEnv) (st : State) (d : Distance) :
  let st' := fst (hand_logic cfg env st (HandSeen None d)) in
  raw_target_history_x st' = raw_target_history_x st
  /\ raw_target_history_y st' = raw_target_history_y st
  /\ prev_cursor_x st' = prev_cursor_x st
  /\ prev_cursor_y st' = prev_cursor_y st.
Proof.
  cbv zeta. unfold hand_logic.
  destruct (click_step _ _ _ _ _) as [[prev' last'] acts]. cbn. auto.
Qed.

Lemma hand_logic_on_screen (cfg : Settings) (W H : Z) (env : FrameEnv)
      (st : State) (hand : Hand) :
  0 <= smoothing_factor cfg <= 1 ->
  (0 <= W)%Z -> (0 <= H)%Z ->
  frame_for_screen W H env ->
  cursor_on_screen W H st ->
  cursor_on_screen W H (fst (hand_logic cfg env st hand)).
Proof.
  intros Ha HW HH (Hsw & Hsh & Hfw & Hfh & Hs) (Hx & Hy & Hhx & Hhy).
  destruct hand as [|[[ix iy]|] d].
  - rewrite hand_logic_no_hand. unfold cursor_on_screen. cbn.
    repeat split; try apply Hx; try apply Hy; constructor.
  - destruct (hand_logic_tip cfg env st ix iy d) as (Ehx & Ehy & Ecx & Ecy).
    unfold cursor_on_screen. rewrite Ehx, Ehy, Ecx, Ecy.
    set (rx := map_axis _ _ _ (frame_width env) _ _) in *.
    set (ry := map_axis _ _ _ (frame_height env) _ _) in *.
    assert (Hrx : between 0 (inject_Z W) rx).
    { unfold rx. rewrite Hsw.
      apply (raw_target_range _ _ _ _ W _ Hs Hfw HW). }
    assert (Hry : between 0 (inject_Z H) ry).
    { unfold ry. rewrite Hsh.
      apply (raw_target_range _ _ _ _ H _ Hs Hfh HH). }
    destruct (smooth_axis_between (smoothing_factor cfg) 0 (inject_Z W)
                (raw_target_buffer_size cfg) _ _ rx Ha Hx Hhx Hrx) as [Fx Bx].
    destruct (smooth_axis_between (smoothing_factor cfg) 0 (inject_Z H)
                (raw_target_buffer_size cfg) _ _ ry Ha Hy Hhy Hry) as [Fy By].
    repeat split; try apply Bx; try apply By; assumption.
  - destruct (hand_logic_no_tip cfg env st d) as (Ehx & Ehy & Ecx & Ecy).
    unfold cursor_on_screen. rewrite Ehx, Ehy, Ecx, Ecy. auto.
Qed.

(** X5. With a smoothing factor in [[0, 1]], a cursor that starts on the
    screen stays on it: after any run of frames taken for that screen the
    smoothed cursor and every remembered raw target lie between 0 and the
    screen extent on both axes. *)
Theorem cursor_stays_on_screen (cfg : Settings) (W H : Z)
        (frames : list (FrameEnv * Hand)) :
  0 <= smoothing_factor cfg <= 1 ->
  (0 <= W)%Z -> (0 <= H)%Z ->
  Forall (fun f => frame_for_screen W H (fst f)) frames ->
  forall st : State,
    cursor_on_screen W H st ->
    cursor_on_screen W H (fst (run cfg st frames)).
Proof.
  intros Ha HW HH Hframes.
  induction Hframes as [|[env hand] rest Hf _ IH]; intros st Hst.
  - exact Hst.
  - cbn [run].
    pose proof (hand_logic_on_screen cfg W H env st hand Ha HW HH Hf Hst) as Hstep.
    destruct (hand_logic cfg env st hand) as [st' acts]. cbn [fst] in Hstep.
    specialize (IH st' Hstep).
    destruct (run cfg st' rest) as [st'' acts']. exact IH.
Qed.

Lemma cursor_stays_on_screen_witness :
  (0 <= smoothing_factor default_settings <= 1
   /\ (0 <= 1920)%Z /\ (0 <= 1080)%Z
   /\ Forall (fun f => frame_for_screen 1920 1080 (fst f)) Scenario.lost_and_found
   /\ cursor_on_screen 1920 1080 Scenario.idle_state)
  /\ cursor_on_screen 1920 1080
       (fst (run default_settings Scenario.idle_state Scenario.lost_and_found)).
Proof.
  assert (Ha : 0 <= smoothing_factor default_settings <= 1)
    by (split; intros Hc; discriminate Hc).
  assert (HW : (0 <= 1920)%Z) by lia.
  assert (HH : (0 <= 1080)%Z) by lia.
  assert (Hfr : Forall (fun f => frame_for_screen 1920 1080 (fst f))
                       Scenario.lost_and_found).
  { repeat constructor; try (cbn; lia); intros Hc; discriminate Hc. }
  assert (Hst : cursor_on_screen 1920 1080 Scenario.idle_state).
  { repeat split; try constructor; intros Hc; discriminate Hc. }
  split; [auto 10|].
  exact (cursor_stays_on_screen default_settings 1920 1080 Scenario.lost_and_found
           Ha HW HH Hfr Scenario.idle_state Hst).
Defined.

Lemma hand_logic_bounded (cfg : Settings) (env : FrameEnv) (st : State) (hand : Hand) :
  histories_bounded cfg st ->
  histories_bounded cfg (fst (hand_logic cfg env st hand)).
Proof.
  intros [Hx Hy]. unfold histories_bounded.
  destruct hand as [|[[ix iy]|] d].
  - rewrite hand_logic_no_hand. cbn. lia.
  - destruct (hand_logic_tip cfg env st ix iy d) as (Ehx & Ehy & _).
    rewrite Ehx, Ehy. split; apply deque_append_bounded; assumption.
  - destruct (hand_logic_no_tip cfg env st d) as (Ehx & Ehy & _).
    rewrite Ehx, Ehy. auto.
Qed.

(** X6. The two histories never grow beyond [raw_target_buffer_size], they
    always have the same length, and a frame without a hand leaves them
    empty. *)
Theorem histories_stay_bounded (cfg : Settings) (frames : list (FrameEnv * Hand)) :
  forall st : State,
    histories_bounded cfg st ->
    length (raw_target_history_x st) = length (raw_target_history_y st) ->
    let st' := fst (run cfg st frames) in
    histories_bounded cfg st'
    /\ length (raw_target_history_x st') = length (raw_target_history_y st')
    /\ (forall env, raw_target_history_x (fst (hand_logic cfg env st' NoHand)) = []
                    /\ raw_target_history_y (fst (hand_logic cfg env st' NoHand)) = []).
Proof.
  induction frames as [|[env hand] rest IH]; intros st Hb Hlen.
  - cbn [run fst]. repeat split; try apply Hb; exact Hlen.
  - cbn [run].
    pose proof (hand_logic_bounded cfg env st hand Hb) as Hb'.
    pose proof (histories_same_length cfg env st hand Hlen) as Hlen'.
    destruct (hand_logic cfg env st hand) as [st1 acts]. cbn [fst] in Hb', Hlen'.
    specialize (IH st1 Hb' Hlen').
    destruct (run cfg st1 rest) as [st2 acts']. exact IH.
Qed.

Lemma histories_stay_bounded_witness :
  (histories_bounded default_settings Scenario.idle_state
   /\ length (raw_target_history_x Scenario.idle_state)
      = length (raw_target_history_y Scenario.idle_state))
  /\ histories_bounded default_settings
       (fst (run default_settings Scenario.idle_state Scenario.three_rapid_pinches)).
Proof.
  assert (Hb : histories_bounded default_settings Scenario.idle_state)
    by (split; simpl; lia).
  assert (Hl : length (raw_target_history_x Scenario.idle_state)
               = length (raw_target_history_y Scenario.idle_state)) by reflexivity.
  split; [auto|].
  exact (proj1 (histories_stay_bounded default_settings Scenario.three_rapid_pinches
                  Scenario.idle_state Hb Hl)).
Defined.

End MoreSmoothingFacts.

(** ** Clicks *)

Section MoreClickFacts.

Import Control Inv.

(** The click part of a frame with a hand, whatever the fingertip. *)
Lemma hand_logic_click (cfg : Settings) (env : FrameEnv) (st : State)
      (tip : option (Z * Z)) (d : Distance) :
  let pinching := is_pinching (pinch_threshold_distance_config cfg) d in
  let r := hand_logic cfg env st (HandSeen tip d) in
  let c := click_step cfg (perf_counter env) pinching
                      (is_pinching_prev_frame st) (last_click_event_time st) in
  snd r = snd c
  /\ is_pinching_prev_frame (fst r) = pinching
  /\ last_click_event_time (fst r) = snd (fst c).
Proof.
  cbv zeta. unfold hand_logic, smooth_axis.
  destruct tip as [[ix iy]|]; cbn [is_pinching_prev_frame last_click_event_time];
    unfold click_step;
    destruct (is_pinching (pinch_threshold_distance_config cfg) d && negb (is_pinching_prev_frame st));
    [ destruct (Py.Qltb _ _) | | destruct (Py.Qltb _ _) | ]; cbn; auto.
Qed.

(** X7. A frame performs at most one click, and only on a rising edge of the
    pinch: when a click is performed the previous frame was not pinching,
    this one is, and the click time recorded is the time of this frame; every
    other frame performs no click and keeps the recorded click time. *)
Theorem click_only_on_rising_edge
        (cfg : Settings) (env : FrameEnv) (st : State) (hand : Hand) :
  let st' := fst (hand_logic cfg env st hand) in
  let acts := snd (hand_logic cfg env st hand) in
  (acts = [] /\ last_click_event_time st' = last_click_event_time st)
  \/ ((acts = [Click 1] \/ acts = [Click 2])
      /\ is_pinching_prev_frame st = false
      /\ is_pinching_prev_frame st' = true
      /\ last_click_event_time st' = perf_counter env).
Proof.
  cbv zeta. destruct hand as [|tip d].
  - left. rewrite hand_logic_no_hand. auto.
  - destruct (hand_logic_click cfg env st tip d) as (Ha & Hp & Hl).
    rewrite Ha, Hp, Hl. unfold click_step.
    destruct (is_pinching (pinch_threshold_distance_config cfg) d) eqn:Ep;
      destruct (is_pinching_prev_frame st) eqn:Eprev; cbn [andb negb fst snd].
    + left. auto.
    + right. destruct (Py.Qltb _ _); cbn; auto.
    + left. auto.
    + left. auto.
Qed.

(** X8. A pinch that is held clicks once: over a run of frames that all show
    a pinching hand, the first frame alone can click (it does when the frame
    before was not pinching), and the frames after it perform no click. *)
Theorem held_pinch_clicks_once (cfg : Settings) (frames : list (FrameEnv * Hand)) :
  Forall (pinching_frame cfg) frames ->
  forall st : State,
    (is_pinching_prev_frame st = true -> snd (run cfg st frames) = [])
    /\ (is_pinching_prev_frame st = false ->
        frames <> [] ->
        snd (run cfg st frames) = [Click 1] \/ snd (run cfg st frames) = [Click 2]).
Proof.
  intros Hall.
  induction Hall as [|[env hand] rest Hf _ IH]; intros st.
  - split; [reflexivity | congruence].
  - unfold pinching_frame in Hf. cbn [snd] in Hf.
    destruct hand as [|tip d]; [contradiction|].
    destruct (hand_logic_click cfg env st tip d) as (Ha & Hp & _).
    rewrite Hf in Ha, Hp. cbn [run].
    destruct (hand_logic cfg env st (HandSeen tip d)) as [st1 acts] eqn:E1.
    cbn [fst snd] in Ha, Hp.
    destruct (IH st1) as [IHheld _]. specialize (IHheld Hp).
    destruct (run cfg st1 rest) as [st2 acts2]. cbn [snd] in *. subst acts2.
    rewrite app_nil_r. split.
    + intros Hprev. rewrite Ha. unfold click_step. rewrite Hprev. reflexivity.
    + intros Hprev _. rewrite Ha. unfold click_step. rewrite Hprev.
      cbn [andb negb]. destruct (Py.Qltb _ _); cbn; auto.
Qed.

Lemma held_pinch_clicks_once_witness :
  let frames := [ (Scenario.frame_at 10.0, Scenario.pinched);
                  (Scenario.frame_at 10.05, Scenario.pinched);
                  (Scenario.frame_at 10.1, Scenario.pinched) ] in
  (Forall (pinching_frame default_settings) frames
   /\ is_pinching_prev_frame Scenario.idle_state = false /\ frames <> [])
  /\ snd (run default_settings Scenario.idle_state frames) = [Click 1].
Proof.
  cbv zeta.
  set (frames := [ (Scenario.frame_at 10.0, Scenario.pinched);
                   (Scenario.frame_at 10.05, Scenario.pinched);
                   (Scenario.frame_at 10.1, Scenario.pinched) ]).
  assert (Hall : Forall (pinching_frame default_settings) frames)
    by (repeat constructor).
  assert (Hne : frames <> []) by discriminate.
  split; [auto|].
  destruct (held_pinch_clicks_once default_settings frames Hall Scenario.idle_state)
    as [_ Hfirst].
  destruct (Hfirst eq_refl Hne) as [H1 | H2]; [exact H1|].
  vm_compute in H2. discriminate H2.
Defined.

(** X9. Losing the hand re-arms the click: after a frame without a hand, the
    next frame showing a pinch clicks, even if the pinch was held all along -
    a double click when it comes within the double-click window of the
    recorded click time, a single click otherwise. *)
Theorem pinch_after_hand_loss_clicks_again
        (cfg : Settings) (st : State) (env_lost env : FrameEnv)
        (tip : option (Z * Z)) (d : Distance) :
  is_pinching (pinch_threshold_distance_config cfg) d = true ->
  let acts := snd (run cfg st [(env_lost, NoHand); (env, HandSeen tip d)]) in
  (perf_counter env - last_click_event_time st < double_click_window_sec cfg ->
   acts = [Click 2])
  /\ (double_click_window_sec cfg <= perf_counter env - last_click_event_time st ->
      acts = [Click 1]).
Proof.
  intros Hp. cbv zeta. cbn [run]. rewrite hand_logic_no_hand.
  set (st1 := {| prev_cursor_x := prev_cursor_x st |}).
  destruct (hand_logic_click cfg env st1 tip d) as (Ha & _).
  destruct (hand_logic cfg env st1 (HandSeen tip d)) as [st2 acts] eqn:E.
  cbn [snd] in *. rewrite Hp in Ha. subst st1.
  cbn [is_pinching_prev_frame last_click_event_time] in Ha.
  rewrite app_nil_r. cbn [app]. split; intros Hw.
  - rewrite Ha, (click_step_inside_window cfg _ _ Hw). reflexivity.
  - rewrite Ha, (click_step_outside_window cfg _ _ Hw). reflexivity.
Qed.

Lemma pinch_after_hand_loss_clicks_again_witness :
  let st := fst (run default_settings Scenario.idle_state
                     [(Scenario.frame_at 10.0, Scenario.pinched)]) in
  (is_pinching (pinch_threshold_distance_config default_settings) (Finite 10) = true
   /\ 10.2 - last_click_event_time st < double_click_window_sec default_settings)
  /\ is_pinching_prev_frame st = true
  /\ snd (run default_settings st
              [(Scenario.frame_at 10.1, NoHand); (Scenario.frame_at 10.2, Scenario.pinched)])
     = [Click 2].
Proof.
  cbv zeta.
  set (st := fst (run default_settings Scenario.idle_state
                      [(Scenario.frame_at 10.0, Scenario.pinched)])).
  assert (Hp : is_pinching (pinch_threshold_distance_config default_settings) (Finite 10)
               = true) by reflexivity.
  assert (Hw : 10.2 - last_click_event_time st < double_click_window_sec default_settings)
    by (vm_compute; reflexivity).
  split; [auto|]. split; [reflexivity|].
  destruct (pinch_after_hand_loss_clicks_again default_settings st
              (Scenario.frame_at 10.1) (Scenario.frame_at 10.2)
              (Some (320, 240)%Z) (Finite 10) Hp) as [Hin _].
  exact (Hin Hw).
Defined.

End MoreClickFacts.

(** ** The pointer and the pace of the loop *)

Section PointerFacts.

Import Control Inv Pointer.

Lemma move_to_on_screen (x y : Z) (m : Mouse) :
  (1 <= Pointer.screen_width m)%Z -> (1 <= Pointer.screen_height m)%Z ->
  pointer_on_screen (move_to x y m).
Proof.
  intros HW HH. unfold pointer_on_screen, move_to. cbn. lia.
Qed.

Lemma mouse_control_screen (thr : Z) (moved : bool) (st : State) (last : Z * Z) (m : Mouse) :
  Pointer.screen_width (snd (mouse_control thr moved st last m)) = Pointer.screen_width m
  /\ Pointer.screen_height (snd (mouse_control thr moved st last m)) = Pointer.screen_height m.
Proof.
  unfold mouse_control. destruct moved; [|auto].
  destruct (_ || _); cbn; auto.
Qed.

(** X10. [move_to] never puts the pointer off the screen: whatever
    coordinates it is given, the position set lies in
    [[0, width - 1] x [0, height - 1]], and coordinates already in that range
    are used as they are.  Hence over any run of control frames a pointer
    that starts on the screen stays on it. *)
Theorem pointer_stays_on_screen :
  (forall (x y : Z) (m : Mouse),
      (1 <= Pointer.screen_width m)%Z -> (1 <= Pointer.screen_height m)%Z ->
      pointer_on_screen (move_to x y m)
      /\ ((0 <= x <= Pointer.screen_width m - 1)%Z ->
          (0 <= y <= Pointer.screen_height m - 1)%Z ->
          position (move_to x y m) = (x, y)))
  /\ (forall (cfg : Settings) (thr : Z) (frames : list (FrameEnv * Hand)) (a : App),
         (1 <= Pointer.screen_width (mouse a))%Z ->
         (1 <= Pointer.screen_height (mouse a))%Z ->
         pointer_on_screen (mouse a) ->
         pointer_on_screen (mouse (control_run cfg thr frames a))).
Proof.
  split.
  - intros x y m HW HH. split; [apply move_to_on_screen; assumption|].
    intros Hx Hy. unfold move_to. cbn. f_equal; lia.
  - intros cfg thr frames. induction frames as [|[env hand] rest IH]; intros a HW HH Hon.
    + exact Hon.
    + cbn [control_run]. apply IH.
      * unfold control_tick.
        destruct (hand_logic cfg env (control a) hand) as [st acts].
        pose proof (mouse_control_screen thr (mouse_moved_by_logic hand) st
                      (last_mouse_move a) (mouse a)) as [Hw _].
        destruct (mouse_control _ _ _ _ _) as [last m]. cbn in *. lia.
      * unfold control_tick.
        destruct (hand_logic cfg env (control a) hand) as [st acts].
        pose proof (mouse_control_screen thr (mouse_moved_by_logic hand) st
                      (last_mouse_move a) (mouse a)) as [_ Hh].
        destruct (mouse_control _ _ _ _ _) as [last m]. cbn in *. lia.
      * unfold control_tick.
        destruct (hand_logic cfg env (control a) hand) as [st acts].
        unfold mouse_control.
        destruct (mouse_moved_by_logic hand); [|exact Hon].
        destruct (_ || _); [|exact Hon].
        cbn. apply move_to_on_screen; assumption.
Qed.

Lemma pointer_stays_on_screen_witness :
  let m := {| Pointer.screen_width := 1920; Pointer.screen_height := 1080;
              position := (100, 100)%Z |} in
  ((1 <= Pointer.screen_width m)%Z /\ (1 <= Pointer.screen_height m)%Z)
  /\ position (move_to 5000 (-3) m) = (1919, 0)%Z
  /\ pointer_on_screen (move_to 5000 (-3) m).
Proof.
  cbv zeta.
  set (m := {| Pointer.screen_width := 1920; Pointer.screen_height := 1080;
               position := (100, 100)%Z |}).
  assert (HW : (1 <= Pointer.screen_width m)%Z) by (cbn; lia).
  assert (HH : (1 <= Pointer.screen_height m)%Z) by (cbn; lia).
  destruct pointer_stays_on_screen as [Hmove _].
  destruct (Hmove 5000%Z (-3)%Z m HW HH) as [Hon _].
  split; [auto|]. split; [reflexivity | exact Hon].
Defined.

(** X11. The pointer follows the cursor within the move threshold: after a
    frame with a fingertip the position last sent to the mouse is within
    [mouse_move_threshold] of the truncated cursor on both axes (it is the
    truncated cursor when a move was made); after a frame without one,
    nothing is sent and the mouse is left alone. *)
Theorem pointer_follows_cursor (thr : Z) (st : State) (last : Z * Z) (m : Mouse) :
  (0 <= thr)%Z ->
  (let r := mouse_control thr true st last m in
   (Z.abs (Py.int (prev_cursor_x st) - fst (fst r)) <= thr)%Z
   /\ (Z.abs (Py.int (prev_cursor_y st) - snd (fst r)) <= thr)%Z
   /\ (fst r = last /\ snd r = m
       \/ fst r = (Py.int (prev_cursor_x st), Py.int (prev_cursor_y st))
          /\ snd r = move_to (Py.int (prev_cursor_x st)) (Py.int (prev_cursor_y st)) m))
  /\ mouse_control thr false st last m = (last, m).
Proof.
  intros Hthr. split; [|reflexivity].
  cbv zeta. unfold mouse_control.
  destruct (Z.ltb_spec thr (Z.abs (Py.int (prev_cursor_x st) - fst last))) as [Hx|Hx];
    destruct (Z.ltb_spec thr (Z.abs (Py.int (prev_cursor_y st) - snd last))) as [Hy|Hy];
    cbn [orb fst snd]; rewrite ?Z.sub_diag; cbn [Z.abs];
    repeat split; try lia; auto.
Qed.

Lemma pointer_follows_cursor_witness :
  let m := {| Pointer.screen_width := 1920; Pointer.screen_height := 1080;
              position := (100, 100)%Z |} in
  let st := fst (hand_logic default_settings (Scenario.frame_at 1.0) Scenario.idle_state
                            Scenario.released) in
  (0 <= 1)%Z
  /\ (Z.abs (Py.int (prev_cursor_x st)
             - fst (fst (mouse_control 1 true st (100, 100)%Z m))) <= 1)%Z.
Proof.
  cbv zeta. assert (Hthr : (0 <= 1)%Z) by lia.
  split; [exact Hthr|].
  set (m := {| Pointer.screen_width := 1920 |}).
  set (st := fst (hand_logic _ _ _ _)).
  pose proof (pointer_follows_cursor 1 st (100, 100)%Z m Hthr) as Hfollow.
  cbv zeta in Hfollow. destruct Hfollow as [[Hx _] _]. exact Hx.
Defined.

Lemma frame_delay_is_quotient (fps : Z) :
  (0 < fps)%Z -> frame_process_delay_ms fps = (1000 / fps)%Z.
Proof.
  intros Hpos. unfold frame_process_delay_ms.
  apply Z.ltb_lt in Hpos as Hb. rewrite Hb.
  assert (Hq : 0 <= 1000 / inject_Z fps).
  { apply Qle_shift_div_l.
    - change 0 with (inject_Z 0). rewrite <- Zlt_Qlt. exact Hpos.
    - ring_simplify. intros Hc. discriminate Hc. }
  rewrite int_nonneg by exact Hq.
  change 1000 with (inject_Z 1000). symmetry. apply Zdiv_Qdiv.
Qed.

(** X12. The loop is paced safely: the delay before the next frame is never
    below 1 ms and, for a non-negative processing time, never above the frame
    period; when the (truncated) processing time is shorter than the period
    the two add up to the period; and for a positive target rate the period
    is the whole number of milliseconds in [1000 / target_fps], 33 ms
    otherwise. *)
Theorem loop_delay_bounds (target_fps : Z) (time_spent_ms : Q) :
  0 <= time_spent_ms ->
  let period := frame_process_delay_ms target_fps in
  let delay := actual_delay_needed_ms period time_spent_ms in
  (1 <= delay)%Z
  /\ (delay <= Z.max 1 period)%Z
  /\ ((Py.int time_spent_ms < period)%Z -> (delay + Py.int time_spent_ms = period)%Z)
  /\ ((0 < target_fps)%Z ->
      (period * target_fps <= 1000 < (period + 1) * target_fps)%Z)
  /\ ((target_fps <= 0)%Z -> period = 33%Z).
Proof.
  intros Hspent period delay.
  pose proof (int_nonneg_le time_spent_ms Hspent) as Hint.
  unfold delay, actual_delay_needed_ms.
  split; [lia|]. split; [lia|]. split; [lia|]. split.
  - intros Hpos. unfold period. rewrite (frame_delay_is_quotient _ Hpos).
    pose proof (Z.mul_div_le 1000 target_fps Hpos).
    pose proof (Z.mul_succ_div_gt 1000 target_fps Hpos). lia.
  - intros Hneg. unfold period, frame_process_delay_ms.
    destruct (Z.ltb_spec 0 target_fps); [lia | reflexivity].
Qed.

Lemma loop_delay_bounds_witness :
  0 <= 7.9
  /\ frame_process_delay_ms 60 = 16%Z
  /\ actual_delay_needed_ms (frame_process_delay_ms 60) 7.9 = 9%Z
  /\ (1 <= actual_delay_needed_ms (frame_process_delay_ms 60) 40)%Z.
Proof.
  assert (H0 : 0 <= 7.9) by (intros Hc; discriminate Hc).
  assert (H1 : 0 <= 40) by (intros Hc; discriminate Hc).
  split; [exact H0|]. split; [reflexivity|]. split; [reflexivity|].
  exact (proj1 (loop_delay_bounds 60 40 H1)).
Defined.

End PointerFacts.

(** ** Calibration flows *)

Section MoreCalibrationFacts.

Import Calibration CalibrationFlow.

(** X13. A derived threshold separates the two calibrated poses: it is at
    least 5, strictly above the pinch average (so the calibrated pinch counts
    as pinching) and, when the open-hand average is above 5, strictly below
    it (so the calibrated open hand does not); when the open-hand average is
    5 or less the floor 5 wins and the open hand itself counts as pinching. *)
Theorem derived_threshold_separates (avg_open avg_pinch t : Q) :
  derive_threshold avg_open avg_pinch = Some t ->
  avg_pinch + 1 < avg_open
  /\ 5 <= t /\ avg_pinch < t
  /\ Control.is_pinching t (Control.Finite avg_pinch) = true
  /\ (5 < avg_open -> t < avg_open
                      /\ Control.is_pinching t (Control.Finite avg_open) = false)
  /\ (avg_open <= 5 -> t == 5
                       /\ Control.is_pinching t (Control.Finite avg_open)
                          = Py.Qltb avg_open 5).
Proof.
  unfold derive_threshold. case_Qltb (avg_pinch + 1) avg_open; [|discriminate].
  intros Ht. injection Ht as <-.
  set (x := avg_pinch + (avg_open - avg_pinch) * 0.35).
  assert (Hx : avg_pinch < x /\ x < avg_open) by (unfold x; lra).
  assert (Hmax : 5 <= Py.max 5 x /\ x <= Py.max 5 x
                 /\ (Py.max 5 x == 5 \/ Py.max 5 x == x)).
  { unfold Py.max. case_Qltb 5 x; repeat split; try lra; auto with qarith. }
  destruct Hmax as (H5 & Hxm & Hor).
  split; [assumption|]. split; [exact H5|]. split; [lra|]. split.
  - cbn [Control.is_pinching]. apply Qltb_lt. lra.
  - split.
    + intros Hopen. assert (Hlt : Py.max 5 x < avg_open) by (destruct Hor; lra).
      split; [exact Hlt|]. cbn [Control.is_pinching]. apply Qltb_ge. lra.
    + intros Hlow. assert (Heq : Py.max 5 x == 5) by (destruct Hor; lra).
      split; [exact Heq|]. cbn [Control.is_pinching].
      case_Qltb avg_open 5.
      * apply Qltb_lt. lra.
      * apply Qltb_ge. lra.
Qed.

Lemma derived_threshold_separates_witness :
  derive_threshold 40 10 = Some (Py.max 5 (10 + (40 - 10) * 0.35))
  /\ 10 < Py.max 5 (10 + (40 - 10) * 0.35)
  /\ Py.max 5 (10 + (40 - 10) * 0.35) < 40.
Proof.
  assert (Hd : derive_threshold 40 10 = Some (Py.max 5 (10 + (40 - 10) * 0.35)))
    by reflexivity.
  destruct (derived_threshold_separates 40 10 _ Hd) as (_ & _ & Hp & _ & Ho & _).
  split; [exact Hd|]. split; [exact Hp|].
  apply Ho. reflexivity.
Defined.

(** Whatever a capture function does to the window besides the status texts
    depends on nothing but the window besides the status texts. *)
Lemma process_pinch_capture_without_status (t : Timing) (d : option Control.Distance)
      (w1 w2 : Window) :
  without_status w1 = without_status w2 ->
  without_status (process_pinch_capture t d w1)
  = without_status (process_pinch_capture t d w2).
Proof.
  destruct w1 as [s1 ? ? o1 p1 c1 ? ? ? ? ? ov1 ? ? ? ?],
           w2 as [s2 ? ? o2 p2 c2 ? ? ? ? ? ov2 ? ? ? ?].
  unfold without_status. cbn. intros Heq. injection Heq; intros; subst.
  unfold process_pinch_capture. destruct d as [[dist|]|]; try reflexivity.
  cbn. destruct (0 <? c2)%Z.
  - destruct s2; reflexivity.
  - destruct s2; try reflexivity.
    + destruct o2; reflexivity.
    + destruct p2; [reflexivity|].
      unfold calculate_and_display_new_pinch_threshold. cbn.
      destruct (parse_dist_var ov2); [destruct (derive_threshold _ _)|]; reflexivity.
Qed.

Lemma process_ar_capture_without_status (t : Timing) (nx ny : option Q) (w1 w2 : Window) :
  without_status w1 = without_status w2 ->
  without_status (process_ar_capture t nx ny w1)
  = without_status (process_ar_capture t nx ny w2).
Proof.
  destruct w1 as [s1 ? ? ? ? c1 ? ? ? ? ? ? ? ? ? ?],
           w2 as [s2 ? ? ? ? c2 ? ? ? ? ? ? ? ? ? ?].
  unfold without_status. cbn. intros Heq. injection Heq; intros; subst.
  unfold process_ar_capture. destruct nx as [x|], ny as [y|]; try reflexivity.
  cbn. destruct (0 <? c2)%Z; destruct s2; reflexivity.
Qed.

Lemma feed_pinch_without_status (t : Timing) (inputs : list (option Control.Distance)) :
  forall w1 w2 : Window,
    without_status w1 = without_status w2 ->
    without_status (feed_pinch t inputs w1) = without_status (feed_pinch t inputs w2).
Proof.
  induction inputs as [|d rest IH]; intros w1 w2 Heq; [exact Heq|].
  cbn [feed_pinch]. apply IH, process_pinch_capture_without_status, Heq.
Qed.

Lemma feed_ar_without_status (t : Timing) (inputs : list (option Q * option Q)) :
  forall w1 w2 : Window,
    without_status w1 = without_status w2 ->
    without_status (feed_ar t inputs w1) = without_status (feed_ar t inputs w2).
Proof.
  induction inputs as [|[nx ny] rest IH]; intros w1 w2 Heq; [exact Heq|].
  cbn [feed_ar]. apply IH, process_ar_capture_without_status, Heq.
Qed.

(** X14. Frames without usable input are transparent to a capture: fed any
    sequence of frames, the window ends up - status texts aside - exactly as
    if the frames lacking a finite pinch distance (in the pinch flows) or a
    fingertip position (in the active-region flows) had never arrived. *)
Theorem unusable_frames_are_transparent (t : Timing) (w : Window) :
  (forall inputs : list (option Control.Distance),
      without_status (feed_pinch t inputs w)
      = without_status (feed_pinch t (List.filter usable inputs) w))
  /\ (forall inputs : list (option Q * option Q),
         without_status (feed_ar t inputs w)
         = without_status (feed_ar t (List.filter usable_point inputs) w)).
Proof.
  split.
  - intros inputs. revert w.
    induction inputs as [|d rest IH]; intros w; [reflexivity|].
    cbn [List.filter feed_pinch]. destruct (usable d) eqn:Eu.
    + cbn [feed_pinch]. apply IH.
    + rewrite <- IH. apply feed_pinch_without_status.
      destruct d as [[dist|]|]; try discriminate Eu;
        apply without_status_set_pt_status.
  - intros inputs. revert w.
    induction inputs as [|[nx ny] rest IH]; intros w; [reflexivity|].
    cbn [List.filter feed_ar]. destruct (usable_point (nx, ny)) eqn:Eu.
    + cbn [feed_ar]. apply IH.
    + rewrite <- IH. apply feed_ar_without_status.
      destruct nx as [x|], ny as [y|]; try discriminate Eu;
        apply without_status_set_ar_status.
Qed.

(** A valid active-region tick during the countdown changes the countdown
    and the status text only. *)
Lemma ar_tick_counts_down (t : Timing) (p : Q * Q) (w : Window) :
  (0 < capture_countdown w)%Z ->
  let w' := process_ar_capture t (Some (fst p)) (Some (snd p)) w in
  capture_countdown w' = (capture_countdown w - 1)%Z
  /\ calibration_state w' = calibration_state w
  /\ temp_active_region_tl_norm w' = temp_active_region_tl_norm w
  /\ temp_active_region_br_norm w' = temp_active_region_br_norm w
  /\ ar_br_button_enabled w' = ar_br_button_enabled w.
Proof.
  intros Hpos. unfold process_ar_capture.
  apply Z.ltb_lt in Hpos. rewrite Hpos.
  destruct w as [st ? ? ? ? c ? ? ? ? ? ? ? ? ? ?]. destruct st; cbn; auto.
Qed.

Lemma ar_hold_counts_down (t : Timing) (pts : list (Q * Q)) :
  forall w : Window,
    (Z.of_nat (length pts) <= capture_countdown w)%Z ->
    let w' := feed_ar t (map valid_point pts) w in
    capture_countdown w' = (capture_countdown w - Z.of_nat (length pts))%Z
    /\ calibration_state w' = calibration_state w
    /\ temp_active_region_tl_norm w' = temp_active_region_tl_norm w
    /\ temp_active_region_br_norm w' = temp_active_region_br_norm w
    /\ ar_br_button_enabled w' = ar_br_button_enabled w.
Proof.
  induction pts as [|p pts IH]; intros w Hlen.
  - simpl. repeat split; lia.
  - change (length (p :: pts)) with (S (length pts)) in *.
    rewrite Nat2Z.inj_succ in *.
    destruct (ar_tick_counts_down t p w ltac:(lia)) as (Hc & Hs & Htl & Hbr & Hb).
    cbn [map feed_ar valid_point].
    destruct (IH (process_ar_capture t (Some (fst p)) (Some (snd p)) w) ltac:(lia))
      as (Hc2 & Hs2 & Htl2 & Hbr2 & Hb2).
    cbv zeta. rewrite Hc2, Hs2, Htl2, Hbr2, Hb2, Hc, Hs, Htl, Hbr, Hb.
    repeat split; lia.
Qed.

(** The valid tick that finds the countdown at zero captures its position. *)
Lemma ar_tick_captures (t : Timing) (p : Q * Q) (w : Window) :
  (capture_countdown w <= 0)%Z ->
  let w' := process_ar_capture t (Some (fst p)) (Some (snd p)) w in
  (calibration_state w = CALIB_STATE_WAITING_TOP_LEFT ->
   temp_active_region_tl_norm w' = Some p
   /\ temp_active_region_br_norm w' = temp_active_region_br_norm w
   /\ calibration_state w' = CALIB_STATE_IDLE
   /\ ar_br_button_enabled w' = true)
  /\ (calibration_state w = CALIB_STATE_WAITING_BOTTOM_RIGHT ->
      temp_active_region_br_norm w' = Some p
      /\ temp_active_region_tl_norm w' = temp_active_region_tl_norm w
      /\ calibration_state w' = CALIB_STATE_IDLE).
Proof.
  intros Hzero. unfold process_ar_capture.
  assert (Hb : (0 <? capture_countdown w)%Z = false) by (apply Z.ltb_ge; exact Hzero).
  rewrite Hb. destruct p as [x y].
  destruct w as [st ? ? ? ? c ? ? ? ? ? ? ? ? ? ?]. cbn in *.
  split; intros ->; cbn; auto.
Qed.

Lemma feed_ar_app (t : Timing) (l1 l2 : list (option Q * option Q)) (w : Window) :
  feed_ar t (l1 ++ l2) w = feed_ar t l2 (feed_ar t l1 w).
Proof.
  revert w. induction l1 as [|[nx ny] l1 IH]; intros w; [reflexivity|].
  cbn [app feed_ar]. apply IH.
Qed.

(** X15. A corner capture takes a single sample, at the end of the hold:
    armed by the operator and fed as many frames with a fingertip as the
    countdown counts, the next such frame alone decides the corner - the
    positions seen during the hold play no part - and the state returns to
    Idle.  The top-left capture enables the bottom-right control and leaves
    the bottom-right corner alone; the bottom-right capture leaves the
    top-left corner alone. *)
Theorem corner_is_the_position_after_the_hold
        (t : Timing) (w0 : Window) (pts : list (Q * Q)) (p : Q * Q) :
  (let armed := start_capture_top_left t w0 in
   Z.of_nat (length pts) = capture_countdown armed ->
   let w' := feed_ar t (map valid_point (pts ++ [p])) armed in
   temp_active_region_tl_norm w' = Some p
   /\ temp_active_region_br_norm w' = temp_active_region_br_norm w0
   /\ calibration_state w' = CALIB_STATE_IDLE
   /\ ar_br_button_enabled w' = true)
  /\ (let armed := start_capture_bottom_right t w0 in
      Z.of_nat (length pts) = capture_countdown armed ->
      let w' := feed_ar t (map valid_point (pts ++ [p])) armed in
      temp_active_region_br_norm w' = Some p
      /\ temp_active_region_tl_norm w' = temp_active_region_tl_norm w0
      /\ calibration_state w' = CALIB_STATE_IDLE).
Proof.
  split; intros armed Hlen w'.
  - assert (Harm : calibration_state armed = CALIB_STATE_WAITING_TOP_LEFT
                   /\ temp_active_region_br_norm armed = temp_active_region_br_norm w0).
    { unfold armed, start_capture_top_left. destruct w0. cbn. auto. }
    destruct Harm as [Hst Hbr0].
    destruct (ar_hold_counts_down t pts armed ltac:(lia)) as (Hc & Hs & _ & Hbr & _).
    unfold w'. rewrite map_app, feed_ar_app. cbn [map feed_ar].
    set (held := feed_ar t (map valid_point pts) armed) in *.
    destruct (ar_tick_captures t p held ltac:(lia)) as [Htl _].
    rewrite Hs, Hst in Htl. destruct (Htl eq_refl) as (H1 & H2 & H3 & H4).
    unfold valid_point. cbn [fst snd] in *. rewrite H1, H2, H3, H4, Hbr, Hbr0. auto.
  - assert (Harm : calibration_state armed = CALIB_STATE_WAITING_BOTTOM_RIGHT
                   /\ temp_active_region_tl_norm armed = temp_active_region_tl_norm w0).
    { unfold armed, start_capture_bottom_right. destruct w0. cbn. auto. }
    destruct Harm as [Hst Htl0].
    destruct (ar_hold_counts_down t pts armed ltac:(lia)) as (Hc & Hs & Htl & _).
    unfold w'. rewrite map_app, feed_ar_app. cbn [map feed_ar].
    set (held := feed_ar t (map valid_point pts) armed) in *.
    destruct (ar_tick_captures t p held ltac:(lia)) as [_ Hbr].
    rewrite Hs, Hst in Hbr. destruct (Hbr eq_refl) as (H1 & H2 & H3).
    unfold valid_point. cbn [fst snd] in *. rewrite H1, H2, H3, Htl, Htl0. auto.
Qed.

Lemma corner_is_the_position_after_the_hold_witness :
  let t := {| target_fps := 1; ar_capture_duration_s := 2;
              pinch_capture_duration_s := 3 |} in
  let armed := start_capture_top_left t init in
  Z.of_nat (length [(0.1, 0.1); (0.9, 0.9)]) = capture_countdown armed
  /\ temp_active_region_tl_norm
       (feed_ar t (map valid_point ([(0.1, 0.1); (0.9, 0.9)] ++ [(0.2, 0.3)])) armed)
     = Some (0.2, 0.3).
Proof.
  cbv zeta. split; [reflexivity|].
  destruct (corner_is_the_position_after_the_hold
              {| target_fps := 1; ar_capture_duration_s := 2;
                 pinch_capture_duration_s := 3 |}
              init [(0.1, 0.1); (0.9, 0.9)] (0.2, 0.3)) as [Htl _].
  exact (proj1 (Htl eq_refl)).
Defined.

(** X16. The manual confirmation shortens the hold to one frame: after
    [capture_ar_point_on_key] in a corner capture, whatever the countdown
    was, the first frame with a fingertip only counts down and the second
    one is captured as the corner; outside a corner capture the key does
    nothing. *)
Theorem enter_key_captures_on_second_frame (t : Timing) (w : Window) (p1 p2 : Q * Q) :
  let w' := feed_ar t [valid_point p1; valid_point p2] (capture_ar_point_on_key w) in
  (calibration_state w = CALIB_STATE_WAITING_TOP_LEFT ->
   temp_active_region_tl_norm w' = Some p2 /\ calibration_state w' = CALIB_STATE_IDLE)
  /\ (calibration_state w = CALIB_STATE_WAITING_BOTTOM_RIGHT ->
      temp_active_region_br_norm w' = Some p2 /\ calibration_state w' = CALIB_STATE_IDLE)
  /\ (calibration_state w <> CALIB_STATE_WAITING_TOP_LEFT ->
      calibration_state w <> CALIB_STATE_WAITING_BOTTOM_RIGHT ->
      capture_ar_point_on_key w = w).
Proof.
  cbv zeta. destruct p1 as [x1 y1], p2 as [x2 y2].
  destruct w as [st ? ? ? ? c ? ? ? ? ? ? ? ? ? ?].
  unfold capture_ar_point_on_key, valid_point. cbn.
  split; [|split].
  - intros ->. cbn. auto.
  - intros ->. cbn. auto.
  - intros H1 H2. destruct st; congruence.
Qed.

Lemma enter_key_captures_on_second_frame_witness :
  let w := start_capture_top_left default_timing init in
  calibration_state w = CALIB_STATE_WAITING_TOP_LEFT
  /\ capture_countdown w = 120%Z
  /\ temp_active_region_tl_norm
       (feed_ar default_timing [valid_point (0.4, 0.4); valid_point (0.2, 0.3)]
                (capture_ar_point_on_key w)) = Some (0.2, 0.3).
Proof.
  cbv zeta. split; [reflexivity|]. split; [reflexivity|].
  destruct (enter_key_captures_on_second_frame default_timing
              (start_capture_top_left default_timing init) (0.4, 0.4) (0.2, 0.3))
    as [Htl _].
  exact (proj1 (Htl eq_refl)).
Defined.

(** X18. Apply with nothing to apply changes nothing: when a corner is
    missing and no threshold can be read from the display, the configuration
    and the settings file are as before, the main application is not told to
    reload, and the only dialog says that there is nothing to apply. *)
Theorem apply_without_calibration_is_a_no_op (w : Window) (cm : ConfigManager) :
  temp_active_region_tl_norm w = None \/ temp_active_region_br_norm w = None ->
  parse_threshold_var (pt_new_threshold_var w) = None ->
  apply_and_save_settings w cm
  = {| applied_config := cm; dialogs := [InfoNothingToApply];
       settings_reloaded := false |}.
Proof.
  intros Hcorner Hthr. unfold apply_and_save_settings. rewrite Hthr.
  destruct Hcorner as [-> | ->]; destruct (temp_active_region_tl_norm w);
    reflexivity.
Qed.

Lemma apply_without_calibration_is_a_no_op_witness :
  (temp_active_region_tl_norm init = None
   /\ parse_threshold_var (pt_new_threshold_var init) = None)
  /\ applied_config (apply_and_save_settings init Scenario.default_config)
     = Scenario.default_config.
Proof.
  split; [split; reflexivity|].
  rewrite (apply_without_calibration_is_a_no_op init Scenario.default_config
             (or_introl eq_refl) eq_refl).
  reflexivity.
Defined.

(** X19. Apply touches nothing but the five calibration settings: every
    other key of the configuration keeps its value (or its absence), and the
    settings file is either left as it was or made equal to the resulting
    configuration. *)
Theorem apply_leaves_other_settings_alone (w : Window) (cm : ConfigManager) (key : string) :
  ~ In key active_region_keys ->
  key <> "pinch_threshold_distance" ->
  let r := apply_and_save_settings w cm in
  config (applied_config r) !! key = config cm !! key
  /\ (settings_file (applied_config r) = settings_file cm
      \/ settings_file (applied_config r) = config (applied_config r)).
Proof.
  intros Hkey Hthr. unfold active_region_keys in Hkey. cbn [In] in Hkey.
  unfold apply_and_save_settings.
  destruct (temp_active_region_tl_norm w) as [tl|], (temp_active_region_br_norm w) as [br|];
    cbn [sorted_corners fst snd];
    try destruct (region_accepted _);
    destruct (parse_threshold_var (pt_new_threshold_var w));
    cbn [applied_config save_config config settings_file];
    (split; [ repeat (rewrite lookup_config_set; case_decide; [subst; tauto|]); reflexivity
            | auto ]).
Qed.

Lemma apply_leaves_other_settings_alone_witness :
  let w := Scenario.window_with (0.2, 0.2) (0.8, 0.9) (ThresholdValue 20.5) in
  let cm := config_set "sensitivity" 1.5 Scenario.default_config in
  (~ In "sensitivity" active_region_keys /\ "sensitivity" <> "pinch_threshold_distance")
  /\ config (applied_config (apply_and_save_settings w cm)) !! "sensitivity"
     = config cm !! "sensitivity".
Proof.
  cbv zeta.
  assert (Hk : ~ In "sensitivity" active_region_keys).
  { unfold active_region_keys. cbn [In]. intros [H|[H|[H|[H|[]]]]]; discriminate H. }
  assert (Ht : "sensitivity" <> "pinch_threshold_distance") by discriminate.
  split; [auto|].
  exact (proj1 (apply_leaves_other_settings_alone _ _ "sensitivity" Hk Ht)).
Defined.




(** X21. Applying twice is the same as applying once: a second apply of the
    same window on the configuration the first one left writes the same
    values, so the configuration is unchanged, and so is the settings file
    whenever the first apply saved. *)
Theorem apply_is_idempotent (w : Window) (cm : ConfigManager) :
  let r1 := apply_and_save_settings w cm in
  let r2 := apply_and_save_settings w (applied_config r1) in
  config (applied_config r2) = config (applied_config r1)
  /\ (settings_reloaded r1 = true ->
      settings_file (applied_config r2) = settings_file (applied_config r1))
  /\ settings_reloaded r2 = settings_reloaded r1.
Proof.
  cbv zeta. unfold apply_and_save_settings.
  destruct (temp_active_region_tl_norm w) as [tl|], (temp_active_region_br_norm w) as [br|];
    cbn [sorted_corners fst snd];
    try destruct (region_accepted _);
    destruct (parse_threshold_var (pt_new_threshold_var w));
    cbn [applied_config save_config config settings_file settings_reloaded config_set];
    (split; [|split; [intros Hsaved; try discriminate Hsaved|reflexivity]]);
    try reflexivity;
    try (apply map_eq; intros k; rewrite !lookup_insert;
         repeat case_decide; reflexivity).
  all: f_equal; apply map_eq; intros k; rewrite !lookup_insert;
    repeat case_decide; reflexivity.
Qed.

End MoreCalibrationFacts.

(** ** The pinch capture and the threshold, in binary64 *)

Section MoreBinary64CaptureFacts.

Import PrimFloat.
Import Calibration Calibration64.
#[local] Open Scope float_scope.
#[local] Set Warnings "-inexact-float".

Context {builtin_sum : Py64.Sum}.

(** X17. The pinch capture completes the calibration: armed after the
    open-hand average has been stored and held for the whole countdown, it
    stores, on the next usable frame, the mean of the distances of the hold
    as its two-decimal text and, on the two averages as displayed, shows the
    derived threshold with two decimals, or the validation error when the
    test [open > pinch + 1.0] fails in binary64; the state returns to
    Idle. *)
Theorem pinch_capture_derives_threshold
        (t : Timing) (w0 : Window) (avg_open : Py64.Text)
        (ds : list float) (last : float) :
  pt_open_dist_var w0 = DistAvg avg_open ->
  ds <> [] ->
  Forall usable_distance ds ->
  usable_distance last ->
  let armed := start_capture_pinch t w0 in
  Z.of_nat (length ds) = capture_countdown armed ->
  let w' := feed_pinch t (map Some (ds ++ [last])) armed in
  let avg_pinch := Py64.format_f 2 (Py64.mean ds) in
  calibration_state w' = CALIB_STATE_IDLE
  /\ pt_pinch_dist_var w' = DistAvg avg_pinch
  /\ pt_new_threshold_var w'
     = match derive_threshold (Py64.float_of 2 avg_open) (Py64.float_of 2 avg_pinch) with
       | Some new_threshold => ThresholdValue (Py64.format_f 2 new_threshold)
       | None => ThresholdErrorTooClose
       end.
Proof.
  intros Hopen Hne Hds Hlast armed Hlen w' avg_pinch.
  assert (Harm : calibration_state armed = CALIB_STATE_WAITING_PINCH
                 /\ temp_pinch_distances armed = []
                 /\ pt_open_dist_var armed = DistAvg avg_open).
  { unfold armed, start_capture_pinch. destruct w0. cbn in *. auto. }
  destruct Harm as (Hst & Hempty & Hvar).
  destruct (hold_collects t ds armed Hds ltac:(lia))
    as (Hc & Hst' & Ho & _ & _ & _ & _ & Hs).
  unfold w'. rewrite map_app. cbn [map]. rewrite feed_pinch_snoc.
  set (held := feed_pinch t (map Some ds) armed) in *.
  specialize (Hs Hst). rewrite Hempty in Hs. cbn [app] in Hs.
  rewrite Hst in Hst'. rewrite Hvar in Ho.
  destruct (zero_tick_finalises_pinch t last held Hlast Hst' ltac:(lia))
    as (H1 & _ & _ & H3 & _).
  rewrite Hs in H3. destruct (H3 Hne) as (Hp & _ & Hthr).
  split; [exact H1|]. split; [exact Hp|].
  rewrite Hthr. unfold calculate_and_display_new_pinch_threshold.
  assert (Hopen' : pt_open_dist_var
                     (set_pt_pinch_dist_var (DistAvg (Py64.format_f 2 (Py64.mean ds))) held)
                   = DistAvg avg_open) by (destruct held; exact Ho).
  assert (Hpinch' : pt_pinch_dist_var
                      (set_pt_pinch_dist_var (DistAvg (Py64.format_f 2 (Py64.mean ds))) held)
                    = DistAvg (Py64.format_f 2 (Py64.mean ds))) by (destruct held; reflexivity).
  rewrite Hopen', Hpinch'. cbn [parse_dist_var]. fold avg_pinch.
  destruct (derive_threshold _ _); apply shown_threshold.
Qed.

End MoreBinary64CaptureFacts.

Section MoreBinary64CaptureInstances.

Import PrimFloat.
Import Calibration Calibration64.
#[local] Open Scope float_scope.
#[local] Set Warnings "-inexact-float".

(** With ["Avg Open Dist: 16.12"] stored, a pinch capture at one frame per
    second held at the distance 15.12 shows ["Avg Pinch Dist: 15.12"] and,
    [15.12 + 1.0] being 16.119999999999997 in binary64, the threshold
    ["15.47"]. *)
Lemma pinch_capture_derives_threshold_witness :
  let w0 := set_pt_open_dist_var (DistAvg (two_decimals 1612)) init in
  let armed := start_capture_pinch one_frame_per_second w0 in
  let w' := feed_pinch (builtin_sum := Py64.sum_left_to_right) one_frame_per_second
                       (map Some ([15.12; 15.12; 15.12] ++ [15.5])) armed in
  (pt_open_dist_var w0 = DistAvg (two_decimals 1612)
   /\ Forall usable_distance [15.12; 15.12; 15.12] /\ usable_distance 15.5
   /\ Z.of_nat (length [15.12; 15.12; 15.12]) = capture_countdown armed)
  /\ calibration_state w' = CALIB_STATE_IDLE
  /\ pt_pinch_dist_var w' = DistAvg (two_decimals 1512)
  /\ pt_new_threshold_var w' = ThresholdValue (two_decimals 1547).
Proof.
  cbv zeta.
  assert (Hds : Forall usable_distance [15.12; 15.12; 15.12])
    by (repeat (constructor; [vm_compute; reflexivity|]); constructor).
  assert (Hlast : usable_distance 15.5) by (vm_compute; reflexivity).
  assert (Hne : [15.12; 15.12; 15.12] <> ([] : list float)) by discriminate.
  destruct (pinch_capture_derives_threshold
              (builtin_sum := Py64.sum_left_to_right) one_frame_per_second
              (set_pt_open_dist_var (DistAvg (two_decimals 1612)) init)
              (two_decimals 1612) [15.12; 15.12; 15.12] 15.5
              eq_refl Hne Hds Hlast eq_refl) as (Hidle & Havg & Hthr).
  split; [auto|]. split; [exact Hidle|]. split.
  - rewrite Havg. vm_compute. reflexivity.
  - rewrite Hthr. vm_compute. reflexivity.
Defined.

End MoreBinary64CaptureInstances.

(** ** The settings dictionary *)

Section ConfigFacts.

Import Config.

(** What a load finds under a key. *)
Lemma load_config_lookup (file : SettingsFile) (key : string) :
  let cfg := fst (load_config file) in
  (is_Some (DEFAULT_CONFIG !! key) -> is_Some (cfg !! key))
  /\ (forall stored v, file = FileHolds stored -> stored !! key = Some v ->
                       cfg !! key = Some v)
  /\ (forall stored, file = FileHolds stored -> stored !! key = None ->
                     cfg !! key = DEFAULT_CONFIG !! key)
  /\ (file = FileMissing \/ file = FileInvalid -> cfg = DEFAULT_CONFIG)
  /\ (file = FileMissing -> snd (load_config file) = FileHolds DEFAULT_CONFIG)
  /\ (file <> FileMissing -> snd (load_config file) = file).
Proof.
  cbv zeta. split; [|split; [|split; [|split; [|split]]]].
  - intros Hdef. destruct file as [| |stored]; cbn [load_config fst]; try exact Hdef.
    destruct (stored !! key) as [v|] eqn:E.
    + exists v. apply lookup_union_Some_l. exact E.
    + rewrite lookup_union_r by exact E. exact Hdef.
  - intros stored v -> Hv. cbn [load_config fst]. apply lookup_union_Some_l. exact Hv.
  - intros stored -> Hn. cbn [load_config fst]. apply lookup_union_r. exact Hn.
  - intros [-> | ->]; reflexivity.
  - intros ->. reflexivity.
  - intros Hne. destruct file; [congruence | reflexivity | reflexivity].
Qed.

(** X22. Loading always yields a complete configuration: every default key
    has a value whatever the file is; a key stored in the file keeps the
    stored value and any other key gets its default; a missing or unreadable
    file gives the defaults, and a missing file is created holding them while
    an existing file is left as it is. *)
Theorem load_config_completes_with_defaults (file : SettingsFile) (key : string) :
  let cfg := fst (load_config file) in
  (is_Some (DEFAULT_CONFIG !! key) -> is_Some (cfg !! key))
  /\ (forall stored v, file = FileHolds stored -> stored !! key = Some v ->
                       cfg !! key = Some v)
  /\ (forall stored, file = FileHolds stored -> stored !! key = None ->
                     cfg !! key = DEFAULT_CONFIG !! key)
  /\ (file = FileMissing \/ file = FileInvalid -> cfg = DEFAULT_CONFIG)
  /\ (file = FileMissing -> snd (load_config file) = FileHolds DEFAULT_CONFIG)
  /\ (file <> FileMissing -> snd (load_config file) = file).
Proof.
  exact (load_config_lookup file key).
Qed.

Lemma load_config_completes_with_defaults_witness :
  let file := FileHolds {[ "sensitivity" := 2 ]} in
  is_Some (DEFAULT_CONFIG !! "target_fps")
  /\ fst (load_config file) !! "sensitivity" = Some 2
  /\ is_Some (fst (load_config file) !! "target_fps").
Proof.
  cbv zeta.
  assert (Hdef : is_Some (DEFAULT_CONFIG !! "target_fps")) by (eexists; reflexivity).
  split; [exact Hdef|]. split.
  - destruct (load_config_completes_with_defaults
                (FileHolds {[ "sensitivity" := 2 ]}) "sensitivity") as (_ & Hst & _).
    apply (Hst _ 2 eq_refl). reflexivity.
  - destruct (load_config_completes_with_defaults
                (FileHolds {[ "sensitivity" := 2 ]}) "target_fps") as (Hall & _).
    exact (Hall Hdef).
Defined.

Lemma union_defaults_absorbed (c : gmap string Q) :
  (forall key, is_Some (DEFAULT_CONFIG !! key) -> is_Some (c !! key)) ->
  c ∪ DEFAULT_CONFIG = c.
Proof.
  intros Hall. apply map_eq. intros key.
  destruct (c !! key) as [v|] eqn:E.
  - apply lookup_union_Some_l. exact E.
  - rewrite lookup_union_r by exact E.
    destruct (DEFAULT_CONFIG !! key) as [d|] eqn:Ed; [|reflexivity].
    destruct (Hall key ltac:(eexists; exact Ed)) as [v Hv]. congruence.
Qed.

(** X23. Saving and loading is a round trip for complete configurations: a
    configuration that has a value for every default key - in particular any
    configuration obtained from a load followed by [set]s - is read back
    exactly as it was saved, and the file is left as saved. *)
Theorem save_then_load_round_trip :
  (forall c : gmap string Q,
      (forall key, is_Some (DEFAULT_CONFIG !! key) -> is_Some (c !! key)) ->
      load_config (save_config c) = (c, save_config c))
  /\ (forall (file : SettingsFile) (updates : list (string * Q)),
         let c := fold_left (fun m kv => Config.set (fst kv) (snd kv) m) updates
                            (fst (load_config file)) in
         load_config (save_config c) = (c, save_config c)).
Proof.
  assert (Hgen : forall c : gmap string Q,
             (forall key, is_Some (DEFAULT_CONFIG !! key) -> is_Some (c !! key)) ->
             load_config (save_config c) = (c, save_config c)).
  { intros c Hall. unfold save_config. cbn [load_config].
    rewrite (union_defaults_absorbed c Hall). reflexivity. }
  split; [exact Hgen|].
  intros file updates c. apply Hgen. unfold c. clear c.
  assert (Hload : forall key, is_Some (DEFAULT_CONFIG !! key) ->
                              is_Some (fst (load_config file) !! key)).
  { intros key. apply (load_config_lookup file key). }
  revert Hload. generalize (fst (load_config file)) as m.
  induction updates as [|[k v] rest IH]; intros m Hm; [exact Hm|].
  cbn [fold_left fst snd]. apply IH. intros key Hdef.
  unfold Config.set. destruct (decide (k = key)) as [->|Hne].
  - rewrite lookup_insert_eq. eexists. reflexivity.
  - rewrite lookup_insert_ne by exact Hne. apply Hm, Hdef.
Qed.

(** X24. [get] after [set] returns the value set, whatever default is
    passed, and [set] does not disturb other keys; for a key that is not in
    the configuration an explicit default is returned in preference to the
    built-in one, and without an explicit default the built-in one is
    returned (nothing, for a key that has none). *)
Theorem get_set_and_defaults (c : gmap string Q) (key : string) (v : Q)
        (default_value : option Q) :
  get (Config.set key v c) key default_value = Some v
  /\ (forall key', key <> key' ->
                   get (Config.set key v c) key' default_value = get c key' default_value)
  /\ (forall v', c !! key = Some v' -> get c key default_value = Some v')
  /\ (c !! key = None ->
      (forall d, get c key (Some d) = Some d)
      /\ get c key None = DEFAULT_CONFIG !! key).
Proof.
  unfold get, Config.set. split; [|split; [|split]].
  - rewrite lookup_insert_eq. reflexivity.
  - intros key' Hne. rewrite lookup_insert_ne by exact Hne. reflexivity.
  - intros v' ->. reflexivity.
  - intros ->. split; reflexivity.
Qed.

Lemma get_set_and_defaults_witness :
  let c := fst (load_config FileInvalid) in
  (c !! "new_setting" = None /\ "sensitivity" <> "target_fps")
  /\ get (Config.set "sensitivity" 2 c) "target_fps" None = Some 60
  /\ get c "new_setting" (Some 7) = Some 7
  /\ get c "new_setting" None = None.
Proof.
  cbv zeta. set (c := fst (load_config FileInvalid)).
  assert (Hnone : c !! "new_setting" = None) by reflexivity.
  assert (Hne : "sensitivity" <> "target_fps") by discriminate.
  destruct (get_set_and_defaults c "sensitivity" 2 None) as (_ & Hother & _).
  destruct (get_set_and_defaults c "new_setting" 0 None) as (_ & _ & _ & Hmiss).
  destruct (Hmiss Hnone) as [Hexp Hbuilt].
  split; [auto|]. split; [|split].
  - rewrite (Hother _ Hne). reflexivity.
  - apply Hexp.
  - rewrite Hbuilt. reflexivity.
Defined.

End ConfigFacts.

Lemma save_then_load_round_trip_witness :
  let c := Config.set "sensitivity" 2 (fst (Config.load_config Config.FileMissing)) in
  (forall key, is_Some (Config.DEFAULT_CONFIG !! key) -> is_Some (c !! key))
  /\ Config.load_config (Config.save_config c) = (c, Config.save_config c).
Proof.
  cbv zeta.
  assert (Hall : forall key,
             is_Some (Config.DEFAULT_CONFIG !! key) ->
             is_Some (Config.set "sensitivity" 2
                        (fst (Config.load_config Config.FileMissing)) !! key)).
  { intros key Hdef. unfold Config.set. cbn [Config.load_config fst].
    destruct (decide ("sensitivity" = key)) as [<-|Hne].
    - rewrite lookup_insert_eq. eexists. reflexivity.
    - rewrite lookup_insert_ne by exact Hne. exact Hdef. }
  split; [exact Hall|].
  destruct save_then_load_round_trip as [Hgen _].
  exact (Hgen _ Hall).
Defined.

Lemma apply_is_idempotent_witness :
  let w := Scenario.window_with (0.2, 0.2) (0.8, 0.9) (Calibration.ThresholdValue 20.5) in
  let r1 := Calibration.apply_and_save_settings w Scenario.default_config in
  let r2 := Calibration.apply_and_save_settings w (Calibration.applied_config r1) in
  Calibration.settings_reloaded r1 = true
  /\ Calibration.settings_file (Calibration.applied_config r2)
     = Calibration.settings_file (Calibration.applied_config r1).
Proof.
  cbv zeta.
  assert (Hsaved : Calibration.settings_reloaded
                     (Calibration.apply_and_save_settings
                        (Scenario.window_with (0.2, 0.2) (0.8, 0.9)
                           (Calibration.ThresholdValue 20.5))
                        Scenario.default_config) = true) by reflexivity.
  split; [exact Hsaved|].
  pose proof (apply_is_idempotent
                (Scenario.window_with (0.2, 0.2) (0.8, 0.9)
                   (Calibration.ThresholdValue 20.5))
                Scenario.default_config) as Hidem.
  cbv zeta in Hidem. destruct Hidem as (_ & Hfile & _).
  exact (Hfile Hsaved).
Defined.

(** ** The camera stream *)

Section MoreStreamFacts.

Import Stream StreamLoop.

Context {Cap : Type} `{VideoCapture Cap}.

(** The two states initialisation can end in. *)
Lemma initialize_stream_states (s : @WebcamVideoStream Cap) (opened : Cap) :
  let ok := fst (initialize_stream s opened) in
  let s' := snd (initialize_stream s opened) in
  (ok = true ->
   cap_isOpened opened = true
   /\ (exists c, stream s' = Some c) /\ grabbed s' = true /\ frame_queue s' = 1%nat)
  /\ (ok = false -> stream s' = None)
  /\ requested_width s' = requested_width s
  /\ requested_height s' = requested_height s.
Proof.
  cbv zeta. unfold initialize_stream.
  destruct (cap_isOpened opened) eqn:Eopen; cbn [negb].
  2: { cbn. repeat split; intros; try discriminate; reflexivity. }
  set (cap1 := attempt_request (requested_width s) (requested_height s) opened).
  destruct ((cap_get cap1 CAP_PROP_FRAME_WIDTH =? 0)%Z
            || (cap_get cap1 CAP_PROP_FRAME_HEIGHT =? 0)%Z
            || significantly_different_from_request _ _ _ _) eqn:Etest.
  - destruct ((0 <? cap_get opened CAP_PROP_FRAME_WIDTH)%Z
              && (0 <? cap_get opened CAP_PROP_FRAME_HEIGHT)%Z).
    + destruct (cap_read (fall_back _ _ cap1)) as [[|] c']; cbn;
        repeat split; intros; try discriminate; eauto.
    + destruct ((cap_get cap1 CAP_PROP_FRAME_WIDTH =? 0)%Z
                || (cap_get cap1 CAP_PROP_FRAME_HEIGHT =? 0)%Z).
      * cbn. repeat split; intros; try discriminate; reflexivity.
      * destruct (cap_read cap1) as [[|] c']; cbn;
          repeat split; intros; try discriminate; eauto.
  - destruct (cap_read cap1) as [[|] c']; cbn;
      repeat split; intros; try discriminate; eauto.
Qed.

(** X25. Initialisation ends in one of two clean states: on success the
    capture is kept, a first frame has been grabbed and it is the only frame
    in the queue (whatever the queue held before); on failure no capture is
    kept.  The requested resolution is never altered. *)
Theorem initialize_stream_outcome (s : @WebcamVideoStream Cap) (opened : Cap) :
  let ok := fst (initialize_stream s opened) in
  let s' := snd (initialize_stream s opened) in
  (ok = true ->
   cap_isOpened opened = true
   /\ (exists c, stream s' = Some c) /\ grabbed s' = true /\ frame_queue s' = 1%nat)
  /\ (ok = false -> stream s' = None)
  /\ requested_width s' = requested_width s
  /\ requested_height s' = requested_height s.
Proof.
  exact (initialize_stream_states s opened).
Qed.

(** X26. A device that honours a valid request is used as requested: when
    the resolution read back after the attempt is the requested one, no
    fallback takes place, [actual_width] and [actual_height] are the
    requested values, and the outcome is that of grabbing the first frame in
    that configuration. *)
Theorem honoured_request_is_kept (width height : Z) (opened : Cap) :
  cap_isOpened opened = true ->
  (0 < width)%Z -> (0 < height)%Z ->
  let cap1 := cap_set (cap_set opened CAP_PROP_FRAME_WIDTH width)
                      CAP_PROP_FRAME_HEIGHT height in
  cap_get cap1 CAP_PROP_FRAME_WIDTH = width ->
  cap_get cap1 CAP_PROP_FRAME_HEIGHT = height ->
  let r := initialize_stream (new_stream width height) opened in
  actual_width (snd r) = width
  /\ actual_height (snd r) = height
  /\ fst r = fst (cap_read cap1)
  /\ (fst r = true -> stream (snd r) = Some (snd (cap_read cap1))).
Proof.
  intros Hopen Hw Hh cap1 Hgw Hgh r.
  unfold r, initialize_stream. rewrite Hopen. cbn [negb].
  cbn [requested_width requested_height new_stream].
  assert (Hatt : attempt_request width height opened = cap1).
  { unfold attempt_request.
    apply Z.ltb_lt in Hw as Hwb. apply Z.ltb_lt in Hh as Hhb.
    rewrite Hwb, Hhb. cbn [andb]. rewrite Hwb, Hhb. reflexivity. }
  rewrite Hatt, Hgw, Hgh.
  assert (Hnz : (width =? 0)%Z || (height =? 0)%Z
                || significantly_different_from_request width height width height
                = false).
  { destruct (Z.eqb_spec width 0); [lia|]. destruct (Z.eqb_spec height 0); [lia|].
    cbn [orb].
    destruct (significantly_different_from_request width height width height) eqn:E;
      [|reflexivity].
    apply significantly_different_iff in E. lia. }
  rewrite Hnz.
  destruct (cap_read cap1) as [[|] c']; cbn; repeat split; intros;
    try discriminate; reflexivity.
Qed.

(** The queue after any sequence of steps. *)
Lemma step_keeps_queue_bound (r : Runner) (e : Event) :
  (frame_queue (ws r) <= maxsize)%nat ->
  (frame_queue (ws (step r e)) <= maxsize)%nat.
Proof.
  intros Hq. destruct e; cbn [step].
  - unfold update_step. destruct (stopped r); [exact Hq|].
    destruct (stream (ws r)) as [c|]; [|exact Hq].
    destruct (cap_isOpened c); [|exact Hq].
    destruct (Nat.ltb_spec (frame_queue (ws r)) maxsize); [|exact Hq].
    destruct (cap_read c) as [[|] c']; cbn; lia.
  - unfold read. destruct (frame_queue (ws r)) eqn:E; cbn; lia.
  - unfold stop. destruct (stopped r); cbn; [exact Hq | lia].
Qed.

(** X27. The frame queue never overflows: from a stream whose queue holds at
    most 5 frames - in particular from any stream just started, which holds
    exactly one - no interleaving of acquisition turns, reads and stops ever
    leaves more than 5 frames waiting. *)
Theorem frame_queue_never_overflows :
  (forall (r : Runner) (events : list Event),
      (frame_queue (ws r) <= maxsize)%nat ->
      (frame_queue (ws (steps r events)) <= maxsize)%nat)
  /\ (forall (r r' : Runner) (opened : Cap) (events : list Event),
         stopped r = true ->
         start r opened = Some r' ->
         stopped r' = false
         /\ frame_queue (ws r') = 1%nat
         /\ (frame_queue (ws (steps r' events)) <= maxsize)%nat).
Proof.
  assert (Hinv : forall (events : list Event) (r : Runner),
             (frame_queue (ws r) <= maxsize)%nat ->
             (frame_queue (ws (steps r events)) <= maxsize)%nat).
  { induction events as [|e rest IH]; intros r Hq; [exact Hq|].
    unfold steps. cbn [fold_left]. apply IH, step_keeps_queue_bound, Hq. }
  split; [intros r events; apply Hinv|].
  intros r r' opened events Hstopped Hstart.
  unfold start in Hstart. rewrite Hstopped in Hstart. cbn [negb] in Hstart.
  pose proof (initialize_stream_states (ws r) opened) as Hout. cbv zeta in Hout.
  destruct (initialize_stream (ws r) opened) as [[|] s']; [|discriminate].
  injection Hstart as <-. cbn [fst snd] in Hout.
  destruct Hout as (Hok & _). destruct (Hok eq_refl) as (_ & _ & _ & Hone).
  cbn [ws stopped]. split; [reflexivity|]. split; [exact Hone|].
  apply Hinv. cbn [ws]. rewrite Hone. unfold maxsize. lia.
Qed.

End MoreStreamFacts.

Section StreamWitnesses.

Import Stream StreamLoop.

Lemma initialize_stream_outcome_witness :
  let r := Stream.initialize_stream (Stream.new_stream 480 360)
             {| Stream.native_width := 640; Stream.native_height := 480 |} in
  fst r = true
  /\ Stream.grabbed (snd r) = true /\ Stream.frame_queue (snd r) = 1%nat.
Proof.
  cbv zeta.
  assert (Hok : fst (Stream.initialize_stream (Stream.new_stream 480 360)
                       {| Stream.native_width := 640; Stream.native_height := 480 |})
                = true) by reflexivity.
  split; [exact Hok|].
  pose proof (initialize_stream_outcome (Stream.new_stream 480 360)
                {| Stream.native_width := 640; Stream.native_height := 480 |}) as Hout.
  cbv zeta in Hout. destruct Hout as (Hsucc & _).
  destruct (Hsucc Hok) as (_ & _ & Hg & Hq). auto.
Defined.

Lemma honoured_request_is_kept_witness :
  let cam := {| Stream.cur_width := 640; Stream.cur_height := 480 |} in
  (Stream.cap_isOpened cam = true /\ (0 < 1280)%Z /\ (0 < 720)%Z)
  /\ Stream.actual_width (snd (Stream.initialize_stream (Stream.new_stream 1280 720) cam))
     = 1280%Z
  /\ Stream.actual_height (snd (Stream.initialize_stream (Stream.new_stream 1280 720) cam))
     = 720%Z.
Proof.
  cbv zeta.
  set (cam := {| Stream.cur_width := 640; Stream.cur_height := 480 |}).
  assert (Hopen : Stream.cap_isOpened cam = true) by reflexivity.
  assert (Hw : (0 < 1280)%Z) by lia.
  assert (Hh : (0 < 720)%Z) by lia.
  split; [auto|].
  pose proof (honoured_request_is_kept 1280 720 cam Hopen Hw Hh eq_refl eq_refl) as Hkept.
  cbv zeta in Hkept. destruct Hkept as (Haw & Hah & _). auto.
Defined.

Lemma frame_queue_never_overflows_witness :
  let cam := {| Stream.native_width := 640; Stream.native_height := 480 |} in
  let events := repeat StreamLoop.Update 9 ++ [StreamLoop.Read] in
  exists r',
    StreamLoop.start (StreamLoop.new_runner 480 360) cam = Some r'
    /\ StreamLoop.stopped (StreamLoop.new_runner (Cap := Stream.FixedCamera) 480 360) = true
    /\ (Stream.frame_queue (StreamLoop.ws (StreamLoop.steps r' events)) <= StreamLoop.maxsize)%nat
    /\ Stream.frame_queue (StreamLoop.ws (StreamLoop.steps r' events)) = 4%nat.
Proof.
  cbv zeta. eexists. split; [reflexivity|]. split; [reflexivity|]. split.
  - destruct (@frame_queue_never_overflows Stream.FixedCamera _) as [_ Hstart].
    eapply (Hstart (StreamLoop.new_runner 480 360) _
                   {| Stream.native_width := 640; Stream.native_height := 480 |}).
    + reflexivity.
    + reflexivity.
  - reflexivity.
Defined.

End StreamWitnesses.
